(** * SEO Research Pro: the analysis client and dashboard

    A shallow embedding of the request, state and render logic of the three
    page components of the repository:

    - [Crawl]     : [src/app/page.tsx], first component ([SEOData], [/api/crawl]);
    - [Dashboard] : [src/app/page.tsx], second component ([KeywordData],
                    [CompetitorData], [/keywords] and [/analyze]);
    - [Analyzer]  : [src/unnamed/part_003] ([AnalyzePayload], [isValidUrl],
                    [copyMerged], [downloadCSV]).

    JavaScript numbers are IEEE 754 binary64 values ([SpecFloat]); strings are
    the UTF-8 bytes of the JavaScript string. Only a well-formed string has
    a UTF-8 form: a string with a lone surrogate, on which
    [encodeURIComponent] throws a [URIError] and which [URLSearchParams]
    sends as U+FFFD, is not among the strings of this development. *)

From Stdlib Require Import ZArith List String Ascii Bool Lia DecimalString.
From Stdlib Require Import Floats.SpecFloat.
Import ListNotations.

Local Open Scope list_scope.
Local Open Scope string_scope.

Set Warnings "-register-all".

(** ** JavaScript values used by the components *)

Module Js.

(** *** Numbers: binary64 *)

Definition prec : Z := 53.
Definition emax : Z := 1024.

Definition number : Type := spec_float.

(** The number denoted by an integer literal or an integral JSON number. *)
Definition of_Z (z : Z) : number := binary_normalize prec emax z 0 false.

Definition mul (x y : number) : number := SFmul prec emax x y.
Definition div (x y : number) : number := SFdiv prec emax x y.

(** A decimal literal [m / 10^k] is the binary64 value nearest to it;
    [m] and [10^k] are exact here and the division rounds correctly. *)
Definition decimal (m : Z) (k : Z) : number := div (of_Z m) (of_Z (10 ^ k)).

(** The three literals of the competitor view: [1.2], [0.8] and [0.9]. *)
Definition lit_1_2 : number := decimal 12 1.
Definition lit_0_8 : number := decimal 8 1.
Definition lit_0_9 : number := decimal 9 1.

(** [ToBoolean] on a number: [+0], [-0] and [NaN] are falsy. *)
Definition truthy (x : number) : bool :=
  match x with
  | S754_zero _ | S754_nan => false
  | S754_infinity _ | S754_finite _ _ _ => true
  end.

(** [Math.floor]: the largest integral number not above [x]; zeros,
    infinities and NaN are returned unchanged, and a negative [x] above
    [-1] gives [-1], a positive one below [1] gives [+0]. *)
Definition Math_floor (x : number) : number :=
  match x with
  | S754_finite s m e =>
      if (0 <=? e)%Z then x
      else
        let v := (cond_Zopp s (Zpos m) / 2 ^ (- e))%Z in
        if (v =? 0)%Z then S754_zero s else of_Z v
  | _ => x
  end.

(** The integer value of an integral number, when it has one. *)
Definition to_Z (x : number) : option Z :=
  match x with
  | S754_zero _ => Some 0%Z
  | S754_finite s m e =>
      if (0 <=? e)%Z then Some (cond_Zopp s (Zpos m) * 2 ^ e)%Z
      else if (Zpos m mod 2 ^ (- e) =? 0)%Z
           then Some (cond_Zopp s (Zpos m) / 2 ^ (- e))%Z
           else None
  | _ => None
  end.

(** The same binary64 datum: sign, mantissa and exponent. *)
Definition same_number (x y : number) : bool :=
  match x, y with
  | S754_zero s1, S754_zero s2 => Bool.eqb s1 s2
  | S754_infinity s1, S754_infinity s2 => Bool.eqb s1 s2
  | S754_nan, S754_nan => true
  | S754_finite s1 m1 e1, S754_finite s2 m2 e2 =>
      Bool.eqb s1 s2 && Pos.eqb m1 m2 && Z.eqb e1 e2
  | _, _ => false
  end.

(** *** Strings *)

(** [ToBoolean] on a string: only the empty string is falsy. *)
Definition truthy_str (s : string) : bool :=
  match s with
  | EmptyString => false
  | String _ _ => true
  end.

(** *** [Number::toString] in radix 10

    For a finite [x = m * 2^e] above zero the digits are those of the
    integer [s] with the fewest digits [k] such that [s * 10^(n-k)] rounds
    to [x], the nearest to [x] when several qualify. All comparisons are
    between integers: a value [v] is held as [v * 10^(-c) * 2^max(-g,0)],
    with [g = e - 2] and [c] below every decimal exponent tried. *)

Definition emin : Z := (3 - emax - prec)%Z.

Section Shortest.

Local Open Scope Z_scope.

Variable m : positive.
Variable e : Z.

Definition g : Z := e - 2.

(** [10^(est)] is near [x]; the decimal point of [x] is sought around it. *)
Definition est : Z := (Z.log2 (Zpos m) + e) * 1233 / 4096.

Definition c : Z := Z.min 0 (est - 20).

(** [s * 10^t], scaled. *)
Definition scaled_dec (s t : Z) : Z := s * 10 ^ (t - c) * 2 ^ Z.max (- g) 0.

(** [N * 2^g], scaled; [x] itself is [N = 4 m]. *)
Definition scaled_bin (N : Z) : Z := N * 2 ^ Z.max g 0 * 10 ^ (- c).

(** The numbers that round to [x] lie between the middle to the number
    below and the middle to the number above, the ends included when [m]
    is even. *)
Definition below : Z :=
  if (Zpos m =? 2 ^ (prec - 1)) && (emin <? e) then 4 * Zpos m - 1 else 4 * Zpos m - 2.
Definition above : Z := 4 * Zpos m + 2.

Definition rounds_to_x (s t : Z) : bool :=
  let v := scaled_dec s t in
  let lo := scaled_bin below in
  let hi := scaled_bin above in
  ((lo <? v) && (v <? hi)) || (Z.even (Zpos m) && ((v =? lo) || (v =? hi))).

Definition distance (s t : Z) : Z := Z.abs (scaled_dec s t - scaled_bin (4 * Zpos m)).

(** The candidates with [k] digits: for each place of the decimal point,
    the two integers around [x / 10^t]. *)
Definition candidates (k : Z) : list (Z * Z) :=
  flat_map
    (fun n =>
       let t := n - k in
       let s0 := scaled_bin (4 * Zpos m) / scaled_dec 1 t in
       filter
         (fun st => (10 ^ (k - 1) <=? fst st) && (fst st <? 10 ^ k)
                    && rounds_to_x (fst st) (snd st))
         [(s0, t); (s0 + 1, t)])
    [est - 1; est; est + 1; est + 2; est + 3].

Definition nearer (a b : Z * Z) : Z * Z :=
  match Z.compare (distance (fst a) (snd a)) (distance (fst b) (snd b)) with
  | Lt => a
  | Gt => b
  | Eq => if Z.even (fst a) then a else b
  end.

Fixpoint fewest (ks : list Z) : option (Z * Z * Z) :=
  match ks with
  | [] => None
  | k :: ks' =>
      match candidates k with
      | [] => fewest ks'
      | a :: l => let best := fold_left nearer l a in Some (fst best, snd best + k, k)
      end
  end.

(** The digits [s], the place [n] of the decimal point and the count [k]. *)
Definition shortest : option (Z * Z * Z) :=
  fewest [1; 2; 3; 4; 5; 6; 7; 8; 9; 10; 11; 12; 13; 14; 15; 16; 17].

End Shortest.

Fixpoint zeros (n : nat) : string :=
  match n with
  | O => EmptyString
  | S n' => String "0" (zeros n')
  end.

Definition spell (s n k : Z) : string :=
  let digits := NilEmpty.string_of_int (Z.to_int s) in
  if ((k <=? n) && (n <=? 21))%Z then digits ++ zeros (Z.to_nat (n - k))
  else if ((0 <? n) && (n <=? 21))%Z
  then substring 0 (Z.to_nat n) digits ++ "."
       ++ substring (Z.to_nat n) (Z.to_nat (k - n)) digits
  else if ((-6 <? n) && (n <=? 0))%Z then "0." ++ zeros (Z.to_nat (- n)) ++ digits
  else
    let exponent :=
      (if (0 <=? n - 1)%Z then "+" else "-")
      ++ NilEmpty.string_of_int (Z.to_int (Z.abs (n - 1))) in
    if (k =? 1)%Z then digits ++ "e" ++ exponent
    else substring 0 1 digits ++ "." ++ substring 1 (Z.to_nat (k - 1)) digits
         ++ "e" ++ exponent.

Definition toString (x : number) : string :=
  match x with
  | S754_nan => "NaN"
  | S754_infinity false => "Infinity"
  | S754_infinity true => "-Infinity"
  | S754_zero _ => "0"
  | S754_finite sign m e =>
      match shortest m e with
      | Some (s, n, k) => (if sign then "-" else "") ++ spell s n k
      | None => "NaN"
      end
  end.

(** *** Comparisons and [toFixed] *)

(** [x >= y] and [x > y]: false as soon as one side is NaN. *)
Definition geb (x y : number) : bool := SFleb y x.
Definition gtb (x y : number) : bool := SFltb y x.

(** The digits of [n >= 0] with the decimal point before the last [f]. *)
Definition fixed_digits (n f : Z) : string :=
  let m := NilEmpty.string_of_int (Z.to_int n) in
  if (f =? 0)%Z then m
  else
    let k := Z.of_nat (String.length m) in
    let m := if (k <=? f)%Z then zeros (Z.to_nat (f + 1 - k)) ++ m else m in
    let k := Z.of_nat (String.length m) in
    substring 0 (Z.to_nat (k - f)) m ++ "."
    ++ substring (Z.to_nat (k - f)) (Z.to_nat f) m.

(** [x.toFixed(f)] for [0 <= f <= 100]: the integer [n] nearest to
    [|x| * 10^f], the larger one of two, spelled with [f] fraction digits;
    a number from [10^21] on is spelled by [toString]. *)
Definition toFixed (f : Z) (x : number) : string :=
  match x with
  | S754_nan | S754_infinity _ => toString x
  | S754_zero _ => fixed_digits 0 f
  | S754_finite sign m e =>
      let big :=
        if (0 <=? e)%Z then (10 ^ 21 <=? Zpos m * 2 ^ e)%Z
        else (10 ^ 21 * 2 ^ (- e) <=? Zpos m)%Z in
      if big then toString x
      else
        let n :=
          if (0 <=? e)%Z then (Zpos m * 2 ^ e * 10 ^ f)%Z
          else ((2 * (Zpos m * 10 ^ f) + 2 ^ (- e)) / (2 * 2 ^ (- e)))%Z in
        (if sign then "-" else "") ++ fixed_digits n f
  end.

End Js.

(** ** Strings, as the byte sequences the browser produces *)

Module Text.

Definition dquote : ascii := "034"%char.

Definition newline : string := String "010" "".

(** The byte order mark U+FEFF, in UTF-8. *)
Definition bom : string := String "239" (String "187" (String "191" "")).

(** [String(z)] for an integer [z]. *)
Definition decimal (z : Z) : string :=
  NilEmpty.string_of_int (Z.to_int z).

(** [Array.prototype.join]. *)
Definition join (sep : string) (l : list string) : string :=
  String.concat sep l.

Definition byte_in (lo hi : nat) (c : ascii) : bool :=
  (lo <=? nat_of_ascii c)%nat && (nat_of_ascii c <=? hi)%nat.

Definition alphanumeric (c : ascii) : bool :=
  byte_in 48 57 c || byte_in 65 90 c || byte_in 97 122 c.

Fixpoint mem_char (c : ascii) (s : string) : bool :=
  match s with
  | EmptyString => false
  | String d s' => Ascii.eqb c d || mem_char c s'
  end.

Definition hex_digit (n : nat) : ascii :=
  if (n <? 10)%nat then ascii_of_nat (48 + n) else ascii_of_nat (55 + n).

(** [%XY], upper-case hexadecimal. *)
Definition percent (c : ascii) : string :=
  let n := nat_of_ascii c in
  String "%" (String (hex_digit (n / 16)) (String (hex_digit (n mod 16)) "")).

(** [encodeURIComponent] on a well-formed string: every byte of the UTF-8
    form is escaped except the letters, the digits and
    [- _ . ! ~ * ' ( )]. *)
Fixpoint encodeURIComponent (s : string) : string :=
  match s with
  | EmptyString => EmptyString
  | String c s' =>
      (if alphanumeric c || mem_char c "-_.!~*'()"
       then String c EmptyString else percent c)
      ++ encodeURIComponent s'
  end.

(** The [application/x-www-form-urlencoded] byte serializer used by
    [URLSearchParams.prototype.toString], on the UTF-8 form of a well-formed
    string: a space becomes [+]; letters, digits and [* - . _] stay; every
    other byte is escaped. *)
Fixpoint form_encode (s : string) : string :=
  match s with
  | EmptyString => EmptyString
  | String c s' =>
      (if Ascii.eqb c " " then "+"
       else if alphanumeric c || mem_char c "*-._"
       then String c EmptyString else percent c)
      ++ form_encode s'
  end.

Definition URLSearchParams_toString (params : list (string * string)) : string :=
  join "&" (map (fun p => form_encode (fst p) ++ "=" ++ form_encode (snd p)) params).

(** The text between two double quote characters. *)
Definition quoted (s : string) : string :=
  String dquote (s ++ String dquote "").

(** The global replace of [downloadCSV]: every double quote character of
    the keyword is doubled. *)
Fixpoint double_quotes (s : string) : string :=
  match s with
  | EmptyString => EmptyString
  | String c s' =>
      if Ascii.eqb c dquote
      then String dquote (String dquote (double_quotes s'))
      else String c (double_quotes s')
  end.

(** [s.trim()] is the empty string exactly when [s] consists of white space
    and line terminators only: U+0009..U+000D, U+0020, U+00A0, U+1680,
    U+2000..U+200A, U+2028, U+2029, U+202F, U+205F, U+3000 and U+FEFF,
    recognised here in their UTF-8 form. *)
Fixpoint blank (s : string) : bool :=
  match s with
  | EmptyString => true
  | String c1 s1 =>
      if byte_in 9 13 c1 || Ascii.eqb c1 " " then blank s1
      else
        match s1 with
        | EmptyString => false
        | String c2 s2 =>
            if Ascii.eqb c1 "194" && Ascii.eqb c2 "160" then blank s2
            else
              match s2 with
              | EmptyString => false
              | String c3 s3 =>
                  if (Ascii.eqb c1 "225" && Ascii.eqb c2 "154" && Ascii.eqb c3 "128")
                     || (Ascii.eqb c1 "226" && Ascii.eqb c2 "128"
                         && (byte_in 128 138 c3 || byte_in 168 169 c3
                             || Ascii.eqb c3 "175"))
                     || (Ascii.eqb c1 "226" && Ascii.eqb c2 "129" && Ascii.eqb c3 "159")
                     || (Ascii.eqb c1 "227" && Ascii.eqb c2 "128" && Ascii.eqb c3 "128")
                     || (Ascii.eqb c1 "239" && Ascii.eqb c2 "187" && Ascii.eqb c3 "191")
                  then blank s3
                  else false
              end
        end
  end.

End Text.

(** ** What the handlers and the renderer exchange with the browser *)

(** A value caught by a [catch] clause: an [Error] instance with its message
    (the [TypeError] of a rejected [fetch], the [SyntaxError] of a body that
    is not JSON, an [Error] made by the handler), or any other value. *)
Inductive Thrown : Type :=
| ErrorObj (message : string)
| NonError.

(** A computation that returns or throws. *)
Inductive Outcome (A : Type) : Type :=
| Returned (a : A)
| Threw (e : Thrown).
Arguments Returned {A} a.
Arguments Threw {A} e.

Definition bind {A B : Type} (c : Outcome A) (k : A -> Outcome B) : Outcome B :=
  match c with
  | Returned a => k a
  | Threw e => Threw e
  end.

Notation "x <- c ;; k" := (bind c (fun x => k))
  (at level 61, c at next level, right associativity).

Fixpoint sequence {A : Type} (l : list (Outcome A)) : Outcome (list A) :=
  match l with
  | [] => Returned []
  | c :: l' => x <- c ;; xs <- sequence l' ;; Returned (x :: xs)
  end.

(** A JSON value, as [response.json()] parses it. *)
Inductive Json : Type :=
| JNull
| JBool (b : bool)
| JNum (n : Js.number)
| JStr (s : string)
| JArr (items : list Json)
| JObj (members : list (string * Json)).

(** [ToBoolean] on a parsed value: [null], [false], zero and the empty
    string are falsy; every array and every object is truthy. *)
Definition json_truthy (j : Json) : bool :=
  match j with
  | JNull => false
  | JBool b => b
  | JNum n => Js.truthy n
  | JStr s => Js.truthy_str s
  | JArr _ | JObj _ => true
  end.

(** [ToString] on a parsed value, as [new Error(value)] applies it: an
    array is its elements joined by commas, [null] elements left empty; an
    object is [[object Object]] (an object with a member of its own named
    [toString] or [valueOf], whose conversion throws, is left out). *)
Fixpoint json_text (j : Json) : string :=
  match j with
  | JNull => "null"
  | JBool b => if b then "true" else "false"
  | JNum n => Js.toString n
  | JStr s => s
  | JArr items =>
      Text.join ","
        (map (fun x => match x with JNull => "" | _ => json_text x end) items)
  | JObj _ => "[object Object]"
  end.

(** Whether a member that may be missing is there and truthy. *)
Definition present_truthy (x : option Json) : bool :=
  match x with
  | Some j => json_truthy j
  | None => false
  end.

(** [x || fallback] on a member that may be missing. *)
Definition member_or (x : option Json) (fallback : Json) : Json :=
  match x with
  | Some j => if json_truthy j then j else fallback
  | None => fallback
  end.

(** A member that is missing, falsy or a string. *)
Definition textual (x : option Json) : Prop :=
  forall j, x = Some j -> json_truthy j = true -> exists s, j = JStr s.

(** The error body of a response whose [ok] flag is false, as
    [response.json()] delivers it: not JSON at all (the promise rejects and
    the handler goes on with an empty object), the JSON value [null], or
    any other JSON value with the [detail] and [message] members it has (a
    number, a string, a boolean and an array have neither). *)
Inductive ErrorBody : Type :=
| NotJson
| JsonNull
| JsonObject (detail message : option Json).

(** What [fetch] and the reading of the body deliver for a payload type
    [P]: the promise of [fetch] rejects; the response is not ok; the
    response is ok and reading its body gives a payload object or throws;
    the response is ok and its body is the JSON value [null], which the
    state of each page can hold. An ok body that is a number, a string, a
    boolean or an array is none of the values the pages are typed for and
    is left out. *)
Inductive FetchResult (P : Type) : Type :=
| Rejected (e : Thrown)
| NotOk (status : Z) (errorBody : ErrorBody)
| Ok (payload : Outcome P)
| OkNull.
Arguments Rejected {P} e.
Arguments NotOk {P} status errorBody.
Arguments Ok {P} payload.
Arguments OkNull {P}.

(** What a handler does to the world outside the component state. *)
Inductive Effect : Type :=
| Fetch (url : string)
| ClipboardWrite (text : string)
| SetTimeout (ms : Z)
| Download (filename mime content : string).

(** The value of a JSX expression: React shows numbers (zero included) and
    strings, shows nothing for [undefined] and booleans, and descends into
    elements. *)
Inductive Value : Type :=
| VUndefined
| VBool (b : bool)
| VNum (n : Js.number)
| VStr (s : string)
| VNode (label : string) (children : list Value).

Definition truthy (v : Value) : bool :=
  match v with
  | VUndefined => false
  | VBool b => b
  | VNum n => Js.truthy n
  | VStr s => Js.truthy_str s
  | VNode _ _ => true
  end.

(** Whether React puts anything on the page for the value. *)
Definition rendered (v : Value) : bool :=
  match v with
  | VUndefined | VBool _ => false
  | VNum _ => true
  | VStr s => Js.truthy_str s
  | VNode _ _ => true
  end.

(** [a || b] and [a && b]. *)
Definition or_else (a b : Value) : Value := if truthy a then a else b.
Definition and_then (a b : Value) : Value := if truthy a then b else a.

Definition num_val (x : option Js.number) : Value :=
  match x with Some n => VNum n | None => VUndefined end.

Definition str_val (x : option string) : Value :=
  match x with Some s => VStr s | None => VUndefined end.

Definition length_val {A : Type} (l : list A) : Value :=
  VNum (Js.of_Z (Z.of_nat (List.length l))).

(** [x || []] on an array that may be missing. *)
Definition or_empty {A : Type} (x : option (list A)) : list A :=
  match x with Some l => l | None => [] end.

(** [obj?.[key]] on a string-keyed object that may be missing. *)
Fixpoint lookup {A : Type} (key : string) (obj : list (string * A)) : option A :=
  match obj with
  | [] => None
  | (k, v) :: obj' => if String.eqb k key then Some v else lookup key obj'
  end.

Definition member {A : Type} (obj : option (list (string * A))) (key : string) : option A :=
  match obj with
  | Some o => lookup key o
  | None => None
  end.

(** [x || fallback] on a string that may be missing. *)
Definition str_or (x : option string) (fallback : string) : string :=
  match x with
  | Some s => if Js.truthy_str s then s else fallback
  | None => fallback
  end.

(** [process.env.NEXT_PUBLIC_FASTAPI_URL || fallback]. *)
Definition backend_origin (env : option string) (fallback : string) : string :=
  str_or env fallback.

(** ** [src/unnamed/part_003]: the analyzer page with the URL validator *)

Module Analyzer.

(** [AnalyzePayload]; a member the response leaves out is [None]. *)
Record AnalyzePayload : Type := {
  url : option string;
  title : option string;
  meta_description : option string;
  word_count : option Js.number;
  content_metrics : option (list (string * Js.number));
  technical : option (list (string * bool));
  headings : option (list (string * list string));
  keywords : option (list (string * list string))
}.

(** The two members of a parsed [URL] that [isValidUrl] reads. *)
Record URLRecord : Type := { protocol : string; host : string }.

(** The component state: the six [useState] cells. *)
Record State : Type := {
  st_url : string;
  geminiTopN : Js.number;
  loading : bool;
  data : option AnalyzePayload;
  error : string;
  copied : bool
}.

Definition initial : State :=
  {| st_url := ""; geminiTopN := Js.of_Z 20; loading := false;
     data := None; error := ""; copied := false |}.

Definition setUrl (v : string) (st : State) : State :=
  {| st_url := v; geminiTopN := geminiTopN st; loading := loading st;
     data := data st; error := error st; copied := copied st |}.
Definition setGeminiTopN (n : Js.number) (st : State) : State :=
  {| st_url := st_url st; geminiTopN := n; loading := loading st;
     data := data st; error := error st; copied := copied st |}.
Definition setLoading (b : bool) (st : State) : State :=
  {| st_url := st_url st; geminiTopN := geminiTopN st; loading := b;
     data := data st; error := error st; copied := copied st |}.
Definition setData (d : option AnalyzePayload) (st : State) : State :=
  {| st_url := st_url st; geminiTopN := geminiTopN st; loading := loading st;
     data := d; error := error st; copied := copied st |}.
Definition setError (e : string) (st : State) : State :=
  {| st_url := st_url st; geminiTopN := geminiTopN st; loading := loading st;
     data := data st; error := e; copied := copied st |}.
Definition setCopied (b : bool) (st : State) : State :=
  {| st_url := st_url st; geminiTopN := geminiTopN st; loading := loading st;
     data := data st; error := error st; copied := b |}.

(** The bounds the number input declares: [min={5}] and [max={100}]. *)
Definition topn_min : Z := 5.
Definition topn_max : Z := 100.

Section WithBrowser.

(** [new URL(value)]: [None] when the constructor throws. *)
Variable URL_parse : string -> option URLRecord.
(** [Number(s)] on a non-empty string. *)
Variable StringToNumber : string -> Js.number.

Definition isValidUrl (value : string) : bool :=
  match URL_parse value with
  | Some u => Js.truthy_str (protocol u) && Js.truthy_str (host u)
  | None => false
  end.

Definition valid (st : State) : bool := isValidUrl (st_url st).

(** The [onChange] of the number input:
    [setGeminiTopN(Number(e.target.value || 0))]. *)
Definition onChangeTopN (value : string) (st : State) : State :=
  setGeminiTopN
    (if Js.truthy_str value then StringToNumber value else Js.of_Z 0) st.

(** The request of [analyzeSEO]. *)
Definition request (env : option string) (st : State) : string :=
  let API_URL := backend_origin env "http://localhost:8000" in
  let params :=
    Text.URLSearchParams_toString
      [("url", st_url st);
       ("gemini_top_n", Js.toString (geminiTopN st))] in
  API_URL ++ "/analyze?" ++ params.

(** The message thrown on a response that is not ok. *)
Definition error_message (status : Z) (body : ErrorBody) : string :=
  let generic := "HTTP error! status: " ++ Text.decimal status in
  match body with
  | NotJson | JsonNull => generic
  | JsonObject detail message =>
      json_text (member_or detail (member_or message (JStr generic)))
  end.

(** The body of the [try]: what is stored by [setData], or what is thrown. *)
Definition attempt (r : FetchResult AnalyzePayload)
  : Outcome (option AnalyzePayload) :=
  match r with
  | Rejected e => Threw e
  | NotOk status body => Threw (ErrorObj (error_message status body))
  | Ok payload => p <- payload ;; Returned (Some p)
  | OkNull => Returned None
  end.

(** [analyzeSEO]: the state after the handler has run to its end and the
    effects it had; [fetch] is what the network answers to a request. *)
Definition analyzeSEO (env : option string)
    (fetch : string -> FetchResult AnalyzePayload) (st : State)
  : State * list Effect :=
  if negb (Js.truthy_str (st_url st)) || negb (valid st) then (st, [])
  else
    let st1 := setCopied false (setError "" (setLoading true st)) in
    let req := request env st1 in
    let st2 :=
      match attempt (fetch req) with
      | Returned payload => setData payload st1
      | Threw err =>
          setError
            (match err with
             | ErrorObj m => m
             | NonError => "Failed to analyze website"
             end)
            (setData None st1)
      end in
    (setLoading false st2, [Fetch req]).

(** The Dismiss button of the error box. *)
Definition dismiss (st : State) : State := setError "" st.

(** [data?.keywords?.[source] || []]. *)
Definition keyword_list (d : option AnalyzePayload) (source : string) : list string :=
  or_empty (member (match d with Some p => keywords p | None => None end) source).

(** [copyMerged]; [clipboard_ok] tells whether [writeText] resolves. *)
Definition copyMerged (clipboard_ok : bool) (st : State) : State * list Effect :=
  let merged := keyword_list (data st) "merged" in
  if (List.length merged =? 0)%nat then (st, [])
  else if clipboard_ok
       then (setCopied true st,
             [ClipboardWrite (Text.join Text.newline merged); SetTimeout 1500])
       else (st, [ClipboardWrite (Text.join Text.newline merged)]).

(** [pushRows]: the [forEach] pushes one row per keyword onto [rows]. *)
Definition pushRows (source : string) (words : list string) (rows : list string)
  : list string :=
  fold_left
    (fun rows kw =>
       let row := source ++ "," ++ Text.quoted (Text.double_quotes kw) in
       (rows ++ [row])%list)
    words rows.

(** The text handed to the [Blob] by [downloadCSV]. *)
Definition csv (d : option AnalyzePayload) : string :=
  let rows := ["source,keyword"] in
  let rows := pushRows "merged" (keyword_list d "merged") rows in
  let rows := pushRows "gemini" (keyword_list d "gemini") rows in
  let rows := pushRows "onpage" (keyword_list d "onpage") rows in
  Text.bom ++ Text.join Text.newline rows.

(** [downloadCSV]: the blob is offered as [keywords.csv] through a
    temporary anchor element; the state is left as it is. *)
Definition downloadCSV (st : State) : State * list Effect :=
  (st, [Download "keywords.csv" "text/csv;charset=utf-8;" (csv (data st))]).

(** *** The renderer *)

Definition BoolIndicator (ok : bool) : Value :=
  VNode (if ok then "CheckCircle" else "AlertCircle") [].

(** [technical?.[key]] coerced with [!!]. *)
Definition flag (p : AnalyzePayload) (key : string) : bool :=
  match member (technical p) key with
  | Some b => b
  | None => false
  end.

(** One keyword group: the count [list?.length || 0], one badge per keyword
    of [list || []], and a note when that list is empty. *)
Definition keyword_group (label note : string) (l : option (list string)) : Value :=
  VNode label
    ((or_else (match l with Some x => length_val x | None => VUndefined end)
              (VNum (Js.of_Z 0))
      :: map VStr (or_empty l))
     ++ [and_then (VBool (List.length (or_empty l) =? 0)%nat) (VStr note)])%list.

(** The panels shown for a loaded payload. *)
Definition results (is_copied : bool) (p : AnalyzePayload) : Value :=
  let h1s := or_empty (member (headings p) "h1") in
  let h2s := or_empty (member (headings p) "h2") in
  VNode "results"
    [ VNode "Words" [num_val (word_count p)];
      VNode "H1 Tags" [length_val h1s];
      VNode "H2 Tags" [length_val h2s];
      VNode "Keyword Suggestions"
        [ VStr (if is_copied then "Copied" else "Copy merged");
          VStr "Export CSV";
          keyword_group "Merged" "No suggestions" (member (keywords p) "merged");
          keyword_group "AI (Gemini)" "No AI keywords available"
            (member (keywords p) "gemini");
          keyword_group "On-page Phrases" "No on-page phrases found"
            (member (keywords p) "onpage") ];
      VNode "Page Information"
        [ or_else (str_val (title p)) (VStr "No title detected");
          or_else (str_val (meta_description p)) (VStr "No meta description found") ];
      VNode "Heading Structure"
        [ VNode "H1 Tags"
            ((length_val h1s :: map VStr h1s)
             ++ [and_then (VBool (List.length h1s =? 0)%nat)
                   (VStr "No H1 tags found")])%list;
          VNode "H2 Tags"
            ((length_val h2s :: map VStr (firstn 10 h2s))
             ++ [and_then (VBool (List.length h2s =? 0)%nat)
                   (VStr "No H2 tags found")])%list ];
      VNode "Technical SEO"
        [ BoolIndicator (truthy (str_val (meta_description p))
                         || flag p "has_meta_description");
          BoolIndicator (0 <? List.length h1s)%nat;
          BoolIndicator (flag p "has_canonical");
          BoolIndicator (flag p "has_og") ] ].

(** The page: search panel, validation note, error box, then the skeleton,
    the results or the hint. *)
Definition view (st : State) : Value :=
  VNode "SEOAnalyzer"
    [ VNode "Input" [VStr (st_url st)];
      VNode "Input#topn"
        [ VNode "min" [VNum (Js.of_Z topn_min)];
          VNode "max" [VNum (Js.of_Z topn_max)];
          VNum (geminiTopN st) ];
      VNode "Button"
        [ VBool (negb (valid st) || loading st);
          VStr (if loading st then "Analyzing" else "Analyze SEO") ];
      and_then (VBool (negb (valid st)))
        (and_then (VBool (0 <? String.length (st_url st))%nat)
           (VStr "Enter a valid URL including https://"));
      and_then (VStr (error st)) (VNode "error" [VStr (error st); VStr "Dismiss"]);
      and_then (VBool (loading st)) (VNode "LoadingSkeleton" []);
      match data st with
      | Some p => and_then (VBool (negb (loading st))) (results (copied st) p)
      | None => VUndefined
      end;
      and_then (VBool (match data st with Some _ => false | None => true end))
        (and_then (VBool (negb (loading st)))
           (VStr "Enter a URL above and click Analyze to get started.")) ].

(** *** The events of the page *)

(** What the user and the browser do: type into an input, click a button,
    let the timer of [copyMerged] fire. *)
Inductive Event : Type :=
| TypeUrl (v : string)
| TypeTopN (v : string)
| ClickAnalyze (fetch : string -> FetchResult AnalyzePayload)
| ClickDismiss
| ClickCopy (clipboard_ok : bool)
| ClickExport
| TimerFires.

(** One event. The analyze button is disabled while the URL is invalid or a
    request is loading; the copy and export buttons exist only beside the
    results. The timer may fire at any time. *)
Definition step (env : option string) (ev : Event) (st : State)
  : State * list Effect :=
  match ev with
  | TypeUrl v => (setUrl v st, [])
  | TypeTopN v => (onChangeTopN v st, [])
  | ClickAnalyze fetch =>
      if negb (valid st) || loading st then (st, []) else analyzeSEO env fetch st
  | ClickDismiss => (dismiss st, [])
  | ClickCopy clipboard_ok =>
      match data st with
      | Some _ => if loading st then (st, []) else copyMerged clipboard_ok st
      | None => (st, [])
      end
  | ClickExport =>
      match data st with
      | Some _ => if loading st then (st, []) else downloadCSV st
      | None => (st, [])
      end
  | TimerFires => (setCopied false st, [])
  end.

(** A session: the events in order, with everything they did. *)
Fixpoint run (env : option string) (evs : list Event) (st : State)
  : State * list Effect :=
  match evs with
  | [] => (st, [])
  | ev :: evs' =>
      let (st1, out1) := step env ev st in
      let (st2, out2) := run env evs' st1 in
      (st2, (out1 ++ out2)%list)
  end.

End WithBrowser.

End Analyzer.

(** ** [src/app/page.tsx], first component: the crawl page *)

Module Crawl.

Record Keyword : Type := {
  keyword : string;
  relevance_score : Js.number;
  search_volume : Js.number;
  keyword_difficulty : Js.number;
  cpc : Js.number;
  competition : string;
  trend : list Js.number
}.

Record Recommendation : Type := {
  rec_type : string;
  category : string;
  rec_title : string;
  description : string;
  impact : string
}.

Record Headings : Type := {
  h1 : list string;
  h2 : list string;
  h3 : list string
}.

Record Readability : Type := {
  flesch_reading_ease : Js.number;
  reading_level : string;
  readability_score : Js.number
}.

(** [SEOData]. *)
Record SEOData : Type := {
  url : string;
  title : string;
  meta_description : string;
  content : string;
  word_count : Js.number;
  seo_score : Js.number;
  keywords : list Keyword;
  headings : Headings;
  readability : Readability;
  recommendations : list Recommendation
}.

Record State : Type := {
  st_url : string;
  loading : bool;
  seoData : option SEOData;
  error : string
}.

Definition initial : State :=
  {| st_url := ""; loading := false; seoData := None; error := "" |}.

Definition setUrl (v : string) (st : State) : State :=
  {| st_url := v; loading := loading st; seoData := seoData st; error := error st |}.
Definition setLoading (b : bool) (st : State) : State :=
  {| st_url := st_url st; loading := b; seoData := seoData st; error := error st |}.
Definition setSeoData (d : option SEOData) (st : State) : State :=
  {| st_url := st_url st; loading := loading st; seoData := d; error := error st |}.
Definition setError (e : string) (st : State) : State :=
  {| st_url := st_url st; loading := loading st; seoData := seoData st; error := e |}.

Definition request (st : State) : string :=
  "/api/crawl?url=" ++ Text.encodeURIComponent (st_url st).

Definition attempt (r : FetchResult SEOData) : Outcome (option SEOData) :=
  match r with
  | Rejected e => Threw e
  | NotOk _ _ => Threw (ErrorObj "Failed to analyze website")
  | Ok payload => p <- payload ;; Returned (Some p)
  | OkNull => Returned None
  end.

(** [analyzeSEO]: guarded by [!url] only. *)
Definition analyzeSEO (fetch : string -> FetchResult SEOData) (st : State)
  : State * list Effect :=
  if negb (Js.truthy_str (st_url st)) then (st, [])
  else
    let st1 := setError "" (setLoading true st) in
    let req := request st1 in
    let st2 :=
      match attempt (fetch req) with
      | Returned payload => setSeoData payload st1
      | Threw err =>
          setError
            (match err with
             | ErrorObj m => m
             | NonError => "Analysis failed"
             end) st1
      end in
    (setLoading false st2, [Fetch req]).

(** [getScoreColor]. *)
Definition getScoreColor (score : Js.number) : string :=
  if Js.geb score (Js.of_Z 80) then "text-green-600"
  else if Js.geb score (Js.of_Z 60) then "text-yellow-600"
  else "text-red-600".

(** [competition.toLowerCase()], as far as the [switch] can tell: the
    letters A to Z are lowered and every other byte is kept. The only other
    character that lowers to a letter of a to z is U+212A, to k, which none
    of the four labels contains. *)
Fixpoint toLowerCase (s : string) : string :=
  match s with
  | EmptyString => EmptyString
  | String c s' =>
      String (if Text.byte_in 65 90 c then ascii_of_nat (nat_of_ascii c + 32) else c)
             (toLowerCase s')
  end.

(** [getCompetitionColor]. *)
Definition getCompetitionColor (competition : string) : string :=
  let c := toLowerCase competition in
  if String.eqb c "low" then "bg-green-100 text-green-800"
  else if String.eqb c "medium" then "bg-yellow-100 text-yellow-800"
  else if String.eqb c "high" then "bg-orange-100 text-orange-800"
  else if String.eqb c "very high" then "bg-red-100 text-red-800"
  else "bg-gray-100 text-gray-800".

Section WithBrowser.

(** [Number.prototype.toLocaleString] in the locale of the user. *)
Variable toLocaleString : Js.number -> string.

(** One row of the keyword analysis. *)
Definition keyword_row (k : Keyword) : Value :=
  VNode "keyword"
    [ VStr (keyword k);
      VNode "Volume" [VStr (toLocaleString (search_volume k))];
      VNode "Difficulty" [VNum (keyword_difficulty k); VStr "/100"];
      VNode "CPC" [VStr "$"; VNum (cpc k)];
      VNode (getCompetitionColor (competition k)) [VStr (competition k)];
      VNode "Relevance"
        [VStr (Js.toFixed 1 (Js.mul (relevance_score k) (Js.of_Z 100))); VStr "%"] ].

(** The rows shown: [seoData.keywords.slice(0, 10)]. *)
Definition keyword_rows (d : SEOData) : list Value :=
  map keyword_row (firstn 10 (keywords d)).

(** The H2 headings shown: [seoData.headings.h2.slice(0, 5)]. *)
Definition h2_rows (d : SEOData) : list Value :=
  map VStr (firstn 5 (h2 (headings d))).

Definition recommendation_row (r : Recommendation) : Value :=
  VNode "recommendation"
    [ VStr (rec_title r);
      VNode (if String.eqb (impact r) "high" then "destructive" else "secondary")
        [VStr (impact r); VStr " impact"];
      VStr (description r);
      VStr (category r) ].

(** A line of the technical checklist: a green check, or an alert. *)
Definition check (label alert : string) (ok : bool) : Value :=
  VNode label [VNode (if ok then "CheckCircle" else alert) []].

(** The five checks of the technical tab. *)
Definition technical_checks (d : SEOData) : list Value :=
  [ check "Page Title" "AlertCircle red" true;
    check "Meta Description" "AlertCircle red" (Js.truthy_str (meta_description d));
    check "H1 Tag Present" "AlertCircle red" (0 <? List.length (h1 (headings d)))%nat;
    check "Content Length" "AlertCircle yellow" (Js.gtb (word_count d) (Js.of_Z 300));
    check "Readability" "AlertCircle yellow"
      (Js.gtb (readability_score (readability d)) (Js.of_Z 60)) ].

(** The panels shown for a loaded [seoData]; every member is required by
    the interface. *)
Definition results (d : SEOData) : Value :=
  VNode "results"
    [ VNode "SEO Score"
        [ VNode (getScoreColor (seo_score d)) [VNum (seo_score d); VStr "%"];
          VNode "Progress" [VNum (seo_score d)];
          VNode "Words" [VNum (word_count d)];
          VNode "Keywords Found" [length_val (keywords d)];
          VNode "Readability Score" [VNum (readability_score (readability d))] ];
      VNode "Keyword Analysis" (keyword_rows d);
      VNode "Page Information"
        [ VStr (title d);
          or_else (VStr (meta_description d)) (VStr "No meta description found");
          VStr (reading_level (readability d)) ];
      VNode "Heading Structure"
        [ VNode "H1 Tags" (length_val (h1 (headings d)) :: map VStr (h1 (headings d)));
          VNode "H2 Tags" (length_val (h2 (headings d)) :: h2_rows d) ];
      VNode "Technical SEO" (technical_checks d);
      VNode "SEO Recommendations" (map recommendation_row (recommendations d)) ].

(** The page: the search card with the error box, then the results. *)
Definition view (st : State) : Value :=
  VNode "SEOAnalyzer"
    [ VNode "Input" [VStr (st_url st)];
      VNode "Button"
        [ VBool (loading st);
          VStr (if loading st then "Analyzing..." else "Analyze SEO") ];
      and_then (VStr (error st)) (VNode "error" [VStr (error st)]);
      match seoData st with
      | Some d => results d
      | None => VUndefined
      end ].

(** What the user does: type into the input, or click the button, which is
    disabled while a request is loading. *)
Inductive Event : Type :=
| TypeUrl (v : string)
| ClickAnalyze (fetch : string -> FetchResult SEOData).

Definition step (ev : Event) (st : State) : State * list Effect :=
  match ev with
  | TypeUrl v => (setUrl v st, [])
  | ClickAnalyze fetch => if loading st then (st, []) else analyzeSEO fetch st
  end.

Fixpoint run (evs : list Event) (st : State) : State * list Effect :=
  match evs with
  | [] => (st, [])
  | ev :: evs' =>
      let (st1, out1) := step ev st in
      let (st2, out2) := run evs' st1 in
      (st2, (out1 ++ out2)%list)
  end.

End WithBrowser.

End Crawl.

(** ** [src/app/page.tsx], second component: keywords and competitor tabs *)

Module Dashboard.

(** The [keywords] member of both payloads. *)
Record Keywords : Type := {
  gemini : option (list string);
  onpage : option (list string);
  merged : option (list string)
}.

(** The [headings] member of [CompetitorData]. *)
Record Headings : Type := {
  h1 : option (list string);
  h2 : option (list string);
  h3 : option (list string)
}.

(** [KeywordData]; a member the response leaves out is [None]. *)
Module KeywordData.
Record t : Type := {
  url : option string;
  title : option string;
  meta_description : option string;
  word_count : option Js.number;
  keywords : option Keywords
}.
End KeywordData.

(** [CompetitorData]; a member the response leaves out is [None]. *)
Module CompetitorData.
Record t : Type := {
  url : option string;
  title : option string;
  meta_description : option string;
  word_count : option Js.number;
  content_metrics : option (list (string * Js.number));
  technical : option (list (string * bool));
  headings : option Headings;
  keywords : option Keywords;
  estimated_traffic : option Js.number;
  monthly_visitors : option Js.number;
  bounce_rate : option Js.number;
  avg_session_duration : option string;
  pages_per_session : option Js.number;
  domain_authority : option Js.number;
  page_authority : option Js.number;
  backlinks : option Js.number;
  referring_domains : option Js.number;
  organic_keywords : option Js.number;
  paid_keywords : option Js.number;
  seo_score : option Js.number;
  mobile_score : option Js.number;
  page_speed : option Js.number
}.
End CompetitorData.

Inductive Tab : Type := keywords_tab | competitor_tab.

Record State : Type := {
  activeTab : Tab;
  st_url : string;
  loading : bool;
  keywordData : option KeywordData.t;
  competitorData : option CompetitorData.t;
  error : string
}.

Definition initial : State :=
  {| activeTab := keywords_tab; st_url := ""; loading := false;
     keywordData := None; competitorData := None; error := "" |}.

Definition setActiveTab (t : Tab) (st : State) : State :=
  {| activeTab := t; st_url := st_url st; loading := loading st;
     keywordData := keywordData st; competitorData := competitorData st;
     error := error st |}.
Definition setUrl (v : string) (st : State) : State :=
  {| activeTab := activeTab st; st_url := v; loading := loading st;
     keywordData := keywordData st; competitorData := competitorData st;
     error := error st |}.
Definition setLoading (b : bool) (st : State) : State :=
  {| activeTab := activeTab st; st_url := st_url st; loading := b;
     keywordData := keywordData st; competitorData := competitorData st;
     error := error st |}.
Definition setKeywordData (d : option KeywordData.t) (st : State) : State :=
  {| activeTab := activeTab st; st_url := st_url st; loading := loading st;
     keywordData := d; competitorData := competitorData st;
     error := error st |}.
Definition setCompetitorData (d : option CompetitorData.t) (st : State) : State :=
  {| activeTab := activeTab st; st_url := st_url st; loading := loading st;
     keywordData := keywordData st; competitorData := d;
     error := error st |}.
Definition setError (e : string) (st : State) : State :=
  {| activeTab := activeTab st; st_url := st_url st; loading := loading st;
     keywordData := keywordData st; competitorData := competitorData st;
     error := e |}.

(** [[...new Set(all)]]: the first occurrence of every string, in order. *)
Fixpoint unique (seen l : list string) : list string :=
  match l with
  | [] => []
  | x :: l' =>
      if existsb (String.eqb x) seen then unique seen l'
      else x :: unique (x :: seen) l'
  end.

Definition getAllKeywords (kw : option Keywords) : list string :=
  match kw with
  | None => []
  | Some k =>
      unique [] (or_empty (gemini k) ++ or_empty (onpage k) ++ or_empty (merged k))%list
  end.

Definition getKeywordsByType (kw : option Keywords)
    (type : Keywords -> option (list string)) : list string :=
  or_empty (match kw with Some k => type k | None => None end).

Section WithBrowser.

(** [Number.prototype.toLocaleString] in the locale of the user. *)
Variable toLocaleString : Js.number -> string.
(** The message of the [TypeError] raised by reading the named member
    of [undefined] or [null]. *)
Variable TypeError_message : string -> string.

(** The message thrown on a response that is not ok: [errorData.detail]
    is read without a guard, and only [detail] is read. *)
Definition error_message (status : Z) (body : ErrorBody) : Outcome string :=
  let generic := "HTTP error! status: " ++ Text.decimal status in
  match body with
  | NotJson => Returned generic
  | JsonNull => Threw (ErrorObj (TypeError_message "detail"))
  | JsonObject detail _ => Returned (json_text (member_or detail (JStr generic)))
  end.

(** The body of the [try]: what is stored, or what is thrown. *)
Definition attempt {P : Type} (r : FetchResult P) : Outcome (option P) :=
  match r with
  | Rejected e => Threw e
  | NotOk status body => m <- error_message status body ;; Threw (ErrorObj m)
  | Ok payload => p <- payload ;; Returned (Some p)
  | OkNull => Returned None
  end.

Definition request (env : option string) (endpoint : string) (st : State) : string :=
  let API_URL := backend_origin env "http://localhost:8000" in
  API_URL ++ endpoint ++ "?url=" ++ Text.encodeURIComponent (st_url st).

(** [analyzeKeywords]: guarded by [!url.trim()] only; the [catch] sets the
    error and leaves [keywordData] as it was. *)
Definition analyzeKeywords (env : option string)
    (fetch : string -> FetchResult KeywordData.t) (st : State)
  : State * list Effect :=
  if Text.blank (st_url st) then (st, [])
  else
    let st1 := setError "" (setLoading true st) in
    let req := request env "/keywords" st1 in
    let st2 :=
      match attempt (fetch req) with
      | Returned payload => setKeywordData payload st1
      | Threw err =>
          setError
            (match err with
             | ErrorObj m => m
             | NonError => "Failed to analyze keywords"
             end) st1
      end in
    (setLoading false st2, [Fetch req]).

(** [analyzeCompetitor]. *)
Definition analyzeCompetitor (env : option string)
    (fetch : string -> FetchResult CompetitorData.t) (st : State)
  : State * list Effect :=
  if Text.blank (st_url st) then (st, [])
  else
    let st1 := setError "" (setLoading true st) in
    let req := request env "/analyze" st1 in
    let st2 :=
      match attempt (fetch req) with
      | Returned payload => setCompetitorData payload st1
      | Threw err =>
          setError
            (match err with
             | ErrorObj m => m
             | NonError => "Failed to analyze competitor"
             end) st1
      end in
    (setLoading false st2, [Fetch req]).

(** *** The renderer *)

(** [recv.m()]: a [TypeError] when the receiver is missing. *)
Definition call_method {A B : Type} (name : string) (recv : option A) (m : A -> B)
  : Outcome B :=
  match recv with
  | Some a => Returned (m a)
  | None => Threw (ErrorObj (TypeError_message name))
  end.

(** [x ? yes(x) : no] on a number that may be missing. *)
Definition if_number (x : option Js.number) (yes : Js.number -> Value) (no : Value)
  : Value :=
  match x with
  | Some n => if Js.truthy n then yes n else no
  | None => no
  end.

(** [x && card(x)] on a number that may be missing. *)
Definition number_gate (x : option Js.number) (card : Js.number -> Value) : Value :=
  match x with
  | Some n => and_then (VNum n) (card n)
  | None => VUndefined
  end.

(** [x?.toLocaleString()]. *)
Definition locale_val (x : option Js.number) : Value :=
  str_val (option_map toLocaleString x).

Definition count_locale {A : Type} (l : list A) : string :=
  toLocaleString (Js.of_Z (Z.of_nat (List.length l))).

(** [key.replace(/_/g, ' ')]. *)
Fixpoint spaced (key : string) : string :=
  match key with
  | EmptyString => EmptyString
  | String c key' => String (if Ascii.eqb c "_" then " "%char else c) (spaced key')
  end.

(** One keyword section of the keywords tab: shown when the list is not
    empty, with its count and one badge per keyword. *)
Definition keyword_section (label : string) (l : list string) : Value :=
  and_then (VBool (0 <? List.length l)%nat)
           (VNode label (length_val l :: map VStr l)).

(** The keywords tab, for a loaded [keywordData]. *)
Definition keywords_view (k : KeywordData.t) : Outcome Value :=
  let kw := KeywordData.keywords k in
  children <- sequence
    [ Returned (str_val (KeywordData.url k));
      Returned (VNode "Page Title"
                  [or_else (str_val (KeywordData.title k)) (VStr "No title found")]);
      wc <- call_method "toLocaleString" (KeywordData.word_count k) toLocaleString ;;
      Returned (VNode "Word Count" [VStr wc]);
      Returned (and_then (str_val (KeywordData.meta_description k))
                  (VNode "Meta Description"
                     [str_val (KeywordData.meta_description k)]));
      Returned (keyword_section "AI-Generated Keywords" (getKeywordsByType kw gemini));
      Returned (keyword_section "On-Page Keywords" (getKeywordsByType kw onpage));
      Returned (keyword_section "Top Merged Keywords" (getKeywordsByType kw merged));
      Returned (and_then (VBool (List.length (getAllKeywords kw) =? 0)%nat)
                  (VNode "No keywords found for this website." [])) ] ;;
  Returned (VNode "Keyword Analysis Results" children).

(** The four cards of the main metrics row. *)
Definition seo_score_card (c : CompetitorData.t) : Value :=
  number_gate (CompetitorData.seo_score c)
    (fun n => VNode "SEO Score" [VNum n; VStr "%"]).
Definition traffic_card (c : CompetitorData.t) : Value :=
  number_gate (CompetitorData.estimated_traffic c)
    (fun n => VNode "Monthly Traffic" [VStr (toLocaleString n)]).
Definition domain_authority_card (c : CompetitorData.t) : Value :=
  number_gate (CompetitorData.domain_authority c)
    (fun n => VNode "Domain Authority" [VNum n]).
Definition backlinks_card (c : CompetitorData.t) : Value :=
  number_gate (CompetitorData.backlinks c)
    (fun n => VNode "Backlinks" [VStr (toLocaleString n)]).

(** Traffic analytics. *)
Definition monthly_visitors_text (c : CompetitorData.t) : Value :=
  or_else (locale_val (CompetitorData.monthly_visitors c))
    (if_number (CompetitorData.estimated_traffic c)
       (fun t => VStr (toLocaleString (Js.Math_floor (Js.mul t Js.lit_1_2))))
       (VStr "N/A")).
Definition bounce_rate_text (c : CompetitorData.t) : list Value :=
  [or_else (num_val (CompetitorData.bounce_rate c)) (VStr "45.2"); VStr "%"].
Definition session_duration_text (c : CompetitorData.t) : Value :=
  or_else (str_val (CompetitorData.avg_session_duration c)) (VStr "2:34").

(** SEO performance. *)
Definition organic_keywords_text (c : CompetitorData.t) : Value :=
  or_else (locale_val (CompetitorData.organic_keywords c))
    (match CompetitorData.keywords c with
     | Some _ => VStr (count_locale (getAllKeywords (CompetitorData.keywords c)))
     | None => VStr "N/A"
     end).
Definition page_authority_text (c : CompetitorData.t) : Value :=
  or_else (num_val (CompetitorData.page_authority c))
    (if_number (CompetitorData.domain_authority c)
       (fun d => VNum (Js.Math_floor (Js.mul d Js.lit_0_8)))
       (VStr "N/A")).
Definition referring_domains_text (c : CompetitorData.t) : Value :=
  or_else (locale_val (CompetitorData.referring_domains c))
    (if_number (CompetitorData.backlinks c)
       (fun b => VStr (toLocaleString (Js.Math_floor (Js.div b (Js.of_Z 10)))))
       (VStr "N/A")).
Definition mobile_score_text (c : CompetitorData.t) : Value :=
  or_else (num_val (CompetitorData.mobile_score c))
    (if_number (CompetitorData.seo_score c)
       (fun s => VNum (Js.Math_floor (Js.mul s Js.lit_0_9)))
       (VStr "N/A")).

(** Technical checks and content metrics: shown when the object is there
    and has at least one key. *)
Definition technical_section (c : CompetitorData.t) : Value :=
  match CompetitorData.technical c with
  | None => VUndefined
  | Some t =>
      and_then (VBool (0 <? List.length t)%nat)
        (VNode "Technical SEO Checks"
           (map (fun kv : string * bool =>
                   VNode (if snd kv then "CheckCircle" else "AlertCircle")
                         [VStr (spaced (fst kv))]) t))
  end.
Definition content_metrics_section (c : CompetitorData.t) : Value :=
  match CompetitorData.content_metrics c with
  | None => VUndefined
  | Some m =>
      and_then (VBool (0 <? List.length m)%nat)
        (VNode "Content Metrics"
           (map (fun kv : string * Js.number =>
                   VNode (spaced (fst kv)) [VNum (snd kv)]) m))
  end.

(** One heading level: shown when the array is there and not empty, with
    its first three entries and the number of the others. *)
Definition heading_level (label : string) (h : option (list string)) : Value :=
  match h with
  | None => VUndefined
  | Some l =>
      and_then (VBool (0 <? List.length l)%nat)
        (VNode label
           ((length_val l :: map VStr (firstn 3 l))
            ++ [and_then (VBool (3 <? List.length l)%nat)
                  (VNode "more" [VNum (Js.of_Z (Z.of_nat (List.length l) - 3))])])%list)
  end.
Definition headings_section (c : CompetitorData.t) : Value :=
  match CompetitorData.headings c with
  | None => VUndefined
  | Some h =>
      VNode "Heading Structure"
        [heading_level "H1 Tags" (h1 h); heading_level "H2 Tags" (h2 h);
         heading_level "H3 Tags" (h3 h)]
  end.

(** The keywords found: the first twenty, and the number of the others. *)
Definition keywords_found_section (c : CompetitorData.t) : Value :=
  match CompetitorData.keywords c with
  | None => VUndefined
  | Some _ =>
      let all := getAllKeywords (CompetitorData.keywords c) in
      and_then (VBool (0 <? List.length all)%nat)
        (VNode "Keywords Found"
           ((length_val all :: map VStr (firstn 20 all))
            ++ [and_then (VBool (20 <? List.length all)%nat)
                  (VNode "more" [VNum (Js.of_Z (Z.of_nat (List.length all) - 20))])])%list)
  end.

(** The competitor tab, for a loaded [competitorData]. *)
Definition competitor_view (c : CompetitorData.t) : Outcome Value :=
  children <- sequence
    [ Returned (str_val (CompetitorData.url c));
      Returned (seo_score_card c);
      Returned (traffic_card c);
      Returned (domain_authority_card c);
      Returned (backlinks_card c);
      Returned (VNode "Monthly Visitors" [monthly_visitors_text c]);
      Returned (VNode "Bounce Rate" (bounce_rate_text c));
      Returned (VNode "Session Duration" [session_duration_text c]);
      Returned (VNode "Organic Keywords" [organic_keywords_text c]);
      Returned (VNode "Page Authority" [page_authority_text c]);
      Returned (VNode "Referring Domains" [referring_domains_text c]);
      Returned (VNode "Mobile Score" [mobile_score_text c]);
      Returned (VNode "Page Title"
                  [or_else (str_val (CompetitorData.title c)) (VStr "No title found")]);
      wc <- call_method "toLocaleString" (CompetitorData.word_count c) toLocaleString ;;
      Returned (VNode "Word Count" [VStr wc]);
      Returned (and_then (str_val (CompetitorData.meta_description c))
                  (VNode "Meta Description"
                     [str_val (CompetitorData.meta_description c)]));
      Returned (technical_section c);
      Returned (headings_section c);
      Returned (content_metrics_section c);
      Returned (keywords_found_section c) ] ;;
  Returned (VNode "Competitor Analysis Results" children).

(** The page: the header with the error box, then the tab that is active
    and loaded, or the empty state. *)
Definition view (st : State) : Outcome Value :=
  let header :=
    VNode "header"
      [ VNode "Input" [VStr (st_url st)];
        VNode "Button" [VBool (loading st)];
        and_then (VStr (error st)) (VNode "error" [VStr (error st)]) ] in
  kw <- match activeTab st, keywordData st with
        | keywords_tab, Some k => keywords_view k
        | keywords_tab, None => Returned VUndefined
        | competitor_tab, _ => Returned (VBool false)
        end ;;
  comp <- match activeTab st, competitorData st with
          | competitor_tab, Some c => competitor_view c
          | competitor_tab, None => Returned VUndefined
          | keywords_tab, _ => Returned (VBool false)
          end ;;
  let missing :=
    match activeTab st with
    | keywords_tab => match keywordData st with Some _ => false | None => true end
    | competitor_tab => match competitorData st with Some _ => false | None => true end
    end in
  Returned (VNode "SEOAnalyzer"
              [header; kw; comp;
               and_then (VBool missing)
                 (and_then (VBool (negb (loading st))) (VNode "empty state" []))]).

(** *** The events of the page *)

(** What the user does: pick a tab, type into the input, or click the
    analyze button, which runs the handler of the active tab and is
    disabled while a request is loading. *)
Inductive Event : Type :=
| SwitchTab (t : Tab)
| TypeUrl (v : string)
| ClickAnalyze (fetchKeywords : string -> FetchResult KeywordData.t)
               (fetchCompetitor : string -> FetchResult CompetitorData.t).

Definition step (env : option string) (ev : Event) (st : State)
  : State * list Effect :=
  match ev with
  | SwitchTab t => (setActiveTab t st, [])
  | TypeUrl v => (setUrl v st, [])
  | ClickAnalyze fetchKeywords fetchCompetitor =>
      if loading st then (st, [])
      else
        match activeTab st with
        | keywords_tab => analyzeKeywords env fetchKeywords st
        | competitor_tab => analyzeCompetitor env fetchCompetitor st
        end
  end.

Fixpoint run (env : option string) (evs : list Event) (st : State)
  : State * list Effect :=
  match evs with
  | [] => (st, [])
  | ev :: evs' =>
      let (st1, out1) := step env ev st in
      let (st2, out2) := run env evs' st1 in
      (st2, (out1 ++ out2)%list)
  end.

End WithBrowser.

End Dashboard.

(** ** A sample browser

    The theorems below hold for every browser. The examples, the witnesses
    and the counterexamples run the components in this one: the [en-US]
    number format, the wording of V8 for a [TypeError], and the URL
    constructor on URLs whose host is an ASCII domain name. *)

Module Sample.

Definition pad3 (r : Z) : string :=
  (if (r <? 10)%Z then "00" else if (r <? 100)%Z then "0" else "") ++ Text.decimal r.

(** The digits of [z >= 0] in groups of three. *)
Fixpoint group (n : nat) (z : Z) : string :=
  match n with
  | O => Text.decimal z
  | S n' =>
      if (z <? 1000)%Z then Text.decimal z
      else group n' (z / 1000) ++ "," ++ pad3 (z mod 1000)
  end.

Definition grouped (z : Z) : string := group (Z.to_nat (Z.log2 z)) z.

(** At most three fraction digits, without trailing zeros. *)
Definition fraction (r : Z) : string :=
  if (r =? 0)%Z then ""
  else if (r mod 100 =? 0)%Z then "." ++ Text.decimal (r / 100)
  else if (r mod 10 =? 0)%Z
       then "." ++ (if (r <? 100)%Z then "0" else "") ++ Text.decimal (r / 10)
  else "." ++ pad3 r.

(** [toLocaleString] in the [en-US] locale: the shortest decimal of the
    number, rounded to three fraction digits with halves away from zero,
    its integer digits grouped. *)
Definition toLocaleString (x : Js.number) : string :=
  match x with
  | S754_nan => "NaN"
  | S754_infinity s =>
      (if s then "-" else "") ++ String "226" (String "136" (String "158" ""))
  | S754_zero s => if s then "-0" else "0"
  | S754_finite s m e =>
      match Js.shortest m e with
      | Some (d, n, k) =>
          let j := (k - n - 3)%Z in
          let q :=
            if (j <=? 0)%Z then (d * 10 ^ (- j))%Z
            else ((2 * d + 10 ^ j) / (2 * 10 ^ j))%Z in
          (if s then "-" else "") ++ grouped (q / 1000) ++ fraction (q mod 1000)
      | None => "NaN"
      end
  end.

(** The wording of V8. In the pages [detail] is read from an error body
    that is [null]; every other member is read from a value that is
    [undefined]. *)
Definition TypeError_message (name : string) : string :=
  "Cannot read properties of "
  ++ (if String.eqb name "detail" then "null" else "undefined")
  ++ " (reading '" ++ name ++ "')".

Definition lower (c : ascii) : ascii :=
  if Text.byte_in 65 90 c then ascii_of_nat (nat_of_ascii c + 32) else c.

Definition alpha (c : ascii) : bool := Text.byte_in 65 90 c || Text.byte_in 97 122 c.

(** Leading and trailing C0 controls and spaces are stripped, and every
    tab and line break is removed, before the URL is parsed. *)
Fixpoint strip_leading (s : string) : string :=
  match s with
  | String c s' => if Text.byte_in 0 32 c then strip_leading s' else s
  | EmptyString => EmptyString
  end.

Fixpoint strip_trailing (s : string) : string :=
  match s with
  | EmptyString => EmptyString
  | String c s' =>
      match strip_trailing s' with
      | EmptyString => if Text.byte_in 0 32 c then EmptyString else String c EmptyString
      | r => String c r
      end
  end.

Fixpoint remove_tab_newline (s : string) : string :=
  match s with
  | EmptyString => EmptyString
  | String c s' =>
      if Text.byte_in 9 10 c || Text.byte_in 13 13 c then remove_tab_newline s'
      else String c (remove_tab_newline s')
  end.

(** The scheme, in lower case, and what follows its colon. *)
Fixpoint scheme_rest (s : string) : option (string * string) :=
  match s with
  | EmptyString => None
  | String c s' =>
      if Ascii.eqb c ":" then Some ("", s')
      else if Text.alphanumeric c || Text.mem_char c "+-."
      then match scheme_rest s' with
           | Some (a, r) => Some (String (lower c) a, r)
           | None => None
           end
      else None
  end.

Definition split_scheme (s : string) : option (string * string) :=
  match s with
  | String c _ => if alpha c then scheme_rest s else None
  | EmptyString => None
  end.

Fixpoint take_until (stop : string) (s : string) : string :=
  match s with
  | EmptyString => EmptyString
  | String c s' => if Text.mem_char c stop then EmptyString else String c (take_until stop s')
  end.

Fixpoint drop_until (stop : string) (s : string) : option string :=
  match s with
  | EmptyString => None
  | String c s' => if Text.mem_char c stop then Some s' else drop_until stop s'
  end.

Fixpoint skip_slashes (s : string) : string :=
  match s with
  | String c s' => if Text.mem_char c "/\" then skip_slashes s' else s
  | EmptyString => EmptyString
  end.

(** What follows the last [@] of an authority. *)
Fixpoint after_at (s : string) : option string :=
  match s with
  | EmptyString => None
  | String c s' =>
      match after_at s' with
      | Some r => Some r
      | None => if Ascii.eqb c "@" then Some s' else None
      end
  end.

Definition host_port (authority : string) : string :=
  match after_at authority with
  | Some h => h
  | None => authority
  end.

Fixpoint map_string (f : ascii -> ascii) (s : string) : string :=
  match s with
  | EmptyString => EmptyString
  | String c s' => String (f c) (map_string f s')
  end.

Fixpoint all_chars (f : ascii -> bool) (s : string) : bool :=
  match s with
  | EmptyString => true
  | String c s' => f c && all_chars f s'
  end.

(** The value of a string of digits. *)
Fixpoint digits_value (acc : Z) (s : string) : Z :=
  match s with
  | EmptyString => acc
  | String c s' => digits_value (10 * acc + Z.of_nat (nat_of_ascii c - 48)) s'
  end.

(** The port after the colon: absent or empty, or a number up to 65535. *)
Definition port_of (hp : string) : option (option Z) :=
  match drop_until ":" hp with
  | None => Some None
  | Some EmptyString => Some None
  | Some digits =>
      if all_chars (Text.byte_in 48 57) digits
      then let n := digits_value 0 digits in
           if (n <=? 65535)%Z then Some (Some n) else None
      else None
  end.

Definition special (scheme : string) : bool :=
  existsb (String.eqb scheme) ["http"; "https"; "ws"; "wss"; "ftp"].

Definition default_port (scheme : string) : option Z :=
  if String.eqb scheme "http" || String.eqb scheme "ws" then Some 80%Z
  else if String.eqb scheme "https" || String.eqb scheme "wss" then Some 443%Z
  else if String.eqb scheme "ftp" then Some 21%Z
  else None.

(** The characters a host may not hold: those of a domain for a special
    scheme, those of an opaque host otherwise. *)
Definition forbidden_in_host (is_special : bool) (c : ascii) : bool :=
  Text.mem_char c "#/:<>?@[\]^|"
  || (if is_special
      then Text.byte_in 0 32 c || Ascii.eqb c "%" || Text.byte_in 127 127 c
      else Text.byte_in 0 0 c || Text.byte_in 9 10 c || Text.byte_in 13 13 c
           || Ascii.eqb c " ").

(** The [host] member: the host, and the port unless it is the default one
    of the scheme. *)
Definition host_member (scheme : string) (hp : string) : option string :=
  let is_special := special scheme in
  let h := take_until ":" hp in
  if all_chars (fun c => negb (forbidden_in_host is_special c)) h then
    match port_of hp with
    | None => None
    | Some port =>
        let h := if is_special then map_string lower h else h in
        match port, h with
        | Some _, EmptyString => None
        | Some n, _ =>
            match default_port scheme with
            | Some d => if (n =? d)%Z then Some h else Some (h ++ ":" ++ Text.decimal n)
            | None => Some (h ++ ":" ++ Text.decimal n)
            end
        | None, _ => Some h
        end
    end
  else None.

(** [new URL(s)] without a base. A string without a scheme is refused; a
    special scheme needs a host, which follows any number of slashes; any
    other scheme has a host only after two slashes. Hosts are read as ASCII
    domain names: percent escapes are not decoded, international names are
    not converted, and the literal forms of IP addresses are not
    recognised. *)
Definition URL_parse (s : string) : option Analyzer.URLRecord :=
  match split_scheme (remove_tab_newline (strip_trailing (strip_leading s))) with
  | None => None
  | Some (scheme, rest) =>
      let protocol := scheme ++ ":" in
      if special scheme then
        match host_member scheme (host_port (take_until "/\?#" (skip_slashes rest))) with
        | Some h =>
            if Js.truthy_str h
            then Some {| Analyzer.protocol := protocol; Analyzer.host := h |}
            else None
        | None => None
        end
      else
        match rest with
        | String "/" (String "/" r) =>
            match host_member scheme (host_port (take_until "/?#" r)) with
            | Some h => Some {| Analyzer.protocol := protocol; Analyzer.host := h |}
            | None => None
            end
        | _ => Some {| Analyzer.protocol := protocol; Analyzer.host := "" |}
        end
  end.

End Sample.

(** ** Payloads and states used in the examples *)

Module Fixture.

(** A competitor response with the given metrics and nothing else. *)
Definition competitor
    (word_count domain_authority page_authority estimated_traffic
     monthly_visitors bounce_rate seo_score : option Js.number)
  : Dashboard.CompetitorData.t :=
  {| Dashboard.CompetitorData.url := Some "https://example.com";
     Dashboard.CompetitorData.title := None;
     Dashboard.CompetitorData.meta_description := None;
     Dashboard.CompetitorData.word_count := word_count;
     Dashboard.CompetitorData.content_metrics := None;
     Dashboard.CompetitorData.technical := None;
     Dashboard.CompetitorData.headings := None;
     Dashboard.CompetitorData.keywords := None;
     Dashboard.CompetitorData.estimated_traffic := estimated_traffic;
     Dashboard.CompetitorData.monthly_visitors := monthly_visitors;
     Dashboard.CompetitorData.bounce_rate := bounce_rate;
     Dashboard.CompetitorData.avg_session_duration := None;
     Dashboard.CompetitorData.pages_per_session := None;
     Dashboard.CompetitorData.domain_authority := domain_authority;
     Dashboard.CompetitorData.page_authority := page_authority;
     Dashboard.CompetitorData.backlinks := None;
     Dashboard.CompetitorData.referring_domains := None;
     Dashboard.CompetitorData.organic_keywords := None;
     Dashboard.CompetitorData.paid_keywords := None;
     Dashboard.CompetitorData.seo_score := seo_score;
     Dashboard.CompetitorData.mobile_score := None;
     Dashboard.CompetitorData.page_speed := None |}.

(** A keyword response with the given word count and keyword lists. *)
Definition keyword_result (word_count : option Js.number)
    (keywords : option Dashboard.Keywords) : Dashboard.KeywordData.t :=
  {| Dashboard.KeywordData.url := Some "https://example.com";
     Dashboard.KeywordData.title := Some "Example Domain";
     Dashboard.KeywordData.meta_description := None;
     Dashboard.KeywordData.word_count := word_count;
     Dashboard.KeywordData.keywords := keywords |}.

Definition seo_tools_ai : Dashboard.Keywords :=
  {| Dashboard.gemini := Some ["ai"];
     Dashboard.onpage := Some [];
     Dashboard.merged := Some ["seo"; "tools"] |}.

(** An analyzer payload with the given keyword object and nothing else. *)
Definition analysis (keywords : option (list (string * list string)))
  : Analyzer.AnalyzePayload :=
  {| Analyzer.url := Some "https://example.com";
     Analyzer.title := None;
     Analyzer.meta_description := None;
     Analyzer.word_count := None;
     Analyzer.content_metrics := None;
     Analyzer.technical := None;
     Analyzer.headings := None;
     Analyzer.keywords := keywords |}.

Definition seo_tools_ai_object : list (string * list string) :=
  [("gemini", ["ai"]); ("onpage", []); ("merged", ["seo"; "tools"])].

Definition no_keywords_object : list (string * list string) :=
  [("gemini", []); ("onpage", []); ("merged", [])].

(** The analyzer page after a payload has been loaded for a URL. *)
Definition loaded (p : Analyzer.AnalyzePayload) : Analyzer.State :=
  Analyzer.setData (Some p) (Analyzer.setUrl "https://example.com" Analyzer.initial).

(** The dashboard with a keyword result on display and a URL typed in. *)
Definition showing (k : Dashboard.KeywordData.t) (url : string) : Dashboard.State :=
  Dashboard.setKeywordData (Some k) (Dashboard.setUrl url Dashboard.initial).

(** The result shown by the dashboard in the examples. *)
Definition previous_result : Dashboard.KeywordData.t :=
  keyword_result (Some (Js.of_Z 2500)) (Some seo_tools_ai).

(** A crawl response with the given keywords and H2 headings. *)
Definition crawl_keyword (word : string) : Crawl.Keyword :=
  {| Crawl.keyword := word;
     Crawl.relevance_score := Js.decimal 85 2;
     Crawl.search_volume := Js.of_Z 1200;
     Crawl.keyword_difficulty := Js.of_Z 40;
     Crawl.cpc := Js.decimal 25 1;
     Crawl.competition := "Medium";
     Crawl.trend := [] |}.

Definition crawl_result (words h2 : list string) : Crawl.SEOData :=
  {| Crawl.url := "https://example.com";
     Crawl.title := "Example Domain";
     Crawl.meta_description := "";
     Crawl.content := "";
     Crawl.word_count := Js.of_Z 2500;
     Crawl.seo_score := Js.of_Z 72;
     Crawl.keywords := map crawl_keyword words;
     Crawl.headings := {| Crawl.h1 := ["Example"]; Crawl.h2 := h2; Crawl.h3 := [] |};
     Crawl.readability :=
       {| Crawl.flesch_reading_ease := Js.of_Z 65;
          Crawl.reading_level := "Standard";
          Crawl.readability_score := Js.of_Z 65 |};
     Crawl.recommendations := [] |}.

(** A backend that answers every request with the same result. *)
Definition always {P : Type} (r : FetchResult P) : string -> FetchResult P :=
  fun _ => r.

End Fixture.

(** ** The CSV layout in the words of the specification *)

(** One row: the provenance tag, a comma, the keyword between quotes. *)
Definition csv_row (source kw : string) : string :=
  source ++ "," ++ Text.quoted (Text.double_quotes kw).

(** The header line, then the rows of merged, of gemini and of onpage. *)
Definition csv_lines (merged gemini onpage : list string) : list string :=
  ("source,keyword"
   :: map (csv_row "merged") merged
   ++ map (csv_row "gemini") gemini
   ++ map (csv_row "onpage") onpage)%list.

(** ** Result and error of the analyzer page *)

Definition result_set (st : Analyzer.State) : bool :=
  match Analyzer.data st with Some _ => true | None => false end.

Definition error_set (st : Analyzer.State) : bool :=
  Js.truthy_str (Analyzer.error st).

(** What the [catch] clauses store for a caught value. *)
Definition caught_message (fallback : string) (e : Thrown) : string :=
  match e with
  | ErrorObj m => m
  | NonError => fallback
  end.

(** The state of the analyzer page between two events, each handler having
    run to its end: no request is loading, and result and error are not
    both set. *)
Definition settled (st : Analyzer.State) : Prop :=
  Analyzer.loading st = false
  /\ result_set st && error_set st = false.

(** * Properties *)

Example floor_50_times_0_8 :
  Js.to_Z (Js.Math_floor (Js.mul (Js.of_Z 50) Js.lit_0_8)) = Some 40%Z.
Proof. vm_compute. reflexivity. Qed.

Example floor_1000_times_1_2 :
  Js.to_Z (Js.Math_floor (Js.mul (Js.of_Z 1000) Js.lit_1_2)) = Some 1200%Z.
Proof. vm_compute. reflexivity. Qed.

Lemma same_number_eq_holds :
  forall x y, Js.same_number x y = true -> x = y.
Proof.
  intros [s1|s1| |s1 m1 e1] [s2|s2| |s2 m2 e2]; simpl; try discriminate.
  - intro H. apply Bool.eqb_prop in H. congruence.
  - intro H. apply Bool.eqb_prop in H. congruence.
  - reflexivity.
  - intro H. apply andb_true_iff in H. destruct H as [H He].
    apply andb_true_iff in H. destruct H as [Hs Hm].
    apply Bool.eqb_prop in Hs. apply Pos.eqb_eq in Hm. apply Z.eqb_eq in He.
    congruence.
Qed.

(** ** The URL validator *)

(** C4. [isValidUrl] answers true exactly for the strings that the URL
    constructor parses as an absolute URL whose scheme and host are both
    non-empty: a string that does not parse, or that parses without a host,
    is rejected, and every string that parses with both is accepted. *)
Theorem C4_isValidUrl_iff :
  forall (URL_parse : string -> option Analyzer.URLRecord) (value : string),
    Analyzer.isValidUrl URL_parse value = true <->
    exists u, URL_parse value = Some u
              /\ Analyzer.protocol u <> "" /\ Analyzer.host u <> "".
Proof.
  intros URL_parse value. unfold Analyzer.isValidUrl. split.
  - destruct (URL_parse value) as [u|]; [|discriminate].
    intro H. apply andb_true_iff in H. destruct H as [Hp Hh].
    exists u. repeat split.
    + intro E. rewrite E in Hp. discriminate.
    + intro E. rewrite E in Hh. discriminate.
  - intros (u & Hu & Hp & Hh). rewrite Hu.
    destruct (Analyzer.protocol u); [contradiction|].
    destruct (Analyzer.host u); [contradiction|]. reflexivity.
Qed.

Lemma isValidUrl_unparsed :
  forall (URL_parse : string -> option Analyzer.URLRecord) (value : string),
    URL_parse value = None -> Analyzer.isValidUrl URL_parse value = false.
Proof. intros U v H. unfold Analyzer.isValidUrl. rewrite H. reflexivity. Qed.

Lemma isValidUrl_without_host :
  forall (URL_parse : string -> option Analyzer.URLRecord) (value : string) u,
    URL_parse value = Some u -> Analyzer.host u = "" ->
    Analyzer.isValidUrl URL_parse value = false.
Proof.
  intros U v u H Hh. unfold Analyzer.isValidUrl. rewrite H, Hh.
  apply andb_false_r.
Qed.

Example isValidUrl_samples :
  Analyzer.isValidUrl Sample.URL_parse "https://example.com" = true
  /\ Analyzer.isValidUrl Sample.URL_parse "example.com" = false
  /\ Analyzer.isValidUrl Sample.URL_parse "mailto:someone@example.com" = false
  /\ Analyzer.isValidUrl Sample.URL_parse "" = false.
Proof. repeat split; reflexivity. Qed.

(** ** Derived estimates of the competitor view *)

Lemma or_else_undefined : forall v, or_else VUndefined v = v.
Proof. reflexivity. Qed.



(** On the scale 0 to 100 of the authority and score metrics the two
    estimates with a factor below one are the exact integer parts of four
    fifths and of nine tenths: the rounding of the product never crosses an
    integer. *)
Lemma estimates_on_scale :
  forall n : nat,
    (n <= 100)%nat ->
    Js.Math_floor (Js.mul (Js.of_Z (Z.of_nat n)) Js.lit_0_8)
    = Js.of_Z (Z.of_nat n * 4 / 5)
    /\ Js.Math_floor (Js.mul (Js.of_Z (Z.of_nat n)) Js.lit_0_9)
       = Js.of_Z (Z.of_nat n * 9 / 10).
Proof.
  assert (H : forallb
                (fun n =>
                   Js.same_number
                     (Js.Math_floor (Js.mul (Js.of_Z (Z.of_nat n)) Js.lit_0_8))
                     (Js.of_Z (Z.of_nat n * 4 / 5))
                   && Js.same_number
                        (Js.Math_floor (Js.mul (Js.of_Z (Z.of_nat n)) Js.lit_0_9))
                        (Js.of_Z (Z.of_nat n * 9 / 10)))
                (seq 0 101) = true) by (vm_compute; reflexivity).
  intros n Hn. rewrite forallb_forall in H.
  assert (Hin : In n (seq 0 101)) by (apply in_seq; lia).
  specialize (H n Hin). apply andb_true_iff in H. destruct H as [H8 H9].
  split; apply same_number_eq_holds; assumption.
Qed.

Example derived_estimates_en_US :
  Sample.toLocaleString (Js.of_Z 1200) = "1,200"
  /\ Js.toString (Js.of_Z 40) = "40".
Proof. split; vm_compute; reflexivity. Qed.

(** ** The CSV export *)

Lemma pushRows_app :
  forall source words rows,
    Analyzer.pushRows source words rows = (rows ++ map (csv_row source) words)%list.
Proof.
  intros source words. unfold Analyzer.pushRows.
  induction words as [|kw words IH]; intro rows; simpl.
  - symmetry. apply app_nil_r.
  - rewrite IH. rewrite <- app_assoc. reflexivity.
Qed.

Lemma csv_lines_of :
  forall d,
    Analyzer.csv d
    = Text.bom
      ++ Text.join Text.newline
           (csv_lines (Analyzer.keyword_list d "merged")
                      (Analyzer.keyword_list d "gemini")
                      (Analyzer.keyword_list d "onpage")).
Proof.
  intro d. unfold Analyzer.csv, csv_lines.
  rewrite !pushRows_app. rewrite <- !app_assoc. reflexivity.
Qed.

(** The export has one line for the header and one per keyword. *)
Lemma csv_line_count :
  forall merged gemini onpage,
    List.length (csv_lines merged gemini onpage)
    = S (List.length merged + List.length gemini + List.length onpage).
Proof.
  intros m g o. unfold csv_lines. simpl.
  rewrite !length_app, !length_map. lia.
Qed.

(** C7. The exported text starts with the three bytes of the byte order
    mark; then come the lines, separated by line feeds: the header
    [source,keyword], then one row per keyword, the merged ones first, then
    gemini, then onpage. A row is the provenance tag, a comma, and the
    keyword between two double quote characters, each double quote inside
    the keyword written twice. For merged [seo, tools], gemini [ai] and an
    empty onpage list the rows after the header are the two merged rows and
    the gemini row, and nothing else. The text is offered for download as
    [keywords.csv]. *)
Theorem C7_csv_layout :
  (forall d,
      Analyzer.csv d
      = String "239" (String "187" (String "191"
          (String.concat (String "010" "")
             ("source,keyword"
              :: map (fun kw =>
                        ("merged," ++ String "034"
                           (Text.double_quotes kw ++ String "034" ""))%string)
                   (Analyzer.keyword_list d "merged")
              ++ map (fun kw =>
                        ("gemini," ++ String "034"
                           (Text.double_quotes kw ++ String "034" ""))%string)
                   (Analyzer.keyword_list d "gemini")
              ++ map (fun kw =>
                        ("onpage," ++ String "034"
                           (Text.double_quotes kw ++ String "034" ""))%string)
                   (Analyzer.keyword_list d "onpage"))%list))))
  /\ Analyzer.csv (Some (Fixture.analysis (Some Fixture.seo_tools_ai_object)))
     = String "239" (String "187" (String "191"
         ("source,keyword" ++ String "010"
            ("merged," ++ String "034" ("seo" ++ String "034" (String "010"
               ("merged," ++ String "034" ("tools" ++ String "034" (String "010"
                  ("gemini," ++ String "034" ("ai" ++ String "034" "")))))))))))
  /\ Analyzer.csv
       (Some (Fixture.analysis
                (Some [("merged", ["5" ++ String "034" " screen"])])))
     = String "239" (String "187" (String "191"
         ("source,keyword" ++ String "010"
            ("merged," ++ String "034"
               ("5" ++ String "034" (String "034" (" screen" ++ String "034" "")))))))
  /\ (forall st,
         Analyzer.downloadCSV st
         = (st, [Download "keywords.csv" "text/csv;charset=utf-8;"
                   (Analyzer.csv (Analyzer.data st))])).
Proof.
  split; [|split; [|split]].
  - intro d. rewrite csv_lines_of. reflexivity.
  - vm_compute. reflexivity.
  - vm_compute. reflexivity.
  - reflexivity.
Qed.


(** ** The guard of the analyze action *)

(** C3. In the analyzer page that owns the validator, clicking analyze with
    an empty string or with a string the validator rejects issues no
    request and leaves the state as it is. *)
Theorem C3_analyzer_blocks_invalid_url :
  forall (URL_parse : string -> option Analyzer.URLRecord) (env : option string)
         (fetch : string -> FetchResult Analyzer.AnalyzePayload) (st : Analyzer.State),
    Analyzer.st_url st = ""
    \/ Analyzer.isValidUrl URL_parse (Analyzer.st_url st) = false ->
    Analyzer.analyzeSEO URL_parse env fetch st = (st, []).
Proof.
  intros U env fetch st H. unfold Analyzer.analyzeSEO, Analyzer.valid.
  destruct H as [H|H]; rewrite H.
  - reflexivity.
  - rewrite orb_true_r. reflexivity.
Qed.

Lemma C3_analyzer_blocks_invalid_url_witness :
  Analyzer.analyzeSEO Sample.URL_parse None
    (Fixture.always (Rejected (ErrorObj "Failed to fetch")))
    (Analyzer.setUrl "not a url" Analyzer.initial)
  = (Analyzer.setUrl "not a url" Analyzer.initial, []).
Proof.
  apply (C3_analyzer_blocks_invalid_url Sample.URL_parse None
           (Fixture.always (Rejected (ErrorObj "Failed to fetch")))
           (Analyzer.setUrl "not a url" Analyzer.initial)).
  right. reflexivity.
Defined.

(** C3, as stated, fails in [app/page.tsx]: the string [not a url] has no
    scheme, and [analyzeKeywords] sends it to the backend; the crawl page
    sends even a single space. *)
Lemma C3_dashboard_fetches_invalid_url :
  Analyzer.isValidUrl Sample.URL_parse "not a url" = false
  /\ snd (Dashboard.analyzeKeywords Sample.TypeError_message None
            (Fixture.always (Rejected (ErrorObj "Failed to fetch")))
            (Dashboard.setUrl "not a url" Dashboard.initial))
     = [Fetch "http://localhost:8000/keywords?url=not%20a%20url"]
  /\ snd (Crawl.analyzeSEO
            (Fixture.always (Rejected (ErrorObj "Failed to fetch")))
            (Crawl.setUrl " " Crawl.initial))
     = [Fetch "/api/crawl?url=%20"].
Proof. repeat split; vm_compute; reflexivity. Qed.

(** The analyzer page sends exactly one request when the guard lets the
    click through. *)
Lemma analyzer_fetches_valid_url :
  forall URL_parse env fetch st,
    Analyzer.st_url st <> "" ->
    Analyzer.isValidUrl URL_parse (Analyzer.st_url st) = true ->
    snd (Analyzer.analyzeSEO URL_parse env fetch st)
    = [Fetch (Analyzer.request env st)].
Proof.
  intros U env fetch st Hne Hv. unfold Analyzer.analyzeSEO, Analyzer.valid.
  rewrite Hv. destruct (Analyzer.st_url st); [contradiction|]. reflexivity.
Qed.

(** The two handlers of the dashboard block a blank input and nothing else;
    the crawl page blocks the empty string and nothing else. *)
Lemma dashboard_guard :
  forall T env st,
    (forall fetch,
        snd (Dashboard.analyzeKeywords T env fetch st)
        = if Text.blank (Dashboard.st_url st) then []
          else [Fetch (Dashboard.request env "/keywords" st)])
    /\ (forall fetch,
           snd (Dashboard.analyzeCompetitor T env fetch st)
           = if Text.blank (Dashboard.st_url st) then []
             else [Fetch (Dashboard.request env "/analyze" st)]).
Proof.
  intros T env st.
  unfold Dashboard.analyzeKeywords, Dashboard.analyzeCompetitor.
  split; intro fetch; destruct (Text.blank (Dashboard.st_url st)); reflexivity.
Qed.

Lemma crawl_guard :
  forall fetch st,
    snd (Crawl.analyzeSEO fetch st)
    = if Js.truthy_str (Crawl.st_url st) then [Fetch (Crawl.request st)] else [].
Proof.
  intros fetch st. unfold Crawl.analyzeSEO.
  destruct (Js.truthy_str (Crawl.st_url st)); reflexivity.
Qed.

(** ** Result and error after a request *)

Lemma member_or_string :
  forall s fallback, s <> "" -> member_or (Some (JStr s)) fallback = JStr s.
Proof. intros [|c s] fallback H; [contradiction|reflexivity]. Qed.

Lemma member_or_falsy :
  forall x fallback, present_truthy x = false -> member_or x fallback = fallback.
Proof.
  intros [j|] fallback H; [|reflexivity].
  unfold member_or. simpl in H. rewrite H. reflexivity.
Qed.

(** A member that is missing, falsy or a string gives way to a fallback
    with a text, or has a text itself. *)
Lemma member_or_textual :
  forall x fallback,
    textual x -> Js.truthy_str (json_text fallback) = true ->
    Js.truthy_str (json_text (member_or x fallback)) = true.
Proof.
  intros [j|] fallback Hx Hf; [|exact Hf]. unfold member_or.
  destruct (json_truthy j) eqn:E; [|exact Hf].
  destruct (Hx j eq_refl E) as [s ->]. exact E.
Qed.

(** In the analyzer page a request that fails clears the result and stores
    the message; a request that succeeds stores the payload and no error. *)
Lemma analyzer_failure_clears_result :
  forall URL_parse env fetch st e,
    Analyzer.st_url st <> "" ->
    Analyzer.isValidUrl URL_parse (Analyzer.st_url st) = true ->
    Analyzer.attempt (fetch (Analyzer.request env st)) = Threw e ->
    let st' := fst (Analyzer.analyzeSEO URL_parse env fetch st) in
    Analyzer.data st' = None
    /\ Analyzer.error st' = caught_message "Failed to analyze website" e
    /\ Analyzer.loading st' = false.
Proof.
  intros U env fetch st e Hne Hv Ha. unfold Analyzer.analyzeSEO, Analyzer.valid.
  rewrite Hv. destruct (Analyzer.st_url st) eqn:Eu; [contradiction|]. simpl negb.
  cbv beta iota zeta.
  change (Analyzer.request env
            (Analyzer.setCopied false
               (Analyzer.setError "" (Analyzer.setLoading true st))))
    with (Analyzer.request env st).
  rewrite Ha. destruct e; repeat split; reflexivity.
Qed.

Lemma analyzer_success_stores_payload :
  forall URL_parse env fetch st p,
    Analyzer.st_url st <> "" ->
    Analyzer.isValidUrl URL_parse (Analyzer.st_url st) = true ->
    Analyzer.attempt (fetch (Analyzer.request env st)) = Returned p ->
    let st' := fst (Analyzer.analyzeSEO URL_parse env fetch st) in
    Analyzer.data st' = p /\ Analyzer.error st' = ""
    /\ Analyzer.loading st' = false.
Proof.
  intros U env fetch st p Hne Hv Ha. unfold Analyzer.analyzeSEO, Analyzer.valid.
  rewrite Hv. destruct (Analyzer.st_url st) eqn:Eu; [contradiction|]. simpl negb.
  cbv beta iota zeta.
  change (Analyzer.request env
            (Analyzer.setCopied false
               (Analyzer.setError "" (Analyzer.setLoading true st))))
    with (Analyzer.request env st).
  rewrite Ha. repeat split; reflexivity.
Qed.

(** After a completed request of the analyzer page exactly one of result and
    error is set, as long as a caught [Error] carries a message and the body
    of an ok response is not [null]. *)
Lemma analyzer_result_xor_error :
  forall URL_parse env fetch st,
    Analyzer.st_url st <> "" ->
    Analyzer.isValidUrl URL_parse (Analyzer.st_url st) = true ->
    Analyzer.attempt (fetch (Analyzer.request env st)) <> Threw (ErrorObj "") ->
    Analyzer.attempt (fetch (Analyzer.request env st)) <> Returned None ->
    let st' := fst (Analyzer.analyzeSEO URL_parse env fetch st) in
    xorb (result_set st') (error_set st') = true.
Proof.
  intros U env fetch st Hne Hv Hm Hn. cbv zeta.
  destruct (Analyzer.attempt (fetch (Analyzer.request env st))) as [p|e] eqn:Ha.
  - pose proof (analyzer_success_stores_payload U env fetch st p Hne Hv Ha) as H.
    cbv zeta in H. destruct H as (Hd & He & _).
    unfold result_set, error_set. rewrite Hd, He.
    destruct p; [reflexivity | contradiction Hn; reflexivity].
  - pose proof (analyzer_failure_clears_result U env fetch st e Hne Hv Ha) as H.
    cbv zeta in H. destruct H as (Hd & He & _).
    unfold result_set, error_set. rewrite Hd, He.
    destruct e as [m|]; [|reflexivity].
    destruct m; [contradiction Hm; reflexivity|reflexivity].
Qed.

(** In the dashboard a request that fails stores the message and leaves both
    results as they were. *)
Lemma dashboard_failure_keeps_result :
  forall T env fetch st e,
    Text.blank (Dashboard.st_url st) = false ->
    Dashboard.attempt T (fetch (Dashboard.request env "/keywords" st)) = Threw e ->
    let st' := fst (Dashboard.analyzeKeywords T env fetch st) in
    Dashboard.keywordData st' = Dashboard.keywordData st
    /\ Dashboard.competitorData st' = Dashboard.competitorData st
    /\ Dashboard.error st' = caught_message "Failed to analyze keywords" e.
Proof.
  intros T env fetch st e Hb Ha. unfold Dashboard.analyzeKeywords.
  rewrite Hb. cbv beta iota zeta.
  change (Dashboard.request env "/keywords"
            (Dashboard.setError "" (Dashboard.setLoading true st)))
    with (Dashboard.request env "/keywords" st).
  rewrite Ha. destruct e; repeat split; reflexivity.
Qed.

(** C2. The dashboard shows a keyword result; the next analysis is answered
    with status 500 and an empty JSON object. Afterwards the error message
    is set and the previous result is still there: both are set. *)
Theorem C2_dashboard_keeps_result_on_failure :
  Dashboard.keywordData
    (fst (Dashboard.analyzeKeywords Sample.TypeError_message None
            (Fixture.always (NotOk 500 (JsonObject None None)))
            (Fixture.showing Fixture.previous_result "https://example.org")))
  = Some Fixture.previous_result
  /\ Dashboard.error
       (fst (Dashboard.analyzeKeywords Sample.TypeError_message None
               (Fixture.always (NotOk 500 (JsonObject None None)))
               (Fixture.showing Fixture.previous_result "https://example.org")))
     = "HTTP error! status: 500"
  /\ Dashboard.loading
       (fst (Dashboard.analyzeKeywords Sample.TypeError_message None
               (Fixture.always (NotOk 500 (JsonObject None None)))
               (Fixture.showing Fixture.previous_result "https://example.org")))
     = false.
Proof. repeat split; vm_compute; reflexivity. Qed.


(** ** The error text of a response that is not ok *)

Lemma analyzer_error_text :
  forall URL_parse env fetch st status body,
    Analyzer.st_url st <> "" ->
    Analyzer.isValidUrl URL_parse (Analyzer.st_url st) = true ->
    fetch (Analyzer.request env st) = NotOk status body ->
    Analyzer.error (fst (Analyzer.analyzeSEO URL_parse env fetch st))
    = Analyzer.error_message status body.
Proof.
  intros U env fetch st status body Hne Hv Hf.
  pose proof (analyzer_failure_clears_result U env fetch st
                (ErrorObj (Analyzer.error_message status body)) Hne Hv) as H.
  cbv zeta in H. apply H. rewrite Hf. reflexivity.
Qed.

Lemma dashboard_keywords_error_text :
  forall T env fetch st status m,
    Text.blank (Dashboard.st_url st) = false ->
    fetch (Dashboard.request env "/keywords" st) = NotOk status m ->
    forall text, Dashboard.error_message T status m = Returned text ->
    Dashboard.error (fst (Dashboard.analyzeKeywords T env fetch st)) = text.
Proof.
  intros T env fetch st status m Hb Hf text Hm.
  pose proof (dashboard_failure_keeps_result T env fetch st (ErrorObj text) Hb) as H.
  cbv zeta in H. apply H. rewrite Hf. simpl. rewrite Hm. reflexivity.
Qed.

Lemma dashboard_competitor_error_text :
  forall T env fetch st status m,
    Text.blank (Dashboard.st_url st) = false ->
    fetch (Dashboard.request env "/analyze" st) = NotOk status m ->
    forall text, Dashboard.error_message T status m = Returned text ->
    Dashboard.error (fst (Dashboard.analyzeCompetitor T env fetch st)) = text.
Proof.
  intros T env fetch st status m Hb Hf text Hm.
  unfold Dashboard.analyzeCompetitor. rewrite Hb. cbv beta iota zeta.
  change (Dashboard.request env "/analyze"
            (Dashboard.setError "" (Dashboard.setLoading true st)))
    with (Dashboard.request env "/analyze" st).
  rewrite Hf. simpl. rewrite Hm. reflexivity.
Qed.

(** C6. On a response that is not ok the error text is the [detail] of the
    error body when that is a non-empty string, in all three handlers. When
    [detail] is missing or falsy, the analyzer page takes [message] when
    that is a non-empty string, and the line [HTTP error! status: ] followed
    by the status when [message] is missing or falsy too; the two handlers
    of the dashboard do not read [message] and take that line. A body that
    is not JSON gives that line in all three handlers, and so does the body
    [null] in the analyzer page. A response with status 500 and the body
    [detail: backend overloaded] shows exactly [backend overloaded]. *)
Theorem C6_error_text_from_error_body :
  (forall URL_parse env fetch st status detail message,
      Analyzer.st_url st <> "" ->
      Analyzer.isValidUrl URL_parse (Analyzer.st_url st) = true ->
      fetch (Analyzer.request env st) = NotOk status (JsonObject detail message) ->
      (forall s, detail = Some (JStr s) -> s <> "" ->
                 Analyzer.error (fst (Analyzer.analyzeSEO URL_parse env fetch st)) = s)
      /\ (present_truthy detail = false ->
          forall s, message = Some (JStr s) -> s <> "" ->
                    Analyzer.error (fst (Analyzer.analyzeSEO URL_parse env fetch st))
                    = s)
      /\ (present_truthy detail = false -> present_truthy message = false ->
          Analyzer.error (fst (Analyzer.analyzeSEO URL_parse env fetch st))
          = "HTTP error! status: " ++ Text.decimal status))
  /\ (forall URL_parse env fetch st status body,
         Analyzer.st_url st <> "" ->
         Analyzer.isValidUrl URL_parse (Analyzer.st_url st) = true ->
         body = NotJson \/ body = JsonNull ->
         fetch (Analyzer.request env st) = NotOk status body ->
         Analyzer.error (fst (Analyzer.analyzeSEO URL_parse env fetch st))
         = "HTTP error! status: " ++ Text.decimal status)
  /\ (forall T env fetch st status detail message,
         Text.blank (Dashboard.st_url st) = false ->
         fetch (Dashboard.request env "/keywords" st)
         = NotOk status (JsonObject detail message) ->
         (forall s, detail = Some (JStr s) -> s <> "" ->
                    Dashboard.error (fst (Dashboard.analyzeKeywords T env fetch st))
                    = s)
         /\ (present_truthy detail = false ->
             Dashboard.error (fst (Dashboard.analyzeKeywords T env fetch st))
             = "HTTP error! status: " ++ Text.decimal status))
  /\ (forall T env fetch st status detail message,
         Text.blank (Dashboard.st_url st) = false ->
         fetch (Dashboard.request env "/analyze" st)
         = NotOk status (JsonObject detail message) ->
         (forall s, detail = Some (JStr s) -> s <> "" ->
                    Dashboard.error (fst (Dashboard.analyzeCompetitor T env fetch st))
                    = s)
         /\ (present_truthy detail = false ->
             Dashboard.error (fst (Dashboard.analyzeCompetitor T env fetch st))
             = "HTTP error! status: " ++ Text.decimal status))
  /\ (forall T env st status,
         Text.blank (Dashboard.st_url st) = false ->
         (forall fetch,
             fetch (Dashboard.request env "/keywords" st) = NotOk status NotJson ->
             Dashboard.error (fst (Dashboard.analyzeKeywords T env fetch st))
             = "HTTP error! status: " ++ Text.decimal status)
         /\ (forall fetch,
                fetch (Dashboard.request env "/analyze" st) = NotOk status NotJson ->
                Dashboard.error (fst (Dashboard.analyzeCompetitor T env fetch st))
                = "HTTP error! status: " ++ Text.decimal status))
  /\ Analyzer.error
       (fst (Analyzer.analyzeSEO Sample.URL_parse None
               (Fixture.always
                  (NotOk 500 (JsonObject (Some (JStr "backend overloaded")) None)))
               (Analyzer.setUrl "https://example.com" Analyzer.initial)))
     = "backend overloaded"
  /\ Dashboard.error
       (fst (Dashboard.analyzeKeywords Sample.TypeError_message None
               (Fixture.always
                  (NotOk 500 (JsonObject (Some (JStr "backend overloaded")) None)))
               (Dashboard.setUrl "https://example.com" Dashboard.initial)))
     = "backend overloaded"
  /\ Dashboard.error
       (fst (Dashboard.analyzeCompetitor Sample.TypeError_message None
               (Fixture.always
                  (NotOk 500 (JsonObject (Some (JStr "backend overloaded")) None)))
               (Dashboard.setUrl "https://example.com" Dashboard.initial)))
     = "backend overloaded"
  /\ Analyzer.error
       (fst (Analyzer.analyzeSEO Sample.URL_parse None
               (Fixture.always (NotOk 502 NotJson))
               (Analyzer.setUrl "https://example.com" Analyzer.initial)))
     = "HTTP error! status: 502"
  /\ Dashboard.error
       (fst (Dashboard.analyzeCompetitor Sample.TypeError_message None
               (Fixture.always (NotOk 404 (JsonObject (Some (JStr "")) None)))
               (Dashboard.setUrl "https://example.com" Dashboard.initial)))
     = "HTTP error! status: 404".
Proof.
  split; [|split; [|split; [|split; [|split; [|split; [|split; [|split; [|split]]]]]]]].
  - intros U env fetch st status d m Hne Hv Hf.
    rewrite (analyzer_error_text U env fetch st status _ Hne Hv Hf).
    unfold Analyzer.error_message. split; [|split].
    + intros s -> Hs. rewrite (member_or_string s _ Hs). reflexivity.
    + intros Hd s -> Hs. rewrite (member_or_falsy d _ Hd).
      rewrite (member_or_string s _ Hs). reflexivity.
    + intros Hd Hm. rewrite (member_or_falsy d _ Hd), (member_or_falsy m _ Hm).
      reflexivity.
  - intros U env fetch st status body Hne Hv Hb Hf.
    rewrite (analyzer_error_text U env fetch st status _ Hne Hv Hf).
    destruct Hb as [-> | ->]; reflexivity.
  - intros T env fetch st status d m Hb Hf. split.
    + intros s -> Hs.
      apply (dashboard_keywords_error_text T env fetch st status _ Hb Hf).
      unfold Dashboard.error_message. rewrite (member_or_string s _ Hs). reflexivity.
    + intro Hd.
      apply (dashboard_keywords_error_text T env fetch st status _ Hb Hf).
      unfold Dashboard.error_message. rewrite (member_or_falsy d _ Hd). reflexivity.
  - intros T env fetch st status d m Hb Hf. split.
    + intros s -> Hs.
      apply (dashboard_competitor_error_text T env fetch st status _ Hb Hf).
      unfold Dashboard.error_message. rewrite (member_or_string s _ Hs). reflexivity.
    + intro Hd.
      apply (dashboard_competitor_error_text T env fetch st status _ Hb Hf).
      unfold Dashboard.error_message. rewrite (member_or_falsy d _ Hd). reflexivity.
  - intros T env st status Hb. split; intros fetch Hf.
    + apply (dashboard_keywords_error_text T env fetch st status _ Hb Hf). reflexivity.
    + apply (dashboard_competitor_error_text T env fetch st status _ Hb Hf).
      reflexivity.
  - vm_compute. reflexivity.
  - vm_compute. reflexivity.
  - vm_compute. reflexivity.
  - vm_compute. reflexivity.
  - vm_compute. reflexivity.
Qed.

Lemma C6_error_text_from_error_body_witness :
  Analyzer.error
    (fst (Analyzer.analyzeSEO Sample.URL_parse None
            (Fixture.always
               (NotOk 503 (JsonObject (Some JNull) (Some (JStr "try again later")))))
            (Analyzer.setUrl "https://example.com" Analyzer.initial)))
  = "try again later"
  /\ Analyzer.error
       (fst (Analyzer.analyzeSEO Sample.URL_parse None
               (Fixture.always (NotOk 502 JsonNull))
               (Analyzer.setUrl "https://example.com" Analyzer.initial)))
     = "HTTP error! status: " ++ Text.decimal 502
  /\ Dashboard.error
       (fst (Dashboard.analyzeKeywords Sample.TypeError_message None
               (Fixture.always
                  (NotOk 500 (JsonObject (Some (JStr "backend overloaded")) None)))
               (Dashboard.setUrl "https://example.com" Dashboard.initial)))
     = "backend overloaded"
  /\ Dashboard.error
       (fst (Dashboard.analyzeCompetitor Sample.TypeError_message None
               (Fixture.always (NotOk 500 (JsonObject (Some (JNum (Js.of_Z 0))) None)))
               (Dashboard.setUrl "https://example.com" Dashboard.initial)))
     = "HTTP error! status: " ++ Text.decimal 500
  /\ Dashboard.error
       (fst (Dashboard.analyzeKeywords Sample.TypeError_message None
               (Fixture.always (NotOk 504 NotJson))
               (Dashboard.setUrl "https://example.com" Dashboard.initial)))
     = "HTTP error! status: " ++ Text.decimal 504.
Proof.
  destruct C6_error_text_from_error_body as (Ha & Hn & Hk & Hc & Hj & _).
  split; [|split; [|split; [|split]]].
  - destruct (Ha Sample.URL_parse None
                (Fixture.always
                   (NotOk 503 (JsonObject (Some JNull) (Some (JStr "try again later")))))
                (Analyzer.setUrl "https://example.com" Analyzer.initial)
                503%Z (Some JNull) (Some (JStr "try again later")))
      as (_ & Hm & _); [discriminate | reflexivity | reflexivity |].
    apply (Hm eq_refl "try again later"); [reflexivity | discriminate].
  - apply (Hn Sample.URL_parse None (Fixture.always (NotOk 502 JsonNull))
             (Analyzer.setUrl "https://example.com" Analyzer.initial) 502%Z JsonNull);
      [discriminate | reflexivity | right; reflexivity | reflexivity].
  - destruct (Hk Sample.TypeError_message None
                (Fixture.always
                   (NotOk 500 (JsonObject (Some (JStr "backend overloaded")) None)))
                (Dashboard.setUrl "https://example.com" Dashboard.initial)
                500%Z (Some (JStr "backend overloaded")) None)
      as (Hd & _); [reflexivity | reflexivity |].
    apply (Hd "backend overloaded"); [reflexivity | discriminate].
  - destruct (Hc Sample.TypeError_message None
                (Fixture.always (NotOk 500 (JsonObject (Some (JNum (Js.of_Z 0))) None)))
                (Dashboard.setUrl "https://example.com" Dashboard.initial)
                500%Z (Some (JNum (Js.of_Z 0))) None)
      as (_ & Hg); [reflexivity | reflexivity |].
    apply Hg. reflexivity.
  - destruct (Hj Sample.TypeError_message None
                (Dashboard.setUrl "https://example.com" Dashboard.initial) 504%Z
                eq_refl) as (Hg & _).
    apply Hg. reflexivity.
Defined.

(** C6, as stated, fails in the dashboard: a 500 response whose body carries
    the text in [message] shows the status line, not the text. *)
Lemma C6_dashboard_ignores_message :
  Dashboard.error
    (fst (Dashboard.analyzeCompetitor Sample.TypeError_message None
            (Fixture.always
               (NotOk 500 (JsonObject None (Some (JStr "backend overloaded")))))
            (Dashboard.setUrl "https://example.com" Dashboard.initial)))
  = "HTTP error! status: 500"
  /\ Dashboard.error
       (fst (Dashboard.analyzeCompetitor Sample.TypeError_message None
               (Fixture.always
                  (NotOk 500 (JsonObject None (Some (JStr "backend overloaded")))))
               (Dashboard.setUrl "https://example.com" Dashboard.initial)))
     <> "backend overloaded".
Proof. split; vm_compute; [reflexivity | discriminate]. Qed.

(** ** The export helpers *)

(** [copyMerged] does nothing when the merged list is empty. *)
Lemma copyMerged_empty_is_noop :
  forall clipboard_ok st,
    Analyzer.keyword_list (Analyzer.data st) "merged" = [] ->
    Analyzer.copyMerged clipboard_ok st = (st, []).
Proof.
  intros ok st H. unfold Analyzer.copyMerged. rewrite H. reflexivity.
Qed.

(** [downloadCSV] offers a download in every state. *)
Lemma downloadCSV_always_downloads :
  forall st, snd (Analyzer.downloadCSV st) <> [].
Proof. intros st. discriminate. Qed.

(** C8. With a payload whose three keyword lists are empty, the export
    still offers [keywords.csv]: the byte order mark and the header line. *)
Theorem C8_downloadCSV_exports_empty_lists :
  Analyzer.downloadCSV
    (Fixture.loaded (Fixture.analysis (Some Fixture.no_keywords_object)))
  = (Fixture.loaded (Fixture.analysis (Some Fixture.no_keywords_object)),
     [Download "keywords.csv" "text/csv;charset=utf-8;"
        (Text.bom ++ "source,keyword")])
  /\ Analyzer.copyMerged true
       (Fixture.loaded (Fixture.analysis (Some Fixture.no_keywords_object)))
     = (Fixture.loaded (Fixture.analysis (Some Fixture.no_keywords_object)), []).
Proof. split; vm_compute; reflexivity. Qed.

(** ** The request of the analyzer page *)

Lemma append_assoc :
  forall s1 s2 s3 : string, (s1 ++ s2) ++ s3 = s1 ++ (s2 ++ s3).
Proof.
  induction s1 as [|c s1 IH]; intros s2 s3; simpl; [reflexivity|].
  rewrite IH. reflexivity.
Qed.

Lemma join_two :
  forall sep a b, Text.join sep [a; b] = a ++ sep ++ b.
Proof. reflexivity. Qed.

(** With the environment variable unset and the number input untouched the
    request goes to the local address, with the URL form-encoded and
    [gemini_top_n] equal to 20. *)
Lemma analyzer_default_request :
  forall u,
    Analyzer.request None (Analyzer.setUrl u Analyzer.initial)
    = "http://localhost:8000/analyze?url=" ++ Text.form_encode u
      ++ "&gemini_top_n=20".
Proof.
  intro u. unfold Analyzer.request, Text.URLSearchParams_toString.
  cbn [map fst snd Analyzer.st_url Analyzer.setUrl Analyzer.geminiTopN
         Analyzer.initial].
  rewrite join_two.
  replace (Js.toString (Js.of_Z 20)) with "20" by (vm_compute; reflexivity).
  cbn [backend_origin str_or Text.form_encode].
  change (Text.form_encode "url") with "url".
  change (Text.form_encode "gemini_top_n") with "gemini_top_n".
  change (Text.form_encode "20") with "20".
  simpl. rewrite ?append_assoc. reflexivity.
Qed.

(** A configured origin replaces the local address. *)
Lemma analyzer_configured_origin :
  forall origin st,
    origin <> "" ->
    Analyzer.request (Some origin) st
    = origin ++ "/analyze?"
      ++ Text.URLSearchParams_toString
           [("url", Analyzer.st_url st);
            ("gemini_top_n", Js.toString (Analyzer.geminiTopN st))].
Proof.
  intros origin st H. unfold Analyzer.request, backend_origin, str_or.
  destruct origin; [contradiction|]. reflexivity.
Qed.

(** C9. The number input declares the range 5 to 100, but its handler
    stores what is typed: after the field has been cleared the state holds
    0, below the declared minimum, and the request carries
    [gemini_top_n=0]. *)
Theorem C9_cleared_field_sends_zero :
  forall StringToNumber : string -> Js.number,
    Analyzer.geminiTopN
      (Analyzer.onChangeTopN StringToNumber ""
         (Analyzer.setUrl "https://example.com" Analyzer.initial))
    = Js.of_Z 0
    /\ (0 < Analyzer.topn_min)%Z
    /\ snd (Analyzer.analyzeSEO Sample.URL_parse None
              (Fixture.always (Ok (Returned (Fixture.analysis None))))
              (Analyzer.onChangeTopN StringToNumber ""
                 (Analyzer.setUrl "https://example.com" Analyzer.initial)))
       = [Fetch "http://localhost:8000/analyze?url=https%3A%2F%2Fexample.com&gemini_top_n=0"].
Proof.
  intro S. split; [reflexivity|]. split; [reflexivity|].
  vm_compute. reflexivity.
Qed.


(** ** Metrics that are present and zero *)








(** ** Missing members of a payload *)

(** The keywords tab and the competitor tab read [word_count] with a method
    call: without it the renderer throws. *)
Lemma keywords_view_needs_word_count :
  forall L T k,
    Dashboard.KeywordData.word_count k = None ->
    Dashboard.keywords_view L T k = Threw (ErrorObj (T "toLocaleString")).
Proof.
  intros L T k H. unfold Dashboard.keywords_view, Dashboard.call_method.
  rewrite H. reflexivity.
Qed.

Lemma competitor_view_needs_word_count :
  forall L T c,
    Dashboard.CompetitorData.word_count c = None ->
    Dashboard.competitor_view L T c = Threw (ErrorObj (T "toLocaleString")).
Proof.
  intros L T c H. unfold Dashboard.competitor_view, Dashboard.call_method.
  rewrite H. reflexivity.
Qed.

(** C1. With [word_count] present, the keywords tab and the competitor tab
    render whatever else the payload leaves out. A missing optional member
    falls back to a placeholder: N/A for the derived metrics, 45.2 for the
    bounce rate, 2:34 for the session duration, the empty list for a keyword
    list; a missing section object or heading level leaves its section out.
    In the analyzer page a missing heading list counts as the empty list:
    both places that show it show the count 0, the heading structure adds
    its note, and the check of the H1 tag fails; a missing keyword list
    shows the count 0 and its note; a missing word count shows nothing; a
    missing technical object fails its checks. *)
Theorem C1_optional_members_fall_back :
  forall (toLocaleString : Js.number -> string) (TypeError_message : string -> string),
    (forall k n,
        Dashboard.KeywordData.word_count k = Some n ->
        exists url title meta note,
          Dashboard.keywords_view toLocaleString TypeError_message k
          = Returned
              (VNode "Keyword Analysis Results"
                 [ url; title;
                   VNode "Word Count" [VStr (toLocaleString n)];
                   meta;
                   Dashboard.keyword_section "AI-Generated Keywords"
                     (Dashboard.getKeywordsByType (Dashboard.KeywordData.keywords k)
                        Dashboard.gemini);
                   Dashboard.keyword_section "On-Page Keywords"
                     (Dashboard.getKeywordsByType (Dashboard.KeywordData.keywords k)
                        Dashboard.onpage);
                   Dashboard.keyword_section "Top Merged Keywords"
                     (Dashboard.getKeywordsByType (Dashboard.KeywordData.keywords k)
                        Dashboard.merged);
                   note ]))
    /\ (forall c n,
           Dashboard.CompetitorData.word_count c = Some n ->
           exists url score traffic authority backlinks title meta,
             Dashboard.competitor_view toLocaleString TypeError_message c
             = Returned
                 (VNode "Competitor Analysis Results"
                    [ url; score; traffic; authority; backlinks;
                      VNode "Monthly Visitors"
                        [Dashboard.monthly_visitors_text toLocaleString c];
                      VNode "Bounce Rate" (Dashboard.bounce_rate_text c);
                      VNode "Session Duration" [Dashboard.session_duration_text c];
                      VNode "Organic Keywords"
                        [Dashboard.organic_keywords_text toLocaleString c];
                      VNode "Page Authority" [Dashboard.page_authority_text c];
                      VNode "Referring Domains"
                        [Dashboard.referring_domains_text toLocaleString c];
                      VNode "Mobile Score" [Dashboard.mobile_score_text c];
                      title;
                      VNode "Word Count" [VStr (toLocaleString n)];
                      meta;
                      Dashboard.technical_section c;
                      Dashboard.headings_section c;
                      Dashboard.content_metrics_section c;
                      Dashboard.keywords_found_section c ]))
    /\ (forall c,
           Dashboard.CompetitorData.keywords c = None ->
           Dashboard.keywords_found_section c = VUndefined)
    /\ (forall c,
           Dashboard.CompetitorData.monthly_visitors c = None ->
           Dashboard.CompetitorData.estimated_traffic c = None ->
           Dashboard.monthly_visitors_text toLocaleString c = VStr "N/A")
    /\ (forall c,
           Dashboard.CompetitorData.bounce_rate c = None ->
           Dashboard.bounce_rate_text c = [VStr "45.2"; VStr "%"])
    /\ (forall c,
           Dashboard.CompetitorData.avg_session_duration c = None ->
           Dashboard.session_duration_text c = VStr "2:34")
    /\ (forall c,
           Dashboard.CompetitorData.organic_keywords c = None ->
           Dashboard.CompetitorData.keywords c = None ->
           Dashboard.organic_keywords_text toLocaleString c = VStr "N/A")
    /\ (forall c,
           Dashboard.CompetitorData.page_authority c = None ->
           Dashboard.CompetitorData.domain_authority c = None ->
           Dashboard.page_authority_text c = VStr "N/A")
    /\ (forall c,
           Dashboard.CompetitorData.referring_domains c = None ->
           Dashboard.CompetitorData.backlinks c = None ->
           Dashboard.referring_domains_text toLocaleString c = VStr "N/A")
    /\ (forall c,
           Dashboard.CompetitorData.mobile_score c = None ->
           Dashboard.CompetitorData.seo_score c = None ->
           Dashboard.mobile_score_text c = VStr "N/A")
    /\ (forall c,
           Dashboard.CompetitorData.technical c = None ->
           Dashboard.technical_section c = VUndefined)
    /\ (forall c,
           Dashboard.CompetitorData.content_metrics c = None ->
           Dashboard.content_metrics_section c = VUndefined)
    /\ (forall c,
           Dashboard.CompetitorData.headings c = None ->
           Dashboard.headings_section c = VUndefined)
    /\ (forall label, Dashboard.heading_level label None = VUndefined)
    /\ (forall kw type,
           (forall k, kw = Some k -> type k = None) ->
           Dashboard.getKeywordsByType kw type = [])
    /\ (forall d source,
           (forall p, d = Some p -> member (Analyzer.keywords p) source = None) ->
           Analyzer.keyword_list d source = [])
    /\ (forall label note,
           Analyzer.keyword_group label note None
           = VNode label [VNum (Js.of_Z 0); VStr note])
    /\ (forall is_copied p,
           member (Analyzer.headings p) "h1" = None ->
           exists words h2_count suggestions information h2_list
                  meta canonical og,
             Analyzer.results is_copied p
             = VNode "results"
                 [ words;
                   VNode "H1 Tags" [VNum (Js.of_Z 0)];
                   h2_count; suggestions; information;
                   VNode "Heading Structure"
                     [ VNode "H1 Tags" [VNum (Js.of_Z 0); VStr "No H1 tags found"];
                       h2_list ];
                   VNode "Technical SEO"
                     [meta; VNode "AlertCircle" []; canonical; og] ])
    /\ (forall is_copied p,
           member (Analyzer.headings p) "h2" = None ->
           exists words h1_count suggestions information h1_list technical,
             Analyzer.results is_copied p
             = VNode "results"
                 [ words; h1_count;
                   VNode "H2 Tags" [VNum (Js.of_Z 0)];
                   suggestions; information;
                   VNode "Heading Structure"
                     [ h1_list;
                       VNode "H2 Tags" [VNum (Js.of_Z 0); VStr "No H2 tags found"] ];
                   technical ])
    /\ (forall is_copied p,
           member (Analyzer.keywords p) "merged" = None ->
           member (Analyzer.keywords p) "gemini" = None ->
           member (Analyzer.keywords p) "onpage" = None ->
           exists words h1_count h2_count copy export information structure
                  technical,
             Analyzer.results is_copied p
             = VNode "results"
                 [ words; h1_count; h2_count;
                   VNode "Keyword Suggestions"
                     [ copy; export;
                       VNode "Merged" [VNum (Js.of_Z 0); VStr "No suggestions"];
                       VNode "AI (Gemini)"
                         [VNum (Js.of_Z 0); VStr "No AI keywords available"];
                       VNode "On-page Phrases"
                         [VNum (Js.of_Z 0); VStr "No on-page phrases found"] ];
                   information; structure; technical ])
    /\ (forall is_copied p,
           Analyzer.word_count p = None ->
           Analyzer.technical p = None ->
           exists h1_count h2_count suggestions information structure meta h1,
             Analyzer.results is_copied p
             = VNode "results"
                 [ VNode "Words" [VUndefined];
                   h1_count; h2_count; suggestions; information; structure;
                   VNode "Technical SEO"
                     [meta; h1; VNode "AlertCircle" []; VNode "AlertCircle" []] ]
             /\ meta = Analyzer.BoolIndicator
                         (truthy (str_val (Analyzer.meta_description p)))).
Proof.
  intros L T.
  split; [|split; [|split; [|split; [|split; [|split; [|split; [|split;
    [|split; [|split; [|split; [|split; [|split; [|split; [|split; [|split;
    [|split; [|split; [|split; [|split]]]]]]]]]]]]]]]]]]].
  - intros k n H. unfold Dashboard.keywords_view, Dashboard.call_method.
    rewrite H. cbn [sequence bind]. do 4 eexists. reflexivity.
  - intros c n H. unfold Dashboard.competitor_view, Dashboard.call_method.
    rewrite H. cbn [sequence bind]. do 7 eexists. reflexivity.
  - intros c H. unfold Dashboard.keywords_found_section. rewrite H. reflexivity.
  - intros c H1 H2. unfold Dashboard.monthly_visitors_text, Dashboard.locale_val.
    rewrite H1, H2. reflexivity.
  - intros c H. unfold Dashboard.bounce_rate_text. rewrite H. reflexivity.
  - intros c H. unfold Dashboard.session_duration_text. rewrite H. reflexivity.
  - intros c H1 H2. unfold Dashboard.organic_keywords_text, Dashboard.locale_val.
    rewrite H1, H2. reflexivity.
  - intros c H1 H2. unfold Dashboard.page_authority_text. rewrite H1, H2. reflexivity.
  - intros c H1 H2. unfold Dashboard.referring_domains_text, Dashboard.locale_val.
    rewrite H1, H2. reflexivity.
  - intros c H1 H2. unfold Dashboard.mobile_score_text. rewrite H1, H2. reflexivity.
  - intros c H. unfold Dashboard.technical_section. rewrite H. reflexivity.
  - intros c H. unfold Dashboard.content_metrics_section. rewrite H. reflexivity.
  - intros c H. unfold Dashboard.headings_section. rewrite H. reflexivity.
  - reflexivity.
  - intros kw type H. unfold Dashboard.getKeywordsByType.
    destruct kw as [k|]; [|reflexivity]. rewrite (H k eq_refl). reflexivity.
  - intros d source H. unfold Analyzer.keyword_list.
    destruct d as [p|]; [|reflexivity]. rewrite (H p eq_refl). reflexivity.
  - reflexivity.
  - intros is_copied p H. unfold Analyzer.results. rewrite H.
    do 8 eexists. reflexivity.
  - intros is_copied p H. unfold Analyzer.results. rewrite H.
    do 6 eexists. reflexivity.
  - intros is_copied p Hm Hg Ho. unfold Analyzer.results. rewrite Hm, Hg, Ho.
    do 8 eexists. reflexivity.
  - intros is_copied p Hw Ht. unfold Analyzer.results, Analyzer.flag.
    rewrite Hw, Ht. do 7 eexists. split; [reflexivity|].
    simpl member. rewrite orb_false_r. reflexivity.
Qed.

Lemma C1_optional_members_fall_back_witness :
  (exists url score traffic authority backlinks title meta,
      Dashboard.competitor_view Sample.toLocaleString Sample.TypeError_message
        (Fixture.competitor (Some (Js.of_Z 2500)) None None None None None None)
      = Returned
          (VNode "Competitor Analysis Results"
             [ url; score; traffic; authority; backlinks;
               VNode "Monthly Visitors" [VStr "N/A"];
               VNode "Bounce Rate" [VStr "45.2"; VStr "%"];
               VNode "Session Duration" [VStr "2:34"];
               VNode "Organic Keywords" [VStr "N/A"];
               VNode "Page Authority" [VStr "N/A"];
               VNode "Referring Domains" [VStr "N/A"];
               VNode "Mobile Score" [VStr "N/A"];
               title;
               VNode "Word Count" [VStr "2,500"];
               meta; VUndefined; VUndefined; VUndefined; VUndefined ]))
  /\ (exists url title meta note,
         Dashboard.keywords_view Sample.toLocaleString Sample.TypeError_message
           (Fixture.keyword_result (Some (Js.of_Z 2500)) None)
         = Returned
             (VNode "Keyword Analysis Results"
                [ url; title; VNode "Word Count" [VStr "2,500"]; meta;
                  VBool false; VBool false; VBool false; note ]))
  /\ Dashboard.monthly_visitors_text Sample.toLocaleString
       (Fixture.competitor (Some (Js.of_Z 2500)) None None None None None None)
     = VStr "N/A"
  /\ Dashboard.bounce_rate_text
       (Fixture.competitor (Some (Js.of_Z 2500)) None None None None None None)
     = [VStr "45.2"; VStr "%"]
  /\ Analyzer.keyword_list (Some (Fixture.analysis None)) "merged" = []
  /\ (exists words h2_count suggestions information h2_list meta canonical og,
         Analyzer.results false (Fixture.analysis None)
         = VNode "results"
             [ words;
               VNode "H1 Tags" [VNum (Js.of_Z 0)];
               h2_count; suggestions; information;
               VNode "Heading Structure"
                 [ VNode "H1 Tags" [VNum (Js.of_Z 0); VStr "No H1 tags found"];
                   h2_list ];
               VNode "Technical SEO"
                 [meta; VNode "AlertCircle" []; canonical; og] ]).
Proof.
  destruct (C1_optional_members_fall_back Sample.toLocaleString
              Sample.TypeError_message)
    as (Hk & Hc & _ & Hmv & Hb & _ & _ & _ & _ & _ & _ & _ & _ & _ & _ & Hl & _
        & Hh1 & _).
  split; [|split; [|split; [|split; [|split]]]].
  - apply (Hc (Fixture.competitor (Some (Js.of_Z 2500)) None None None None None None)
              (Js.of_Z 2500)). reflexivity.
  - apply (Hk (Fixture.keyword_result (Some (Js.of_Z 2500)) None) (Js.of_Z 2500)).
    reflexivity.
  - apply Hmv; reflexivity.
  - apply Hb. reflexivity.
  - apply Hl. intros p Hp. injection Hp as <-. reflexivity.
  - apply Hh1. reflexivity.
Defined.

(** C1, as stated, fails for [word_count]: a keyword response without it
    makes the keywords tab throw, and so does a competitor response. *)
Lemma C1_missing_word_count_throws :
  Dashboard.keywords_view Sample.toLocaleString Sample.TypeError_message
    (Fixture.keyword_result None (Some Fixture.seo_tools_ai))
  = Threw (ErrorObj "Cannot read properties of undefined (reading 'toLocaleString')")
  /\ Dashboard.competitor_view Sample.toLocaleString Sample.TypeError_message
       (Fixture.competitor None (Some (Js.of_Z 50)) None (Some (Js.of_Z 1000))
          None None None)
     = Threw (ErrorObj "Cannot read properties of undefined (reading 'toLocaleString')").
Proof. split; vm_compute; reflexivity. Qed.

(** The analyzer page shows a payload without any optional member: no word
    count, zero headings, zero keywords, the notes for the empty lists. *)
Example analyzer_view_of_bare_payload :
  Analyzer.results false (Fixture.analysis None)
  = VNode "results"
      [ VNode "Words" [VUndefined];
        VNode "H1 Tags" [VNum (Js.of_Z 0)];
        VNode "H2 Tags" [VNum (Js.of_Z 0)];
        VNode "Keyword Suggestions"
          [ VStr "Copy merged"; VStr "Export CSV";
            VNode "Merged" [VNum (Js.of_Z 0); VStr "No suggestions"];
            VNode "AI (Gemini)" [VNum (Js.of_Z 0); VStr "No AI keywords available"];
            VNode "On-page Phrases"
              [VNum (Js.of_Z 0); VStr "No on-page phrases found"] ];
        VNode "Page Information"
          [VStr "No title detected"; VStr "No meta description found"];
        VNode "Heading Structure"
          [ VNode "H1 Tags" [VNum (Js.of_Z 0); VStr "No H1 tags found"];
            VNode "H2 Tags" [VNum (Js.of_Z 0); VStr "No H2 tags found"] ];
        VNode "Technical SEO"
          [ VNode "AlertCircle" []; VNode "AlertCircle" [];
            VNode "AlertCircle" []; VNode "AlertCircle" [] ] ].
Proof. vm_compute. reflexivity. Qed.

(** * Further properties *)

(** ** The distinct keywords of a response *)

Lemma seen_iff :
  forall x seen, existsb (String.eqb x) seen = true <-> In x seen.
Proof.
  intros x seen. rewrite existsb_exists. split.
  - intros (y & Hin & He). apply String.eqb_eq in He. subst y. exact Hin.
  - intro Hin. exists x. split; [exact Hin | apply String.eqb_refl].
Qed.

Lemma unique_In :
  forall l seen x,
    In x (Dashboard.unique seen l) <-> In x l /\ ~ In x seen.
Proof.
  induction l as [|y l IH]; intros seen x; simpl.
  - tauto.
  - destruct (existsb (String.eqb y) seen) eqn:E.
    + apply seen_iff in E. rewrite IH. split.
      * intros [H1 H2]. tauto.
      * intros [[->|H1] H2]; [contradiction | tauto].
    + assert (Hy : ~ In y seen).
      { intro H. apply seen_iff in H. rewrite H in E. discriminate. }
      simpl. rewrite IH. simpl. split.
      * intros [->|[H1 H2]]; [tauto|]. split; [tauto|]. intro H. apply H2. tauto.
      * intros [[->|H1] H2]; [tauto|].
        destruct (string_dec y x) as [->|Hne]; [tauto|].
        right. split; [exact H1|]. intros [H|H]; [contradiction | contradiction].
Qed.

Lemma unique_NoDup :
  forall l seen, NoDup (Dashboard.unique seen l).
Proof.
  induction l as [|y l IH]; intro seen; simpl.
  - constructor.
  - destruct (existsb (String.eqb y) seen); [apply IH|].
    constructor; [|apply IH].
    rewrite unique_In. simpl. tauto.
Qed.

Lemma unique_of_NoDup :
  forall l seen,
    NoDup l -> (forall x, In x l -> ~ In x seen) -> Dashboard.unique seen l = l.
Proof.
  induction l as [|y l IH]; intros seen Hnd Hs; simpl; [reflexivity|].
  inversion Hnd as [|? ? Hy Hl]; subst.
  destruct (existsb (String.eqb y) seen) eqn:E.
  - apply seen_iff in E. exfalso. apply (Hs y); simpl; tauto.
  - f_equal. apply IH; [exact Hl|].
    intros x Hx [<-|H]; [contradiction|]. apply (Hs x); simpl; tauto.
Qed.

Lemma unique_length :
  forall l seen, (List.length (Dashboard.unique seen l) <= List.length l)%nat.
Proof.
  induction l as [|y l IH]; intro seen; simpl; [lia|].
  destruct (existsb (String.eqb y) seen); simpl.
  - specialize (IH seen). lia.
  - specialize (IH (y :: seen)). lia.
Qed.

(** X1. [getAllKeywords] never lists a keyword twice, and it lists no more
    keywords than the three lists hold together. *)
Theorem getAllKeywords_distinct :
  forall kw : option Dashboard.Keywords,
    NoDup (Dashboard.getAllKeywords kw)
    /\ (List.length (Dashboard.getAllKeywords kw)
        <= List.length (Dashboard.getKeywordsByType kw Dashboard.gemini)
           + List.length (Dashboard.getKeywordsByType kw Dashboard.onpage)
           + List.length (Dashboard.getKeywordsByType kw Dashboard.merged))%nat.
Proof.
  intros [k|]; unfold Dashboard.getAllKeywords, Dashboard.getKeywordsByType.
  - split; [apply unique_NoDup|].
    etransitivity; [apply unique_length|].
    rewrite !length_app. lia.
  - split; [constructor | simpl; lia].
Qed.

(** X2. A keyword is listed by [getAllKeywords] exactly when it occurs in
    the gemini, the onpage or the merged list of the response. *)
Theorem getAllKeywords_membership :
  forall (kw : option Dashboard.Keywords) (x : string),
    In x (Dashboard.getAllKeywords kw) <->
    In x (Dashboard.getKeywordsByType kw Dashboard.gemini)
    \/ In x (Dashboard.getKeywordsByType kw Dashboard.onpage)
    \/ In x (Dashboard.getKeywordsByType kw Dashboard.merged).
Proof.
  intros [k|] x; unfold Dashboard.getAllKeywords, Dashboard.getKeywordsByType;
    [|simpl; tauto].
  rewrite unique_In, !in_app_iff. simpl. tauto.
Qed.

(** X3. When the three lists of a response hold no keyword twice, within a
    list or across lists, [getAllKeywords] is their concatenation: gemini,
    then onpage, then merged, nothing dropped and nothing moved. *)
Theorem getAllKeywords_of_distinct_lists :
  forall k : Dashboard.Keywords,
    NoDup (or_empty (Dashboard.gemini k) ++ or_empty (Dashboard.onpage k)
           ++ or_empty (Dashboard.merged k))%list ->
    Dashboard.getAllKeywords (Some k)
    = (or_empty (Dashboard.gemini k) ++ or_empty (Dashboard.onpage k)
       ++ or_empty (Dashboard.merged k))%list.
Proof.
  intros k H. unfold Dashboard.getAllKeywords.
  apply unique_of_NoDup; [exact H|]. intros x _ [].
Qed.

Lemma getAllKeywords_of_distinct_lists_witness :
  Dashboard.getAllKeywords (Some Fixture.seo_tools_ai) = ["ai"; "seo"; "tools"].
Proof.
  apply (getAllKeywords_of_distinct_lists Fixture.seo_tools_ai).
  repeat constructor; simpl; intuition discriminate.
Defined.

Lemma unique_nil_iff :
  forall l seen, (forall x, In x l -> ~ In x seen) ->
    (Dashboard.unique seen l = [] <-> l = []).
Proof.
  intros [|y l] seen Hs; simpl; [tauto|].
  destruct (existsb (String.eqb y) seen) eqn:E.
  - apply seen_iff in E. exfalso. apply (Hs y); simpl; tauto.
  - split; discriminate.
Qed.

Lemma getAllKeywords_empty_iff :
  forall kw,
    Dashboard.getAllKeywords kw = [] <->
    Dashboard.getKeywordsByType kw Dashboard.gemini = []
    /\ Dashboard.getKeywordsByType kw Dashboard.onpage = []
    /\ Dashboard.getKeywordsByType kw Dashboard.merged = [].
Proof.
  intros [k|]; unfold Dashboard.getAllKeywords, Dashboard.getKeywordsByType;
    [|simpl; tauto].
  rewrite unique_nil_iff by (intros x _ []).
  destruct (or_empty (Dashboard.gemini k)), (or_empty (Dashboard.onpage k)),
    (or_empty (Dashboard.merged k)); simpl; split; intro H;
    try discriminate; try tauto; destruct H as (H1 & H2 & H3); discriminate.
Qed.

Lemma keyword_section_rendered :
  forall label l,
    rendered (Dashboard.keyword_section label l)
    = negb (List.length l =? 0)%nat.
Proof. intros label [|x l]; reflexivity. Qed.

(** X4. The keywords tab shows the note that no keywords were found exactly
    when it shows none of its three keyword sections. *)
Theorem keywords_view_note_or_sections :
  forall (toLocaleString : Js.number -> string) (TypeError_message : string -> string)
         (k : Dashboard.KeywordData.t) (n : Js.number),
    Dashboard.KeywordData.word_count k = Some n ->
    exists url title words meta ai onpage merged note,
      Dashboard.keywords_view toLocaleString TypeError_message k
      = Returned (VNode "Keyword Analysis Results"
                    [url; title; words; meta; ai; onpage; merged; note])
      /\ rendered note = negb (rendered ai || rendered onpage || rendered merged).
Proof.
  intros L T k n H. unfold Dashboard.keywords_view, Dashboard.call_method.
  rewrite H. cbn [sequence bind].
  do 8 eexists. split; [reflexivity|].
  rewrite !keyword_section_rendered.
  destruct (Dashboard.getAllKeywords (Dashboard.KeywordData.keywords k)) eqn:E.
  - apply getAllKeywords_empty_iff in E. destruct E as (-> & -> & ->). reflexivity.
  - assert (Hne : ~ (Dashboard.getKeywordsByType (Dashboard.KeywordData.keywords k)
                       Dashboard.gemini = []
                     /\ Dashboard.getKeywordsByType (Dashboard.KeywordData.keywords k)
                          Dashboard.onpage = []
                     /\ Dashboard.getKeywordsByType (Dashboard.KeywordData.keywords k)
                          Dashboard.merged = [])).
    { intro Hall. apply getAllKeywords_empty_iff in Hall. rewrite Hall in E.
      discriminate. }
    simpl.
    destruct (Dashboard.getKeywordsByType (Dashboard.KeywordData.keywords k)
                Dashboard.gemini); [|reflexivity].
    destruct (Dashboard.getKeywordsByType (Dashboard.KeywordData.keywords k)
                Dashboard.onpage); [|reflexivity].
    destruct (Dashboard.getKeywordsByType (Dashboard.KeywordData.keywords k)
                Dashboard.merged); [|reflexivity].
    exfalso. apply Hne. auto.
Qed.

Lemma keywords_view_note_or_sections_witness :
  exists url title words meta ai onpage merged note,
    Dashboard.keywords_view Sample.toLocaleString Sample.TypeError_message
      Fixture.previous_result
    = Returned (VNode "Keyword Analysis Results"
                  [url; title; words; meta; ai; onpage; merged; note])
    /\ rendered note = negb (rendered ai || rendered onpage || rendered merged).
Proof.
  apply (keywords_view_note_or_sections Sample.toLocaleString
           Sample.TypeError_message Fixture.previous_result (Js.of_Z 2500)).
  reflexivity.
Defined.

(** ** The encodings of the request *)

Lemma chars_app :
  forall a b,
    list_ascii_of_string (a ++ b)
    = (list_ascii_of_string a ++ list_ascii_of_string b)%list.
Proof.
  induction a as [|c a IH]; intro b; simpl; [reflexivity|].
  rewrite IH. reflexivity.
Qed.

Lemma append_cancel_l :
  forall a x y : string, a ++ x = a ++ y -> x = y.
Proof.
  induction a as [|c a IH]; intros x y H; simpl in H; [exact H|].
  injection H as H. apply IH, H.
Qed.

Lemma hex_digit_code :
  forall i, (i < 16)%nat ->
    nat_of_ascii (Text.hex_digit i) = if (i <? 10)%nat then (48 + i)%nat else (55 + i)%nat.
Proof.
  intros i Hi. unfold Text.hex_digit.
  destruct (i <? 10)%nat; apply nat_ascii_embedding; lia.
Qed.

Lemma hex_digit_inj :
  forall i j, (i < 16)%nat -> (j < 16)%nat ->
    Text.hex_digit i = Text.hex_digit j -> i = j.
Proof.
  intros i j Hi Hj H. apply (f_equal nat_of_ascii) in H.
  rewrite (hex_digit_code i Hi), (hex_digit_code j Hj) in H.
  destruct (i <? 10)%nat eqn:Ei, (j <? 10)%nat eqn:Ej;
    try apply Nat.ltb_lt in Ei; try apply Nat.ltb_lt in Ej;
    try apply Nat.ltb_ge in Ei; try apply Nat.ltb_ge in Ej; lia.
Qed.

Lemma percent_inj :
  forall a b, Text.percent a = Text.percent b -> a = b.
Proof.
  intros a b H. unfold Text.percent in H. cbv zeta in H.
  injection H as Hhi Hlo.
  pose proof (nat_ascii_bounded a) as Ha. pose proof (nat_ascii_bounded b) as Hb.
  assert (Hq : (nat_of_ascii a / 16 = nat_of_ascii b / 16)%nat).
  { apply hex_digit_inj; [| |exact Hhi];
      apply Nat.Div0.div_lt_upper_bound; lia. }
  assert (Hr : (nat_of_ascii a mod 16 = nat_of_ascii b mod 16)%nat).
  { apply hex_digit_inj; [| |exact Hlo]; apply Nat.mod_upper_bound; lia. }
  assert (Hn : nat_of_ascii a = nat_of_ascii b).
  { rewrite (Nat.div_mod_eq (nat_of_ascii a) 16), (Nat.div_mod_eq (nat_of_ascii b) 16).
    rewrite Hq, Hr. reflexivity. }
  rewrite <- (ascii_nat_embedding a), <- (ascii_nat_embedding b), Hn. reflexivity.
Qed.

Lemma percent_shape :
  forall a, exists x y, Text.percent a = String "%" (String x (String y "")).
Proof. intro a. unfold Text.percent. eauto. Qed.

Lemma encodeURIComponent_cons :
  forall c s,
    Text.encodeURIComponent (String c s)
    = (if Text.alphanumeric c || Text.mem_char c "-_.!~*'()"
       then String c EmptyString else Text.percent c)
      ++ Text.encodeURIComponent s.
Proof. reflexivity. Qed.

(** The piece of [encodeURIComponent] for one byte decides the byte. *)
Lemma encodeURIComponent_step :
  forall a b r1 r2,
    Text.encodeURIComponent (String a r1) = Text.encodeURIComponent (String b r2) ->
    a = b /\ Text.encodeURIComponent r1 = Text.encodeURIComponent r2.
Proof.
  intros a b r1 r2 H. rewrite !encodeURIComponent_cons in H.
  destruct (Text.alphanumeric a || Text.mem_char a "-_.!~*'()") eqn:Ea,
           (Text.alphanumeric b || Text.mem_char b "-_.!~*'()") eqn:Eb.
  - simpl in H. injection H as -> H. auto.
  - destruct (percent_shape b) as (x & y & Hb). rewrite Hb in H. simpl in H.
    injection H as -> _. discriminate Ea.
  - destruct (percent_shape a) as (x & y & Ha). rewrite Ha in H. simpl in H.
    injection H as <- _. discriminate Eb.
  - destruct (percent_shape a) as (x & y & Ha).
    destruct (percent_shape b) as (x' & y' & Hb).
    assert (Hp : Text.percent a = Text.percent b /\
                 Text.encodeURIComponent r1 = Text.encodeURIComponent r2).
    { rewrite Ha, Hb in *. simpl in H. injection H as -> -> H. auto. }
    destruct Hp as [Hp Hr]. split; [apply percent_inj, Hp | exact Hr].
Qed.

Lemma encodeURIComponent_inj :
  forall s1 s2,
    Text.encodeURIComponent s1 = Text.encodeURIComponent s2 -> s1 = s2.
Proof.
  induction s1 as [|a s1 IH]; intros [|b s2] H.
  - reflexivity.
  - exfalso. rewrite encodeURIComponent_cons in H. simpl Text.encodeURIComponent in H.
    destruct (Text.alphanumeric b || Text.mem_char b "-_.!~*'()").
    + discriminate H.
    + destruct (percent_shape b) as (x & y & Hb). rewrite Hb in H. discriminate H.
  - exfalso. rewrite encodeURIComponent_cons in H. simpl Text.encodeURIComponent in H.
    destruct (Text.alphanumeric a || Text.mem_char a "-_.!~*'()").
    + discriminate H.
    + destruct (percent_shape a) as (x & y & Ha). rewrite Ha in H. discriminate H.
  - apply encodeURIComponent_step in H. destruct H as [-> H].
    f_equal. apply IH, H.
Qed.

(** X5. The keywords, competitor and crawl requests tell any two typed URLs
    apart: equal requests come from equal inputs. *)
Theorem requests_distinguish_urls :
  (forall env endpoint st1 st2,
      Dashboard.request env endpoint st1 = Dashboard.request env endpoint st2 ->
      Dashboard.st_url st1 = Dashboard.st_url st2)
  /\ (forall st1 st2,
         Crawl.request st1 = Crawl.request st2 ->
         Crawl.st_url st1 = Crawl.st_url st2).
Proof.
  split.
  - intros env endpoint st1 st2 H. unfold Dashboard.request in H. cbv zeta in H.
    apply append_cancel_l, append_cancel_l, append_cancel_l in H.
    apply encodeURIComponent_inj, H.
  - intros st1 st2 H. unfold Crawl.request in H.
    apply append_cancel_l in H. apply encodeURIComponent_inj, H.
Qed.

Lemma requests_distinguish_urls_witness :
  Dashboard.st_url (Dashboard.setLoading true
                      (Dashboard.setUrl "https://example.com/a b" Dashboard.initial))
  = Dashboard.st_url (Dashboard.setUrl "https://example.com/a b" Dashboard.initial).
Proof.
  destruct requests_distinguish_urls as [H _].
  apply (H None "/keywords"). reflexivity.
Defined.

Lemma encodeURIComponent_piece_clean :
  forall a,
    forallb (fun c => negb (Text.mem_char c "&=#?/+ "))
      (list_ascii_of_string
         (if Text.alphanumeric a || Text.mem_char a "-_.!~*'()"
          then String a EmptyString else Text.percent a)) = true.
Proof. intro a. destruct a as [[] [] [] [] [] [] [] []]; reflexivity. Qed.

Lemma encodeURIComponent_clean :
  forall s,
    forallb (fun c => negb (Text.mem_char c "&=#?/+ "))
      (list_ascii_of_string (Text.encodeURIComponent s)) = true.
Proof.
  induction s as [|a s IH]; [reflexivity|].
  rewrite encodeURIComponent_cons, chars_app, forallb_app, IH.
  rewrite encodeURIComponent_piece_clean. reflexivity.
Qed.

(** X6. Whatever is typed, the keywords, competitor and crawl requests
    carry it as one query value: after [?url=] the request holds none of
    the characters [& = # ? / +] and no space. *)
Theorem request_value_has_no_separator :
  (forall env endpoint st,
      exists value,
        Dashboard.request env endpoint st
        = backend_origin env "http://localhost:8000" ++ endpoint ++ "?url=" ++ value
        /\ forall c, In c (list_ascii_of_string value) ->
                     Text.mem_char c "&=#?/+ " = false)
  /\ (forall st,
         exists value,
           Crawl.request st = "/api/crawl?url=" ++ value
           /\ forall c, In c (list_ascii_of_string value) ->
                        Text.mem_char c "&=#?/+ " = false).
Proof.
  split.
  - intros env endpoint st. exists (Text.encodeURIComponent (Dashboard.st_url st)).
    split; [reflexivity|]. intros c Hc.
    pose proof (encodeURIComponent_clean (Dashboard.st_url st)) as H.
    rewrite forallb_forall in H. apply negb_true_iff, H, Hc.
  - intro st. exists (Text.encodeURIComponent (Crawl.st_url st)).
    split; [reflexivity|]. intros c Hc.
    pose proof (encodeURIComponent_clean (Crawl.st_url st)) as H.
    rewrite forallb_forall in H. apply negb_true_iff, H, Hc.
Qed.

Lemma form_encode_cons :
  forall c s,
    Text.form_encode (String c s)
    = (if Ascii.eqb c " " then "+"
       else if Text.alphanumeric c || Text.mem_char c "*-._"
       then String c EmptyString else Text.percent c)
      ++ Text.form_encode s.
Proof. reflexivity. Qed.

Lemma form_encode_piece_clean :
  forall a,
    forallb (fun c => negb (Text.mem_char c "&=#?/ "))
      (list_ascii_of_string
         (if Ascii.eqb a " " then "+"
          else if Text.alphanumeric a || Text.mem_char a "*-._"
          then String a EmptyString else Text.percent a)) = true.
Proof. intro a. destruct a as [[] [] [] [] [] [] [] []]; reflexivity. Qed.

Lemma form_encode_clean :
  forall s,
    forallb (fun c => negb (Text.mem_char c "&=#?/ "))
      (list_ascii_of_string (Text.form_encode s)) = true.
Proof.
  induction s as [|a s IH]; [reflexivity|].
  rewrite form_encode_cons, chars_app, forallb_app, IH.
  rewrite form_encode_piece_clean. reflexivity.
Qed.

(** The first character of a piece of [form_encode] is never [&]. *)
Lemma form_encode_piece_head :
  forall a,
    exists h t,
      (if Ascii.eqb a " " then "+"
       else if Text.alphanumeric a || Text.mem_char a "*-._"
       then String a EmptyString else Text.percent a) = String h t
      /\ h <> "&"%char.
Proof.
  intro a. destruct a as [[] [] [] [] [] [] [] []];
    (eexists; eexists; split; [reflexivity | discriminate]).
Qed.

Lemma form_encode_step :
  forall (r1 r2 : string) (x y : ascii),
    (if Ascii.eqb x " " then "+"
     else if Text.alphanumeric x || Text.mem_char x "*-._"
     then String x EmptyString else Text.percent x) ++ r1
    = (if Ascii.eqb y " " then "+"
       else if Text.alphanumeric y || Text.mem_char y "*-._"
       then String y EmptyString else Text.percent y) ++ r2 ->
    x = y /\ r1 = r2.
Proof.
  intros r1 r2 x y H.
  destruct (Ascii.eqb x " ") eqn:Ex; [apply Ascii.eqb_eq in Ex; subst x|];
    (destruct (Ascii.eqb y " ") eqn:Ey; [apply Ascii.eqb_eq in Ey; subst y|]).
  - simpl in H. injection H as H. auto.
  - destruct (Text.alphanumeric y || Text.mem_char y "*-._") eqn:Sy.
    + simpl in H. injection H as <- _. discriminate Sy.
    + destruct (percent_shape y) as (u & v & Hy). rewrite Hy in H. discriminate H.
  - destruct (Text.alphanumeric x || Text.mem_char x "*-._") eqn:Sx.
    + simpl in H. injection H as -> _. discriminate Sx.
    + destruct (percent_shape x) as (u & v & Hx). rewrite Hx in H. discriminate H.
  - destruct (Text.alphanumeric x || Text.mem_char x "*-._") eqn:Sx,
             (Text.alphanumeric y || Text.mem_char y "*-._") eqn:Sy.
    + simpl in H. injection H as -> H. auto.
    + destruct (percent_shape y) as (u & v & Hy). rewrite Hy in H. simpl in H.
      injection H as -> _. discriminate Sx.
    + destruct (percent_shape x) as (u & v & Hx). rewrite Hx in H. simpl in H.
      injection H as <- _. discriminate Sy.
    + destruct (percent_shape x) as (u & v & Hx).
      destruct (percent_shape y) as (u' & v' & Hy).
      assert (Hp : Text.percent x = Text.percent y /\ r1 = r2).
      { rewrite Hx, Hy in *. simpl in H. injection H as -> -> H. auto. }
      destruct Hp as [Hp Hr]. split; [apply percent_inj, Hp | exact Hr].
Qed.

(** A form-encoded value followed by [&] is read back in one way only. *)
Lemma form_encode_then_amp_inj :
  forall s1 s2 r1 r2,
    Text.form_encode s1 ++ String "&" r1 = Text.form_encode s2 ++ String "&" r2 ->
    s1 = s2 /\ r1 = r2.
Proof.
  induction s1 as [|a s1 IH]; intros [|b s2] r1 r2 H.
  - simpl in H. injection H as H. auto.
  - exfalso. rewrite form_encode_cons in H.
    destruct (form_encode_piece_head b) as (h & t & Hb & Hne).
    rewrite Hb in H. simpl in H. injection H as H _. apply Hne. symmetry. exact H.
  - exfalso. rewrite form_encode_cons in H.
    destruct (form_encode_piece_head a) as (h & t & Ha & Hne).
    rewrite Ha in H. simpl in H. injection H as H _. apply Hne. exact H.
  - rewrite !form_encode_cons, !append_assoc in H.
    apply form_encode_step in H. destruct H as [-> H].
    apply IH in H. destruct H as [-> ->]. auto.
Qed.

Lemma analyzer_request_shape :
  forall env st,
    Analyzer.request env st
    = backend_origin env "http://localhost:8000" ++ "/analyze?url="
      ++ Text.form_encode (Analyzer.st_url st) ++ "&gemini_top_n="
      ++ Text.form_encode (Js.toString (Analyzer.geminiTopN st)).
Proof.
  intros env st. unfold Analyzer.request, Text.URLSearchParams_toString.
  cbv zeta. cbn [map fst snd]. rewrite join_two.
  change (Text.form_encode "url") with "url".
  change (Text.form_encode "gemini_top_n") with "gemini_top_n".
  simpl. rewrite ?append_assoc. reflexivity.
Qed.

(** X7. The request of the analyzer page always has the same two query
    parameters, [url] and [gemini_top_n], and neither value holds one of
    the characters [& = # ? /] or a space, whatever was typed. *)
Theorem analyzer_request_has_two_parameters :
  forall env st,
    exists url_value topn_value,
      Analyzer.request env st
      = backend_origin env "http://localhost:8000" ++ "/analyze?url=" ++ url_value
        ++ "&gemini_top_n=" ++ topn_value
      /\ (forall c, In c (list_ascii_of_string url_value) ->
                    Text.mem_char c "&=#?/ " = false)
      /\ (forall c, In c (list_ascii_of_string topn_value) ->
                    Text.mem_char c "&=#?/ " = false).
Proof.
  intros env st.
  exists (Text.form_encode (Analyzer.st_url st)),
         (Text.form_encode (Js.toString (Analyzer.geminiTopN st))).
  split; [apply analyzer_request_shape|].
  split; intros c Hc.
  - pose proof (form_encode_clean (Analyzer.st_url st)) as H.
    rewrite forallb_forall in H. apply negb_true_iff, H, Hc.
  - pose proof (form_encode_clean (Js.toString (Analyzer.geminiTopN st))) as H.
    rewrite forallb_forall in H. apply negb_true_iff, H, Hc.
Qed.

(** X8. The request of the analyzer page tells any two well-formed typed
    URLs apart: equal requests come from equal inputs. (A lone surrogate,
    which [URLSearchParams] sends as U+FFFD, has no UTF-8 form and is not
    among the strings here.) *)
Theorem analyzer_request_distinguishes_urls :
  forall env st1 st2,
    Analyzer.request env st1 = Analyzer.request env st2 ->
    Analyzer.st_url st1 = Analyzer.st_url st2.
Proof.
  intros env st1 st2 H. rewrite !analyzer_request_shape in H.
  apply append_cancel_l, append_cancel_l in H.
  change ("&gemini_top_n=" ++ ?x) with (String "&" ("gemini_top_n=" ++ x)) in H.
  apply form_encode_then_amp_inj in H. apply H.
Qed.

Lemma analyzer_request_distinguishes_urls_witness :
  Analyzer.st_url (Analyzer.setCopied true
                     (Analyzer.setUrl "https://example.com/?q=a b" Analyzer.initial))
  = Analyzer.st_url (Analyzer.setUrl "https://example.com/?q=a b" Analyzer.initial).
Proof.
  apply (analyzer_request_distinguishes_urls None). reflexivity.
Defined.

(** ** Blank input *)

Lemma blank_unfold :
  forall c1 s1,
    Text.blank (String c1 s1)
    = if Text.byte_in 9 13 c1 || Ascii.eqb c1 " " then Text.blank s1
      else
        match s1 with
        | EmptyString => false
        | String c2 s2 =>
            if Ascii.eqb c1 "194" && Ascii.eqb c2 "160" then Text.blank s2
            else
              match s2 with
              | EmptyString => false
              | String c3 s3 =>
                  if (Ascii.eqb c1 "225" && Ascii.eqb c2 "154" && Ascii.eqb c3 "128")
                     || (Ascii.eqb c1 "226" && Ascii.eqb c2 "128"
                         && (Text.byte_in 128 138 c3 || Text.byte_in 168 169 c3
                             || Ascii.eqb c3 "175"))
                     || (Ascii.eqb c1 "226" && Ascii.eqb c2 "129" && Ascii.eqb c3 "159")
                     || (Ascii.eqb c1 "227" && Ascii.eqb c2 "128" && Ascii.eqb c3 "128")
                     || (Ascii.eqb c1 "239" && Ascii.eqb c2 "187" && Ascii.eqb c3 "191")
                  then Text.blank s3
                  else false
              end
        end.
Proof. reflexivity. Qed.

Lemma blank_of_ascii_whitespace :
  forall s,
    forallb (fun c => Text.byte_in 9 13 c || Ascii.eqb c " ")
      (list_ascii_of_string s) = true ->
    Text.blank s = true.
Proof.
  induction s as [|c s IH]; intro H; [reflexivity|].
  simpl in H. apply andb_true_iff in H. destruct H as [Hc Hs].
  rewrite blank_unfold, Hc. apply IH, Hs.
Qed.

(** A byte of printable ASCII other than the space is below 128 and is not
    one of the six white space bytes. *)
Lemma visible_byte :
  forall c,
    Text.byte_in 33 126 c = true ->
    Text.byte_in 9 13 c || Ascii.eqb c " " = false
    /\ (nat_of_ascii c < 128)%nat.
Proof.
  intros c H. unfold Text.byte_in in *.
  apply andb_true_iff in H. destruct H as [H1 H2].
  apply Nat.leb_le in H1. apply Nat.leb_le in H2.
  split; [|lia].
  apply orb_false_iff. split.
  - apply andb_false_iff. right. apply Nat.leb_gt. lia.
  - apply Ascii.eqb_neq. intros ->.
    change (nat_of_ascii " ") with 32%nat in H1. lia.
Qed.

Lemma high_byte_not_visible :
  forall c, (128 <= nat_of_ascii c)%nat -> Text.byte_in 33 126 c = false.
Proof.
  intros c H. unfold Text.byte_in. apply andb_false_iff. right.
  apply Nat.leb_gt. lia.
Qed.

Lemma whitespace_byte_not_visible :
  forall c,
    Text.byte_in 9 13 c || Ascii.eqb c " " = true -> Text.byte_in 33 126 c = false.
Proof.
  intros c H. destruct (Text.byte_in 33 126 c) eqn:E; [|reflexivity].
  apply visible_byte in E. destruct E as [E _]. rewrite E in H. discriminate.
Qed.

Lemma byte_in_high :
  forall lo hi c,
    (128 <= lo)%nat -> Text.byte_in lo hi c = true -> (128 <= nat_of_ascii c)%nat.
Proof.
  intros lo hi c Hlo H. unfold Text.byte_in in H.
  apply andb_true_iff in H. destruct H as [H _]. apply Nat.leb_le in H. lia.
Qed.

Lemma three_byte_space_is_high :
  forall c1 c2 c3,
    (Ascii.eqb c1 "225" && Ascii.eqb c2 "154" && Ascii.eqb c3 "128")
    || (Ascii.eqb c1 "226" && Ascii.eqb c2 "128"
        && (Text.byte_in 128 138 c3 || Text.byte_in 168 169 c3
            || Ascii.eqb c3 "175"))
    || (Ascii.eqb c1 "226" && Ascii.eqb c2 "129" && Ascii.eqb c3 "159")
    || (Ascii.eqb c1 "227" && Ascii.eqb c2 "128" && Ascii.eqb c3 "128")
    || (Ascii.eqb c1 "239" && Ascii.eqb c2 "187" && Ascii.eqb c3 "191") = true ->
    (128 <= nat_of_ascii c1)%nat /\ (128 <= nat_of_ascii c2)%nat
    /\ (128 <= nat_of_ascii c3)%nat.
Proof.
  intros c1 c2 c3 H.
  repeat (rewrite ?orb_true_iff, ?andb_true_iff in H).
  rewrite !Ascii.eqb_eq in H.
  decompose [and or] H; subst; repeat split;
    try (apply Nat.leb_le; reflexivity);
    (eapply byte_in_high; [|eassumption]; lia).
Qed.

Lemma visible_is_not_blank :
  forall n s,
    (String.length s <= n)%nat ->
    existsb (Text.byte_in 33 126) (list_ascii_of_string s) = true ->
    Text.blank s = false.
Proof.
  induction n as [|n IH]; intros s Hn H.
  - destruct s; [discriminate H | simpl in Hn; lia].
  - destruct s as [|c1 s1]; [discriminate H|].
    simpl in Hn. rewrite blank_unfold.
    simpl in H.
    destruct (Text.byte_in 9 13 c1 || Ascii.eqb c1 " ") eqn:W.
    + rewrite (whitespace_byte_not_visible c1 W) in H. simpl in H.
      apply IH; [lia | exact H].
    + destruct s1 as [|c2 s2]; [reflexivity|].
      destruct (Ascii.eqb c1 "194" && Ascii.eqb c2 "160") eqn:E2.
      * apply andb_true_iff in E2. destruct E2 as [E1 E2].
        apply Ascii.eqb_eq in E1. apply Ascii.eqb_eq in E2. subst c1 c2.
        simpl in H. apply IH; [simpl in Hn; lia | exact H].
      * destruct s2 as [|c3 s3]; [reflexivity|].
        match goal with |- (if ?b then _ else _) = _ => destruct b eqn:E3 end;
          [|reflexivity].
        pose proof (three_byte_space_is_high c1 c2 c3 E3) as Hhigh.
        destruct Hhigh as (H1 & H2 & H3).
        simpl in H.
        rewrite (high_byte_not_visible c1 H1), (high_byte_not_visible c2 H2),
          (high_byte_not_visible c3 H3) in H. simpl in H.
        apply IH; [simpl in Hn; lia | exact H].
Qed.

(** X9. The guard of the keywords and competitor handlers is the test that
    the trimmed input is empty. For an input made of spaces, tabs and line
    breaks only it stops the handler: nothing is sent and nothing changes.
    An input that holds a visible ASCII character is never taken for an
    empty one, whatever surrounds that character. *)
Theorem dashboard_guard_on_ascii :
  forall (T : string -> string) (env : option string) (st : Dashboard.State),
    (forallb (fun c => Text.byte_in 9 13 c || Ascii.eqb c " ")
       (list_ascii_of_string (Dashboard.st_url st)) = true ->
     (forall fetch, Dashboard.analyzeKeywords T env fetch st = (st, []))
     /\ (forall fetch, Dashboard.analyzeCompetitor T env fetch st = (st, [])))
    /\ (existsb (Text.byte_in 33 126)
          (list_ascii_of_string (Dashboard.st_url st)) = true ->
        Text.blank (Dashboard.st_url st) = false).
Proof.
  intros T env st. split; intro H.
  - apply blank_of_ascii_whitespace in H.
    unfold Dashboard.analyzeKeywords, Dashboard.analyzeCompetitor. rewrite H.
    split; reflexivity.
  - apply (visible_is_not_blank _ _ (le_n _)) in H. exact H.
Qed.

Lemma dashboard_guard_on_ascii_witness :
  Dashboard.analyzeKeywords Sample.TypeError_message None
    (Fixture.always (Rejected NonError))
    (Dashboard.setUrl "   " Dashboard.initial)
  = (Dashboard.setUrl "   " Dashboard.initial, [])
  /\ Text.blank (Dashboard.st_url (Dashboard.setUrl " x " Dashboard.initial)) = false.
Proof.
  split.
  - destruct (dashboard_guard_on_ascii Sample.TypeError_message None
                (Dashboard.setUrl "   " Dashboard.initial)) as [H _].
    apply H. reflexivity.
  - destruct (dashboard_guard_on_ascii Sample.TypeError_message None
                (Dashboard.setUrl " x " Dashboard.initial)) as [_ H].
    apply H. reflexivity.
Defined.

(** ** Sessions of the analyzer page *)

Lemma analyzeSEO_settles :
  forall U env fetch st, settled st -> settled (fst (Analyzer.analyzeSEO U env fetch st)).
Proof.
  intros U env fetch st H. unfold Analyzer.analyzeSEO.
  destruct (negb (Js.truthy_str (Analyzer.st_url st)) || negb (Analyzer.valid U st));
    [exact H|].
  cbv zeta.
  destruct (Analyzer.attempt _) as [p|e]; unfold settled, result_set, error_set;
    simpl; split; try reflexivity.
  apply andb_false_r.
Qed.

Lemma copyMerged_settles :
  forall ok st, settled st -> settled (fst (Analyzer.copyMerged ok st)).
Proof.
  intros ok st H. unfold Analyzer.copyMerged. cbv zeta.
  destruct (List.length (Analyzer.keyword_list (Analyzer.data st) "merged") =? 0)%nat;
    [exact H|].
  destruct ok; exact H.
Qed.

Lemma step_settles :
  forall U S env ev st, settled st -> settled (fst (Analyzer.step U S env ev st)).
Proof.
  intros U S env ev st H. destruct ev; simpl.
  - exact H.
  - exact H.
  - destruct (negb (Analyzer.valid U st) || Analyzer.loading st); [exact H|].
    apply analyzeSEO_settles, H.
  - destruct H as (Hl & _). unfold settled, result_set, error_set. simpl.
    split; [exact Hl | apply andb_false_r].
  - destruct (Analyzer.data st) eqn:Ed; [|exact H].
    destruct (Analyzer.loading st); [exact H|]. apply copyMerged_settles, H.
  - destruct (Analyzer.data st); [|exact H].
    destruct (Analyzer.loading st); exact H.
  - exact H.
Qed.

Lemma run_settles :
  forall U S env evs st, settled st -> settled (fst (Analyzer.run U S env evs st)).
Proof.
  intros U S env evs. induction evs as [|ev evs IH]; intros st H; simpl; [exact H|].
  pose proof (step_settles U S env ev st H) as Hs.
  destruct (Analyzer.step U S env ev st) as [st1 out1]. simpl in Hs.
  specialize (IH st1 Hs).
  destruct (Analyzer.run U S env evs st1) as [st2 out2]. exact IH.
Qed.

(** X10. Whatever the user does on the analyzer page, in any order and with
    any answers of the network, between two events the page never holds a
    result and an error message together. *)
Theorem analyzer_session_invariant :
  forall (URL_parse : string -> option Analyzer.URLRecord)
         (StringToNumber : string -> Js.number) (env : option string)
         (evs : list Analyzer.Event),
    settled (fst (Analyzer.run URL_parse StringToNumber env evs Analyzer.initial)).
Proof.
  intros U S env evs. apply run_settles.
  unfold settled, result_set, error_set. simpl. split; reflexivity.
Qed.

Lemma step_fetches_valid_url :
  forall U S env ev st u,
    In (Fetch u) (snd (Analyzer.step U S env ev st)) ->
    Analyzer.isValidUrl U (Analyzer.st_url st) = true
    /\ Analyzer.st_url st <> ""
    /\ u = Analyzer.request env st.
Proof.
  intros U S env ev st u H. destruct ev; simpl in H; try contradiction.
  - destruct (negb (Analyzer.valid U st) || Analyzer.loading st) eqn:Ed;
      [contradiction|].
    unfold Analyzer.analyzeSEO in H.
    destruct (negb (Js.truthy_str (Analyzer.st_url st)) || negb (Analyzer.valid U st))
      eqn:Eg; [contradiction|].
    apply orb_false_iff in Eg. destruct Eg as [Eu Ev].
    apply negb_false_iff in Eu. apply negb_false_iff in Ev.
    simpl in H. destruct H as [H|[]]. injection H as <-.
    repeat split.
    + exact Ev.
    + intro E. rewrite E in Eu. discriminate.
  - destruct (Analyzer.data st); [|contradiction].
    destruct (Analyzer.loading st); [contradiction|].
    unfold Analyzer.copyMerged in H. cbv zeta in H.
    destruct (List.length _ =? 0)%nat; [contradiction|].
    destruct clipboard_ok; simpl in H; intuition discriminate.
  - destruct (Analyzer.data st); [|contradiction].
    destruct (Analyzer.loading st); [contradiction|].
    simpl in H. intuition discriminate.
Qed.

(** X11. In any session of the analyzer page every request that is sent
    was built from a non-empty URL that the validator accepts. *)
Theorem analyzer_session_fetches_valid_urls :
  forall (URL_parse : string -> option Analyzer.URLRecord)
         (StringToNumber : string -> Js.number) (env : option string)
         (evs : list Analyzer.Event) (st : Analyzer.State) (u : string),
    In (Fetch u) (snd (Analyzer.run URL_parse StringToNumber env evs st)) ->
    exists st',
      Analyzer.isValidUrl URL_parse (Analyzer.st_url st') = true
      /\ Analyzer.st_url st' <> ""
      /\ u = Analyzer.request env st'.
Proof.
  intros U S env evs. induction evs as [|ev evs IH]; intros st u H; simpl in H.
  - contradiction.
  - pose proof (step_fetches_valid_url U S env ev st u) as Hs.
    destruct (Analyzer.step U S env ev st) as [st1 out1].
    specialize (IH st1 u).
    destruct (Analyzer.run U S env evs st1) as [st2 out2].
    simpl in H, Hs, IH. apply in_app_iff in H. destruct H as [H|H].
    + exists st. apply Hs, H.
    + apply IH, H.
Qed.

Lemma analyzer_session_fetches_valid_urls_witness :
  exists st',
    Analyzer.isValidUrl Sample.URL_parse (Analyzer.st_url st') = true
    /\ Analyzer.st_url st' <> ""
    /\ "http://localhost:8000/analyze?url=https%3A%2F%2Fexample.com&gemini_top_n=20"
       = Analyzer.request None st'.
Proof.
  apply (analyzer_session_fetches_valid_urls Sample.URL_parse
           (fun _ => Js.of_Z 0) None
           [ Analyzer.TypeUrl "not a url";
             Analyzer.ClickAnalyze (Fixture.always (Rejected NonError));
             Analyzer.TypeUrl "https://example.com";
             Analyzer.ClickAnalyze (Fixture.always (Rejected NonError)) ]
           Analyzer.initial).
  vm_compute. left. reflexivity.
Defined.

(** X12. On the analyzer page a response that is not ok leaves no result,
    whatever its status and body. It leaves a visible error message when
    the body is not JSON or [null], and when the [detail] and the [message]
    of the body are each missing, falsy or a string. A body whose [detail]
    is the empty array leaves the empty text: the page then shows neither a
    result nor an error. *)
Theorem analyzer_not_ok_shows_error :
  forall (URL_parse : string -> option Analyzer.URLRecord) (env : option string)
         (fetch : string -> FetchResult Analyzer.AnalyzePayload)
         (st : Analyzer.State) (status : Z) (body : ErrorBody),
    Analyzer.st_url st <> "" ->
    Analyzer.isValidUrl URL_parse (Analyzer.st_url st) = true ->
    fetch (Analyzer.request env st) = NotOk status body ->
    result_set (fst (Analyzer.analyzeSEO URL_parse env fetch st)) = false
    /\ (body = NotJson \/ body = JsonNull
        \/ (exists detail message,
               body = JsonObject detail message
               /\ textual detail /\ textual message) ->
        error_set (fst (Analyzer.analyzeSEO URL_parse env fetch st)) = true)
    /\ ((exists message, body = JsonObject (Some (JArr [])) message) ->
        Analyzer.error (fst (Analyzer.analyzeSEO URL_parse env fetch st)) = "").
Proof.
  intros U env fetch st status body Hne Hv Hf.
  pose proof (analyzer_failure_clears_result U env fetch st
                (ErrorObj (Analyzer.error_message status body)) Hne Hv) as H.
  cbv zeta in H. rewrite Hf in H. destruct (H eq_refl) as (Hd & He & _).
  unfold result_set, error_set. rewrite Hd, He. simpl caught_message.
  split; [reflexivity|]. split.
  - intros [-> | [-> | (d & m & -> & Htd & Htm)]]; try reflexivity.
    unfold Analyzer.error_message.
    apply member_or_textual; [exact Htd|].
    apply member_or_textual; [exact Htm|]. reflexivity.
  - intros (m & ->). reflexivity.
Qed.

Lemma analyzer_not_ok_shows_error_witness :
  result_set
    (fst (Analyzer.analyzeSEO Sample.URL_parse None
            (Fixture.always (NotOk 503 (JsonObject (Some (JArr [])) None)))
            (Fixture.loaded (Fixture.analysis (Some Fixture.seo_tools_ai_object)))))
  = false
  /\ Analyzer.error
       (fst (Analyzer.analyzeSEO Sample.URL_parse None
               (Fixture.always (NotOk 503 (JsonObject (Some (JArr [])) None)))
               (Fixture.loaded (Fixture.analysis (Some Fixture.seo_tools_ai_object)))))
     = ""
  /\ error_set
       (fst (Analyzer.analyzeSEO Sample.URL_parse None
               (Fixture.always
                  (NotOk 422 (JsonObject None (Some (JStr "url is required")))))
               (Fixture.loaded (Fixture.analysis (Some Fixture.seo_tools_ai_object)))))
     = true.
Proof.
  destruct (analyzer_not_ok_shows_error Sample.URL_parse None
              (Fixture.always (NotOk 503 (JsonObject (Some (JArr [])) None)))
              (Fixture.loaded (Fixture.analysis (Some Fixture.seo_tools_ai_object)))
              503%Z (JsonObject (Some (JArr [])) None))
    as (Hr & _ & He); [discriminate | reflexivity | reflexivity |].
  split; [exact Hr|]. split; [apply He; exists None; reflexivity|].
  destruct (analyzer_not_ok_shows_error Sample.URL_parse None
              (Fixture.always
                 (NotOk 422 (JsonObject None (Some (JStr "url is required")))))
              (Fixture.loaded (Fixture.analysis (Some Fixture.seo_tools_ai_object)))
              422%Z (JsonObject None (Some (JStr "url is required"))))
    as (_ & Hs & _); [discriminate | reflexivity | reflexivity |].
  apply Hs. right. right. exists None, (Some (JStr "url is required")).
  split; [reflexivity|]. split.
  - intros j Hj. discriminate Hj.
  - intros j Hj Ht. injection Hj as <-. eexists. reflexivity.
Defined.

(** ** Sessions of the dashboard and of the crawl page *)

Lemma dashboard_step_keeps_results :
  forall T env ev st,
    (forall fk fc,
        ev = Dashboard.ClickAnalyze fk fc ->
        (forall u, fk u <> OkNull) /\ (forall u, fc u <> OkNull)) ->
    (Dashboard.keywordData st <> None ->
     Dashboard.keywordData (fst (Dashboard.step T env ev st)) <> None)
    /\ (Dashboard.competitorData st <> None ->
        Dashboard.competitorData (fst (Dashboard.step T env ev st)) <> None).
Proof.
  intros T env ev st Hev. destruct ev as [t|v|fk fc]; simpl; try tauto.
  destruct (Hev fk fc eq_refl) as [Hk Hc].
  destruct (Dashboard.loading st); [tauto|].
  destruct (Dashboard.activeTab st).
  - unfold Dashboard.analyzeKeywords.
    destruct (Text.blank (Dashboard.st_url st)); [tauto|]. cbv zeta.
    specialize (Hk (Dashboard.request env "/keywords"
                      (Dashboard.setError "" (Dashboard.setLoading true st)))).
    destruct (fk _) as [e|status body|[p|e]|]; simpl;
      try (destruct (Dashboard.error_message T status body); simpl);
      try tauto; try (split; [discriminate|tauto]);
      try (contradiction Hk; reflexivity).
  - unfold Dashboard.analyzeCompetitor.
    destruct (Text.blank (Dashboard.st_url st)); [tauto|]. cbv zeta.
    specialize (Hc (Dashboard.request env "/analyze"
                      (Dashboard.setError "" (Dashboard.setLoading true st)))).
    destruct (fc _) as [e|status body|[p|e]|]; simpl;
      try (destruct (Dashboard.error_message T status body); simpl);
      try tauto; try (split; [tauto|discriminate]);
      try (contradiction Hc; reflexivity).
Qed.

Lemma crawl_step_keeps_result :
  forall ev st,
    (forall f, ev = Crawl.ClickAnalyze f -> forall u, f u <> OkNull) ->
    Crawl.seoData st <> None -> Crawl.seoData (fst (Crawl.step ev st)) <> None.
Proof.
  intros ev st Hev H. destruct ev as [v|fetch]; simpl; [exact H|].
  specialize (Hev fetch eq_refl).
  destruct (Crawl.loading st); [exact H|]. unfold Crawl.analyzeSEO.
  destruct (negb (Js.truthy_str (Crawl.st_url st))); [exact H|]. cbv zeta.
  specialize (Hev (Crawl.request (Crawl.setError "" (Crawl.setLoading true st)))).
  destruct (fetch _) as [e|status body|[p|e]|]; simpl;
    try exact H; try discriminate.
  contradiction Hev; reflexivity.
Qed.

(** X13. In [app/page.tsx] no failed request takes a result away: through
    any session in which every ok response carries a payload (none has the
    body [null]), a loaded keyword result and a loaded competitor result
    stay loaded, and so does the result of the crawl page, whatever
    requests are rejected, answered with an error status or answered with a
    body that cannot be read in between. *)
Theorem failed_requests_keep_results :
  (forall T env evs st,
      (forall fk fc,
          In (Dashboard.ClickAnalyze fk fc) evs ->
          (forall u, fk u <> OkNull) /\ (forall u, fc u <> OkNull)) ->
      (Dashboard.keywordData st <> None ->
       Dashboard.keywordData (fst (Dashboard.run T env evs st)) <> None)
      /\ (Dashboard.competitorData st <> None ->
          Dashboard.competitorData (fst (Dashboard.run T env evs st)) <> None))
  /\ (forall evs st,
         (forall f, In (Crawl.ClickAnalyze f) evs -> forall u, f u <> OkNull) ->
         Crawl.seoData st <> None ->
         Crawl.seoData (fst (Crawl.run evs st)) <> None).
Proof.
  split.
  - intros T env evs. induction evs as [|ev evs IH]; intros st Hevs; simpl; [tauto|].
    assert (Hev : forall fk fc,
               ev = Dashboard.ClickAnalyze fk fc ->
               (forall u, fk u <> OkNull) /\ (forall u, fc u <> OkNull)).
    { intros fk fc ->. apply Hevs. left. reflexivity. }
    pose proof (dashboard_step_keeps_results T env ev st Hev) as Hs.
    destruct (Dashboard.step T env ev st) as [st1 out1]. simpl in Hs.
    assert (Hrest : forall fk fc,
               In (Dashboard.ClickAnalyze fk fc) evs ->
               (forall u, fk u <> OkNull) /\ (forall u, fc u <> OkNull)).
    { intros fk fc Hin. apply Hevs. right. exact Hin. }
    specialize (IH st1 Hrest).
    destruct (Dashboard.run T env evs st1) as [st2 out2]. simpl in *. tauto.
  - intros evs. induction evs as [|ev evs IH]; intros st Hevs H; simpl; [exact H|].
    assert (Hev : forall f, ev = Crawl.ClickAnalyze f -> forall u, f u <> OkNull).
    { intros f ->. apply Hevs. left. reflexivity. }
    pose proof (crawl_step_keeps_result ev st Hev H) as Hs.
    destruct (Crawl.step ev st) as [st1 out1]. simpl in Hs.
    assert (Hrest : forall f, In (Crawl.ClickAnalyze f) evs -> forall u, f u <> OkNull).
    { intros f Hin. apply Hevs. right. exact Hin. }
    specialize (IH st1 Hrest Hs).
    destruct (Crawl.run evs st1) as [st2 out2]. exact IH.
Qed.

Lemma failed_requests_keep_results_witness :
  Dashboard.keywordData
    (fst (Dashboard.run Sample.TypeError_message None
            [ Dashboard.TypeUrl "https://example.org";
              Dashboard.ClickAnalyze (Fixture.always (NotOk 500 NotJson))
                (Fixture.always (NotOk 500 NotJson));
              Dashboard.SwitchTab Dashboard.competitor_tab ]
            (Fixture.showing Fixture.previous_result "https://example.com")))
  <> None.
Proof.
  destruct failed_requests_keep_results as [H _].
  apply (H Sample.TypeError_message None).
  - intros fk fc Hin. simpl in Hin.
    destruct Hin as [Hin|[Hin|[Hin|[]]]]; try discriminate Hin.
    injection Hin as <- <-. split; intro u; discriminate.
  - discriminate.
Defined.

(** X26. An ok response whose body is the JSON value [null] is stored as it
    is: afterwards there is no result and no error, in the analyzer page,
    in both tabs of the dashboard and in the crawl page, so a result that
    was on display is gone without a message. *)
Theorem null_payload_clears_result :
  (forall URL_parse env fetch st,
      Analyzer.st_url st <> "" ->
      Analyzer.isValidUrl URL_parse (Analyzer.st_url st) = true ->
      fetch (Analyzer.request env st) = OkNull ->
      Analyzer.data (fst (Analyzer.analyzeSEO URL_parse env fetch st)) = None
      /\ Analyzer.error (fst (Analyzer.analyzeSEO URL_parse env fetch st)) = "")
  /\ (forall T env fetch st,
         Text.blank (Dashboard.st_url st) = false ->
         fetch (Dashboard.request env "/keywords" st) = OkNull ->
         Dashboard.keywordData (fst (Dashboard.analyzeKeywords T env fetch st)) = None
         /\ Dashboard.error (fst (Dashboard.analyzeKeywords T env fetch st)) = "")
  /\ (forall T env fetch st,
         Text.blank (Dashboard.st_url st) = false ->
         fetch (Dashboard.request env "/analyze" st) = OkNull ->
         Dashboard.competitorData (fst (Dashboard.analyzeCompetitor T env fetch st))
         = None
         /\ Dashboard.error (fst (Dashboard.analyzeCompetitor T env fetch st)) = "")
  /\ (forall fetch st,
         Crawl.st_url st <> "" ->
         fetch (Crawl.request st) = OkNull ->
         Crawl.seoData (fst (Crawl.analyzeSEO fetch st)) = None
         /\ Crawl.error (fst (Crawl.analyzeSEO fetch st)) = "").
Proof.
  split; [|split; [|split]].
  - intros U env fetch st Hne Hv Hf.
    pose proof (analyzer_success_stores_payload U env fetch st None Hne Hv) as H.
    cbv zeta in H. rewrite Hf in H. destruct (H eq_refl) as (Hd & He & _). auto.
  - intros T env fetch st Hb Hf. unfold Dashboard.analyzeKeywords.
    rewrite Hb. cbv iota zeta.
    change (Dashboard.request env "/keywords"
              (Dashboard.setError "" (Dashboard.setLoading true st)))
      with (Dashboard.request env "/keywords" st).
    rewrite Hf. split; reflexivity.
  - intros T env fetch st Hb Hf. unfold Dashboard.analyzeCompetitor.
    rewrite Hb. cbv iota zeta.
    change (Dashboard.request env "/analyze"
              (Dashboard.setError "" (Dashboard.setLoading true st)))
      with (Dashboard.request env "/analyze" st).
    rewrite Hf. split; reflexivity.
  - intros fetch st Hne Hf. unfold Crawl.analyzeSEO.
    destruct (Crawl.st_url st) eqn:E; [contradiction|]. simpl negb. cbv iota zeta.
    change (Crawl.request (Crawl.setError "" (Crawl.setLoading true st)))
      with (Crawl.request st).
    rewrite Hf. split; reflexivity.
Qed.

Lemma null_payload_clears_result_witness :
  Dashboard.keywordData
    (fst (Dashboard.analyzeKeywords Sample.TypeError_message None
            (Fixture.always OkNull)
            (Fixture.showing Fixture.previous_result "https://example.org")))
  = None
  /\ Dashboard.error
       (fst (Dashboard.analyzeKeywords Sample.TypeError_message None
               (Fixture.always OkNull)
               (Fixture.showing Fixture.previous_result "https://example.org")))
     = "".
Proof.
  destruct null_payload_clears_result as (_ & H & _).
  apply (H Sample.TypeError_message None (Fixture.always OkNull)
           (Fixture.showing Fixture.previous_result "https://example.org"));
    reflexivity.
Defined.

(** X14. Each handler of the dashboard touches its own result only:
    [analyzeKeywords] leaves the competitor result, the active tab and the
    typed URL as they are, and [analyzeCompetitor] leaves the keyword
    result, the active tab and the typed URL as they are. *)
Theorem dashboard_handlers_keep_the_other_tab :
  forall (T : string -> string) (env : option string) (st : Dashboard.State),
    (forall fetch,
        Dashboard.competitorData (fst (Dashboard.analyzeKeywords T env fetch st))
        = Dashboard.competitorData st
        /\ Dashboard.activeTab (fst (Dashboard.analyzeKeywords T env fetch st))
           = Dashboard.activeTab st
        /\ Dashboard.st_url (fst (Dashboard.analyzeKeywords T env fetch st))
           = Dashboard.st_url st)
    /\ (forall fetch,
           Dashboard.keywordData (fst (Dashboard.analyzeCompetitor T env fetch st))
           = Dashboard.keywordData st
           /\ Dashboard.activeTab (fst (Dashboard.analyzeCompetitor T env fetch st))
              = Dashboard.activeTab st
           /\ Dashboard.st_url (fst (Dashboard.analyzeCompetitor T env fetch st))
              = Dashboard.st_url st).
Proof.
  intros T env st. split; intro fetch.
  - unfold Dashboard.analyzeKeywords.
    destruct (Text.blank (Dashboard.st_url st)); [auto|]. cbv zeta.
    destruct (Dashboard.attempt T _); simpl; auto.
  - unfold Dashboard.analyzeCompetitor.
    destruct (Text.blank (Dashboard.st_url st)); [auto|]. cbv zeta.
    destruct (Dashboard.attempt T _); simpl; auto.
Qed.

(** ** Whole numbers through the arithmetic of the pages *)

Lemma estimates_on_scale_witness :
  Js.Math_floor (Js.mul (Js.of_Z (Z.of_nat 55)) Js.lit_0_8)
  = Js.of_Z (Z.of_nat 55 * 4 / 5)
  /\ Js.Math_floor (Js.mul (Js.of_Z (Z.of_nat 55)) Js.lit_0_9)
     = Js.of_Z (Z.of_nat 55 * 9 / 10).
Proof. apply (estimates_on_scale 55). lia. Defined.

(** X16. For every whole number of visits up to 5000 the monthly visitors
    estimate is the exact integer part of six fifths of it, and for every
    whole number of backlinks up to 5000 the referring domains estimate is
    the exact integer part of a tenth of it. *)
Theorem traffic_estimates_are_exact :
  forall z : Z,
    (0 <= z <= 5000)%Z ->
    Js.Math_floor (Js.mul (Js.of_Z z) Js.lit_1_2) = Js.of_Z (z * 6 / 5)
    /\ Js.Math_floor (Js.div (Js.of_Z z) (Js.of_Z 10)) = Js.of_Z (z / 10).
Proof.
  assert (H : forallb
                (fun n =>
                   Js.same_number
                     (Js.Math_floor (Js.mul (Js.of_Z (Z.of_nat n)) Js.lit_1_2))
                     (Js.of_Z (Z.of_nat n * 6 / 5))
                   && Js.same_number
                        (Js.Math_floor (Js.div (Js.of_Z (Z.of_nat n)) (Js.of_Z 10)))
                        (Js.of_Z (Z.of_nat n / 10)))
                (seq 0 (Z.to_nat 5001)) = true) by (vm_compute; reflexivity).
  intros z Hz. rewrite forallb_forall in H.
  assert (Hin : In (Z.to_nat z) (seq 0 (Z.to_nat 5001))) by (apply in_seq; lia).
  specialize (H _ Hin). rewrite Z2Nat.id in H by lia.
  apply andb_true_iff in H. destruct H as [H1 H2].
  split; apply same_number_eq_holds; assumption.
Qed.

Lemma traffic_estimates_are_exact_witness :
  Js.Math_floor (Js.mul (Js.of_Z 1000) Js.lit_1_2) = Js.of_Z (1000 * 6 / 5)
  /\ Js.Math_floor (Js.div (Js.of_Z 1000) (Js.of_Z 10)) = Js.of_Z (1000 / 10).
Proof. apply (traffic_estimates_are_exact 1000). lia. Defined.

Lemma digits_through_the_request :
  forallb
    (fun n =>
       String.eqb (Text.form_encode (Js.toString (Js.of_Z (Z.of_nat n))))
                  (Text.decimal (Z.of_nat n)))
    (seq 0 101) = true.
Proof. vm_compute. reflexivity. Qed.

(** X17. For every whole number from 0 to 100 in the number input, the
    range the input declares included, the request of the analyzer page
    carries that number in plain decimal digits as [gemini_top_n]. *)
Theorem analyzer_request_carries_topn :
  forall (env : option string) (st : Analyzer.State) (z : Z),
    (0 <= z <= 100)%Z ->
    Analyzer.request env (Analyzer.setGeminiTopN (Js.of_Z z) st)
    = backend_origin env "http://localhost:8000" ++ "/analyze?url="
      ++ Text.form_encode (Analyzer.st_url st) ++ "&gemini_top_n=" ++ Text.decimal z.
Proof.
  intros env st z Hz. rewrite analyzer_request_shape.
  pose proof digits_through_the_request as H. rewrite forallb_forall in H.
  assert (Hin : In (Z.to_nat z) (seq 0 101)) by (apply in_seq; lia).
  specialize (H _ Hin). rewrite Z2Nat.id in H by lia.
  apply String.eqb_eq in H. simpl Analyzer.geminiTopN. simpl Analyzer.st_url.
  rewrite H. reflexivity.
Qed.

Lemma analyzer_request_carries_topn_witness :
  Analyzer.request None
    (Analyzer.setGeminiTopN (Js.of_Z 50)
       (Analyzer.setUrl "https://example.com" Analyzer.initial))
  = backend_origin None "http://localhost:8000" ++ "/analyze?url="
    ++ Text.form_encode "https://example.com" ++ "&gemini_top_n=" ++ Text.decimal 50.
Proof.
  apply (analyzer_request_carries_topn None
           (Analyzer.setUrl "https://example.com" Analyzer.initial) 50).
  lia.
Defined.

Lemma score_bands :
  forallb
    (fun n =>
       String.eqb (Crawl.getScoreColor (Js.of_Z (Z.of_nat n)))
                  (if (80 <=? Z.of_nat n)%Z then "text-green-600"
                   else if (60 <=? Z.of_nat n)%Z then "text-yellow-600"
                   else "text-red-600"))
    (seq 0 101) = true.
Proof. vm_compute. reflexivity. Qed.

(** X18. For every whole score from 0 to 100 [getScoreColor] is green from
    80 on, yellow from 60 to 79 and red below 60; a score that is not a
    number is red. *)
Theorem getScoreColor_bands :
  (forall z : Z,
      (0 <= z <= 100)%Z ->
      Crawl.getScoreColor (Js.of_Z z)
      = if (80 <=? z)%Z then "text-green-600"
        else if (60 <=? z)%Z then "text-yellow-600"
        else "text-red-600")
  /\ Crawl.getScoreColor S754_nan = "text-red-600".
Proof.
  split; [|reflexivity]. intros z Hz.
  pose proof score_bands as H. rewrite forallb_forall in H.
  assert (Hin : In (Z.to_nat z) (seq 0 101)) by (apply in_seq; lia).
  specialize (H _ Hin). rewrite Z2Nat.id in H by lia.
  apply String.eqb_eq in H. exact H.
Qed.

Lemma getScoreColor_bands_witness :
  Crawl.getScoreColor (Js.of_Z 79) = "text-yellow-600".
Proof.
  destruct getScoreColor_bands as [H _].
  apply (H 79%Z). lia.
Defined.

(** ** What the pages show *)

(** X19. The analyzer page shows exactly one of its three panels: the
    loading skeleton while a request is loading; otherwise the results when
    a payload is loaded, and the hint when none is. *)
Theorem analyzer_view_shows_one_panel :
  forall (URL_parse : string -> option Analyzer.URLRecord) (st : Analyzer.State),
    exists url topn button note error skeleton results hint,
      Analyzer.view URL_parse st
      = VNode "SEOAnalyzer" [url; topn; button; note; error; skeleton; results; hint]
      /\ rendered skeleton = Analyzer.loading st
      /\ rendered results
         = negb (Analyzer.loading st)
           && match Analyzer.data st with Some _ => true | None => false end
      /\ rendered hint
         = negb (Analyzer.loading st)
           && match Analyzer.data st with Some _ => false | None => true end.
Proof.
  intros U st. unfold Analyzer.view. do 8 eexists.
  split; [reflexivity|].
  destruct (Analyzer.loading st), (Analyzer.data st); repeat split; reflexivity.
Qed.

(** X20. The crawl page lists at most ten keywords and at most five H2
    headings, the first ones in the order of the response, and all of them
    when there are no more than that. *)
Theorem crawl_lists_are_capped :
  forall (toLocaleString : Js.number -> string) (d : Crawl.SEOData),
    List.length (Crawl.keyword_rows toLocaleString d)
    = Nat.min 10 (List.length (Crawl.keywords d))
    /\ List.length (Crawl.h2_rows d)
       = Nat.min 5 (List.length (Crawl.h2 (Crawl.headings d)))
    /\ ((List.length (Crawl.keywords d) <= 10)%nat ->
        Crawl.keyword_rows toLocaleString d
        = map (Crawl.keyword_row toLocaleString) (Crawl.keywords d))
    /\ ((List.length (Crawl.h2 (Crawl.headings d)) <= 5)%nat ->
        Crawl.h2_rows d = map VStr (Crawl.h2 (Crawl.headings d))).
Proof.
  intros L d. unfold Crawl.keyword_rows, Crawl.h2_rows.
  rewrite !length_map, !length_firstn. repeat split.
  - intro H. rewrite firstn_all2 by exact H. reflexivity.
  - intro H. rewrite firstn_all2 by exact H. reflexivity.
Qed.

(** ** The CSV field *)

Lemma double_quotes_cons :
  forall c s,
    Text.double_quotes (String c s)
    = if Ascii.eqb c Text.dquote
      then String Text.dquote (String Text.dquote (Text.double_quotes s))
      else String c (Text.double_quotes s).
Proof. reflexivity. Qed.

(** Every quote of a doubled text is followed by a second quote. *)
Lemma double_quotes_head :
  forall s r,
    Text.double_quotes s = String Text.dquote r ->
    exists s', s = String Text.dquote s'
               /\ r = String Text.dquote (Text.double_quotes s').
Proof.
  intros [|c s] r H; [discriminate H|].
  rewrite double_quotes_cons in H.
  destruct (Ascii.eqb c Text.dquote) eqn:E.
  - apply Ascii.eqb_eq in E. subst c. injection H as <-. eauto.
  - injection H as -> _. rewrite Ascii.eqb_refl in E. discriminate.
Qed.

(** X21. The quote doubling of the CSV export loses nothing: two keywords
    with the same doubled text are the same keyword, and a keyword without
    a double quote is written as it is. *)
Theorem double_quotes_is_faithful :
  (forall s1 s2, Text.double_quotes s1 = Text.double_quotes s2 -> s1 = s2)
  /\ (forall s, Text.mem_char Text.dquote s = false -> Text.double_quotes s = s).
Proof.
  split.
  - induction s1 as [|c s1 IH]; intros s2 H.
    + destruct s2 as [|d s2]; [reflexivity|].
      rewrite double_quotes_cons in H.
      destruct (Ascii.eqb d Text.dquote); discriminate H.
    + rewrite double_quotes_cons in H.
      destruct (Ascii.eqb c Text.dquote) eqn:E.
      * apply Ascii.eqb_eq in E. subst c. symmetry in H.
        apply double_quotes_head in H. destruct H as (s' & -> & H).
        injection H as H. f_equal. apply IH, H.
      * destruct s2 as [|d s2]; [discriminate H|].
        rewrite double_quotes_cons in H.
        destruct (Ascii.eqb d Text.dquote) eqn:E'.
        -- injection H as -> _. rewrite Ascii.eqb_refl in E. discriminate.
        -- injection H as -> H. f_equal. apply IH, H.
  - induction s as [|c s IH]; intro H; [reflexivity|].
    change (Text.mem_char Text.dquote (String c s))
      with (Ascii.eqb Text.dquote c || Text.mem_char Text.dquote s) in H.
    apply orb_false_iff in H. destruct H as [Hc Hs].
    rewrite double_quotes_cons.
    rewrite Ascii.eqb_sym in Hc. rewrite Hc. f_equal. apply IH, Hs.
Qed.

Lemma double_quotes_is_faithful_witness :
  Text.double_quotes "seo tools" = "seo tools".
Proof.
  destruct double_quotes_is_faithful as [_ H]. apply H. reflexivity.
Defined.

Lemma append_empty_r : forall s : string, s ++ "" = s.
Proof. induction s as [|c s IH]; simpl; [reflexivity|]. rewrite IH. reflexivity. Qed.

Lemma join_cons :
  forall sep x l,
    Text.join sep (x :: l)
    = x ++ match l with [] => "" | _ :: _ => sep ++ Text.join sep l end.
Proof.
  intros sep x [|y l]; unfold Text.join; simpl.
  - symmetry. apply append_empty_r.
  - reflexivity.
Qed.

(** X22. Every export starts with the three bytes of the byte order mark
    and the header line [source,keyword]; what follows is empty or starts
    with a line feed, and when the three keyword lists are empty or missing
    the file holds nothing else. *)
Theorem csv_always_has_header :
  forall d : option Analyzer.AnalyzePayload,
    exists rows,
      Analyzer.csv d
      = String "239" (String "187" (String "191" ("source,keyword" ++ rows)))
      /\ (rows = "" \/ exists rest, rows = String "010" rest)
      /\ (Analyzer.keyword_list d "merged" = [] ->
          Analyzer.keyword_list d "gemini" = [] ->
          Analyzer.keyword_list d "onpage" = [] ->
          rows = "").
Proof.
  intro d. rewrite csv_lines_of. unfold csv_lines. rewrite join_cons.
  eexists. split; [reflexivity|]. split.
  - destruct (map (csv_row "merged") (Analyzer.keyword_list d "merged")
              ++ map (csv_row "gemini") (Analyzer.keyword_list d "gemini")
              ++ map (csv_row "onpage") (Analyzer.keyword_list d "onpage"))%list;
      [left; reflexivity | right; eexists; reflexivity].
  - intros -> -> ->. reflexivity.
Qed.

Lemma csv_always_has_header_witness :
  exists rows,
    Analyzer.csv None
    = String "239" (String "187" (String "191" ("source,keyword" ++ rows)))
    /\ (rows = "" \/ exists rest, rows = String "010" rest)
    /\ (Analyzer.keyword_list None "merged" = [] ->
        Analyzer.keyword_list None "gemini" = [] ->
        Analyzer.keyword_list None "onpage" = [] ->
        rows = "").
Proof. apply (csv_always_has_header None). Defined.

(** ** Errors outside the analyzer page *)

Lemma keywords_view_returns :
  forall L T k n,
    Dashboard.KeywordData.word_count k = Some n ->
    exists v, Dashboard.keywords_view L T k = Returned v.
Proof.
  intros L T k n H. unfold Dashboard.keywords_view, Dashboard.call_method.
  rewrite H. cbn [sequence bind]. eexists. reflexivity.
Qed.

Lemma competitor_view_returns :
  forall L T c n,
    Dashboard.CompetitorData.word_count c = Some n ->
    exists v, Dashboard.competitor_view L T c = Returned v.
Proof.
  intros L T c n H. unfold Dashboard.competitor_view, Dashboard.call_method.
  rewrite H. cbn [sequence bind]. eexists. reflexivity.
Qed.

(** X23. The dashboard renders the active tab only: the page is drawn
    whenever the result of the active tab, if there is one, has its word
    count, whatever the result of the other tab lacks. *)
Theorem dashboard_view_depends_on_active_tab :
  forall (toLocaleString : Js.number -> string) (TypeError_message : string -> string)
         (st : Dashboard.State),
    match Dashboard.activeTab st with
    | Dashboard.keywords_tab =>
        forall k, Dashboard.keywordData st = Some k ->
                  Dashboard.KeywordData.word_count k <> None
    | Dashboard.competitor_tab =>
        forall c, Dashboard.competitorData st = Some c ->
                  Dashboard.CompetitorData.word_count c <> None
    end ->
    exists v, Dashboard.view toLocaleString TypeError_message st = Returned v.
Proof.
  intros L T st H. unfold Dashboard.view. cbv zeta.
  destruct (Dashboard.activeTab st).
  - destruct (Dashboard.keywordData st) as [k|].
    + specialize (H k eq_refl).
      destruct (Dashboard.KeywordData.word_count k) as [n|] eqn:E;
        [|contradiction H; reflexivity].
      destruct (keywords_view_returns L T k n E) as [v Hv]. rewrite Hv.
      simpl. eexists. reflexivity.
    + simpl. eexists. reflexivity.
  - destruct (Dashboard.competitorData st) as [c|].
    + specialize (H c eq_refl).
      destruct (Dashboard.CompetitorData.word_count c) as [n|] eqn:E;
        [|contradiction H; reflexivity].
      destruct (competitor_view_returns L T c n E) as [v Hv]. rewrite Hv.
      simpl. eexists. reflexivity.
    + simpl. eexists. reflexivity.
Qed.

Lemma dashboard_view_depends_on_active_tab_witness :
  exists v,
    Dashboard.view Sample.toLocaleString Sample.TypeError_message
      (Dashboard.setActiveTab Dashboard.competitor_tab
         (Fixture.showing (Fixture.keyword_result None None) "https://example.com"))
    = Returned v.
Proof.
  apply (dashboard_view_depends_on_active_tab Sample.toLocaleString
           Sample.TypeError_message).
  simpl. intros c H. discriminate H.
Defined.

(** X24. The crawl page never reads an error body: after a response that
    is not ok, whatever its status and body, the error text is
    [Failed to analyze website] and the result on display is the one that
    was there before. *)
Theorem crawl_not_ok_error_text :
  forall (fetch : string -> FetchResult Crawl.SEOData) (st : Crawl.State)
         (status : Z) (body : ErrorBody),
    Crawl.st_url st <> "" ->
    fetch (Crawl.request st) = NotOk status body ->
    Crawl.error (fst (Crawl.analyzeSEO fetch st)) = "Failed to analyze website"
    /\ Crawl.seoData (fst (Crawl.analyzeSEO fetch st)) = Crawl.seoData st
    /\ Crawl.loading (fst (Crawl.analyzeSEO fetch st)) = false.
Proof.
  intros fetch st status body Hne Hf. unfold Crawl.analyzeSEO.
  destruct (Crawl.st_url st) eqn:E; [contradiction|]. simpl negb. cbv iota zeta.
  change (Crawl.request (Crawl.setError "" (Crawl.setLoading true st)))
    with (Crawl.request st).
  rewrite Hf. simpl. auto.
Qed.

Lemma crawl_not_ok_error_text_witness :
  Crawl.error
    (fst (Crawl.analyzeSEO
            (Fixture.always (NotOk 500 (JsonObject (Some (JStr "backend overloaded")) None)))
            (Crawl.setUrl "https://example.com" Crawl.initial)))
  = "Failed to analyze website"
  /\ Crawl.seoData
       (fst (Crawl.analyzeSEO
               (Fixture.always (NotOk 500 (JsonObject (Some (JStr "backend overloaded")) None)))
               (Crawl.setUrl "https://example.com" Crawl.initial)))
     = Crawl.seoData (Crawl.setUrl "https://example.com" Crawl.initial)
  /\ Crawl.loading
       (fst (Crawl.analyzeSEO
               (Fixture.always (NotOk 500 (JsonObject (Some (JStr "backend overloaded")) None)))
               (Crawl.setUrl "https://example.com" Crawl.initial)))
     = false.
Proof.
  apply (crawl_not_ok_error_text
           (Fixture.always (NotOk 500 (JsonObject (Some (JStr "backend overloaded")) None)))
           (Crawl.setUrl "https://example.com" Crawl.initial)
           500%Z (JsonObject (Some (JStr "backend overloaded")) None));
    [discriminate | reflexivity].
Defined.

(** X25. In the dashboard an error body that is the JSON value null is not
    answered with the status line: reading [detail] of it throws, and the
    error text is the message of that [TypeError]. *)
Theorem dashboard_null_body_error_text :
  forall (TypeError_message : string -> string) (env : option string)
         (st : Dashboard.State) (status : Z),
    Text.blank (Dashboard.st_url st) = false ->
    (forall fetch,
        fetch (Dashboard.request env "/keywords" st) = NotOk status JsonNull ->
        Dashboard.error (fst (Dashboard.analyzeKeywords TypeError_message env fetch st))
        = TypeError_message "detail")
    /\ (forall fetch,
           fetch (Dashboard.request env "/analyze" st) = NotOk status JsonNull ->
           Dashboard.error
             (fst (Dashboard.analyzeCompetitor TypeError_message env fetch st))
           = TypeError_message "detail").
Proof.
  intros T env st status Hb. split; intros fetch Hf.
  - unfold Dashboard.analyzeKeywords. rewrite Hb. cbv iota zeta.
    change (Dashboard.request env "/keywords"
              (Dashboard.setError "" (Dashboard.setLoading true st)))
      with (Dashboard.request env "/keywords" st).
    rewrite Hf. reflexivity.
  - unfold Dashboard.analyzeCompetitor. rewrite Hb. cbv iota zeta.
    change (Dashboard.request env "/analyze"
              (Dashboard.setError "" (Dashboard.setLoading true st)))
      with (Dashboard.request env "/analyze" st).
    rewrite Hf. reflexivity.
Qed.

Lemma dashboard_null_body_error_text_witness :
  Dashboard.error
    (fst (Dashboard.analyzeKeywords Sample.TypeError_message None
            (Fixture.always (NotOk 500 JsonNull))
            (Dashboard.setUrl "https://example.com" Dashboard.initial)))
  = Sample.TypeError_message "detail".
Proof.
  destruct (dashboard_null_body_error_text Sample.TypeError_message None
              (Dashboard.setUrl "https://example.com" Dashboard.initial) 500%Z
              eq_refl) as [H _].
  apply H. reflexivity.
Defined.

(** ** Instances *)

Lemma request_value_has_no_separator_witness :
  exists value,
    Dashboard.request None "/keywords"
      (Dashboard.setUrl "https://example.com/?a=1&b=2#top" Dashboard.initial)
    = backend_origin None "http://localhost:8000" ++ "/keywords" ++ "?url=" ++ value
    /\ forall c, In c (list_ascii_of_string value) ->
                 Text.mem_char c "&=#?/+ " = false.
Proof.
  destruct request_value_has_no_separator as [H _].
  apply (H None "/keywords"
           (Dashboard.setUrl "https://example.com/?a=1&b=2#top" Dashboard.initial)).
Defined.

Lemma analyzer_request_has_two_parameters_witness :
  exists url_value topn_value,
    Analyzer.request None
      (Analyzer.setUrl "https://example.com/?a=1&b=2#top" Analyzer.initial)
    = backend_origin None "http://localhost:8000" ++ "/analyze?url=" ++ url_value
      ++ "&gemini_top_n=" ++ topn_value
    /\ (forall c, In c (list_ascii_of_string url_value) ->
                  Text.mem_char c "&=#?/ " = false)
    /\ (forall c, In c (list_ascii_of_string topn_value) ->
                  Text.mem_char c "&=#?/ " = false).
Proof.
  apply (analyzer_request_has_two_parameters None
           (Analyzer.setUrl "https://example.com/?a=1&b=2#top" Analyzer.initial)).
Defined.

Lemma crawl_lists_are_capped_witness :
  Crawl.keyword_rows Sample.toLocaleString
    (Fixture.crawl_result ["seo"; "tools"] ["Pricing"])
  = map (Crawl.keyword_row Sample.toLocaleString)
      (Crawl.keywords (Fixture.crawl_result ["seo"; "tools"] ["Pricing"]))
  /\ Crawl.h2_rows (Fixture.crawl_result ["seo"; "tools"] ["Pricing"])
     = map VStr (Crawl.h2 (Crawl.headings
                             (Fixture.crawl_result ["seo"; "tools"] ["Pricing"]))).
Proof.
  destruct (crawl_lists_are_capped Sample.toLocaleString
              (Fixture.crawl_result ["seo"; "tools"] ["Pricing"]))
    as (_ & _ & Hk & Hh).
  split; [apply Hk | apply Hh]; simpl; lia.
Defined.

Example crawl_keyword_row_en_US :
  Crawl.keyword_row Sample.toLocaleString (Fixture.crawl_keyword "seo")
  = VNode "keyword"
      [ VStr "seo";
        VNode "Volume" [VStr "1,200"];
        VNode "Difficulty" [VNum (Js.of_Z 40); VStr "/100"];
        VNode "CPC" [VStr "$"; VNum (Js.decimal 25 1)];
        VNode "bg-yellow-100 text-yellow-800" [VStr "Medium"];
        VNode "Relevance" [VStr "85.0"; VStr "%"] ].
Proof. vm_compute. reflexivity. Qed.
